(** * SDChecker: the host-diagnostics report, embedded and checked

    The repository holds two scripts.  [sdchecker.py] prints a handful of
    figures; [SystemDiagnosticsTool.py] collects a report (a dictionary of
    sections), prints a summary of it and can write it out as JSON.

    The embedding follows the scripts function by function.  Python values
    that end up in the report are kept dynamically typed ([pyval]), with
    dictionaries as association lists in insertion order; what the operating
    system, psutil, GPUtil, cpuinfo, distro, socket and datetime answer is
    the field of an environment record ([provider]), each call either
    returning or raising.  Exceptions are explicit ([exc]). *)

From Stdlib Require Import ZArith List String Ascii Bool Lia DecimalString.
From Stdlib Require Import Permutation Sorted.
Import ListNotations.

Local Open Scope Z_scope.
Set Warnings "-register-all".

Infix "+++" := String.append (right associativity, at level 60).

(* ================================================================== *)
(** ** The Python runtime the scripts rely on *)
(* ================================================================== *)

Module Py.

(** *** Exceptions *)

Inductive pyexc : Type :=
| KeyError
| TypeError
| ValueError
| AttributeError
| OverflowError
| PermissionError
| NoSuchProcess
| AccessDenied
| OSError (msg : string).

Inductive exc (A : Type) : Type :=
| Ok (a : A)
| Raise (e : pyexc).
Arguments Ok {A} a.
Arguments Raise {A} e.

Definition bind {A B} (m : exc A) (k : A -> exc B) : exc B :=
  match m with
  | Ok a => k a
  | Raise e => Raise e
  end.

(** [try: m  except Exception: h] *)
Definition try_except {A} (m : exc A) (h : pyexc -> exc A) : exc A :=
  match m with
  | Ok a => Ok a
  | Raise e => h e
  end.

Definition is_ok {A} (m : exc A) : bool :=
  match m with Ok _ => true | Raise _ => false end.

(** [str(e)] of an exception, as far as the scripts look at it. *)
Definition exc_str (e : pyexc) : string :=
  match e with
  | KeyError => "KeyError"
  | TypeError => "TypeError"
  | ValueError => "ValueError"
  | AttributeError => "AttributeError"
  | OverflowError => "OverflowError"
  | PermissionError => "PermissionError"
  | NoSuchProcess => "NoSuchProcess"
  | AccessDenied => "AccessDenied"
  | OSError msg => msg
  end.

(** *** Strings *)

(** [s.startswith(p)] *)
Definition startswith (s p : string) : bool := String.prefix p s.

(** [p in s] for two strings: [p] occurs in [s] as a contiguous run. *)
Fixpoint str_contains (p s : string) : bool :=
  String.prefix p s ||
  match s with
  | EmptyString => false
  | String _ s' => str_contains p s'
  end.

(** [c.upper()] on one byte.  Strings are UTF-8 byte strings; only the
    ASCII letters a..z change.  The scripts use [upper] once, to search a
    name for VPN, and that search cannot tell the difference: no character
    outside ASCII upper-cases to a V or a P, and the only one whose upper
    case holds an N puts an apostrophe before it. *)
Definition upper_ascii (c : ascii) : ascii :=
  let n := nat_of_ascii c in
  if (97 <=? n)%nat && (n <=? 122)%nat then ascii_of_nat (n - 32) else c.

Fixpoint upper (s : string) : string :=
  match s with
  | EmptyString => EmptyString
  | String c s' => String (upper_ascii c) (upper s')
  end.

(** [s * n] *)
Fixpoint str_repeat (s : string) (n : nat) : string :=
  match n with
  | O => EmptyString
  | S n' => s +++ str_repeat s n'
  end.

(** [sep.join(l)], used for [print] with several arguments. *)
Fixpoint join (sep : string) (l : list string) : string :=
  match l with
  | [] => EmptyString
  | [x] => x
  | x :: rest => x +++ sep +++ join sep rest
  end.

(** The part of [s] before the first [c]: [s.split(c)[0]]. *)
Fixpoint before_char (c : ascii) (s : string) : string :=
  match s with
  | EmptyString => EmptyString
  | String a s' => if Ascii.eqb a c then EmptyString else String a (before_char c s')
  end.

(** Decimal digits of a non-negative integer. *)
Definition dec (z : Z) : string := NilZero.string_of_uint (N.to_uint (Z.to_N z)).

(** [str(n)] for an [int]. *)
Definition int_str (n : Z) : string :=
  if n <? 0 then "-" +++ dec (- n) else dec n.

Definition digit_char (k : Z) : ascii := ascii_of_nat (48 + Z.to_nat k).

(** The [d] lowest decimal digits of [c], most significant first. *)
Fixpoint low_digits (d : nat) (c : Z) : string :=
  match d with
  | O => EmptyString
  | S d' => low_digits d' (c / 10) +++ String (digit_char (c mod 10)) EmptyString
  end.

(** *** Floats

    A Python [float] is an IEEE binary64.  A finite one is kept as sign,
    magnitude and binary exponent, denoting [± m * 2^e] exactly; the
    magnitude has at most 53 bits and the exponent is at least -1074. *)

Inductive pyfloat : Type :=
| Fin (neg : bool) (m : Z) (e : Z)
| Inf (neg : bool)
| NaN.

(** The integer nearest to [num / den], ties to the even one ([den > 0]). *)
Definition round_half_even (num den : Z) : Z :=
  let q := num / den in
  let r := num mod den in
  match 2 * r ?= den with
  | Lt => q
  | Gt => q + 1
  | Eq => if Z.even q then q else q + 1
  end.

(** A non-negative integer rounded to 53 significant bits, as magnitude
    and exponent. *)
Definition round53 (a : Z) : Z * Z :=
  let bits := if a =? 0 then 0 else Z.log2 a + 1 in
  if bits <=? 53 then (a, 0)
  else let sh := bits - 53 in (round_half_even a (2 ^ sh), sh).

(** [float(n)] for an [int]: correctly rounded, and an [OverflowError]
    when the rounded value does not fit. *)
Definition float_of_int (n : Z) : exc pyfloat :=
  let '(m, sh) := round53 (Z.abs n) in
  if 2 ^ 1024 <=? m * 2 ^ sh then Raise OverflowError
  else Ok (Fin (n <? 0) m sh).

(** [x / 2^k] for a float: the exponent drops by [k]; below the smallest
    exponent the magnitude is rounded. *)
Definition float_div_pow2 (x : pyfloat) (k : Z) : pyfloat :=
  match x with
  | Fin s m e =>
      if e - k <? -1074
      then Fin s (round_half_even m (2 ^ (-1074 - (e - k)))) (-1074)
      else Fin s m (e - k)
  | Inf s => Inf s
  | NaN => NaN
  end.

(** [n / 2^k] for an [int] (true division of two ints): the correctly
    rounded quotient, an [OverflowError] when it does not fit. *)
Definition int_truediv_pow2 (n : Z) (k : Z) : exc pyfloat :=
  let '(m, sh) := round53 (Z.abs n) in
  if 2 ^ (1024 + k) <=? m * 2 ^ sh then Raise OverflowError
  else Ok (float_div_pow2 (Fin (n <? 0) m sh) k).

(** The signed value of a finite float, scaled by [2^-emin]. *)
Definition scaled (s : bool) (m e emin : Z) : Z :=
  (if s then - m else m) * 2 ^ (e - emin).

(** [x < y] *)
Definition float_ltb (x y : pyfloat) : bool :=
  match x, y with
  | NaN, _ | _, NaN => false
  | Inf sx, Inf sy => sx && negb sy
  | Inf sx, Fin _ _ _ => sx
  | Fin _ _ _, Inf sy => negb sy
  | Fin sx mx ex, Fin sy my ey =>
      let emin := Z.min ex ey in
      scaled sx mx ex emin <? scaled sy my ey emin
  end.

(** [abs(x)] *)
Definition float_abs (x : pyfloat) : pyfloat :=
  match x with
  | Fin _ m e => Fin false m e
  | Inf _ => Inf false
  | NaN => NaN
  end.

(** [bool(x)]: every float but zero is true, NaN included. *)
Definition float_truthy (x : pyfloat) : bool :=
  match x with
  | Fin _ m _ => negb (m =? 0)
  | _ => true
  end.

(** The magnitude in units of [10^-d], correctly rounded. *)
Definition scaled_decimal (d : nat) (m e : Z) : Z :=
  if 0 <=? e then m * 2 ^ e * 10 ^ Z.of_nat d
  else round_half_even (m * 10 ^ Z.of_nat d) (2 ^ (- e)).

(** A count [c] of units of [10^-d] written in fixed notation. *)
Definition fixed (d : nat) (c : Z) : string :=
  dec (c / 10 ^ Z.of_nat d) +++
  match d with
  | O => EmptyString
  | _ => "." +++ low_digits d c
  end.

(** [format(x, ".<d>f")] *)
Definition format_f (d : nat) (x : pyfloat) : string :=
  match x with
  | Fin s m e => (if s then "-" else "") +++ fixed d (scaled_decimal d m e)
  | Inf s => if s then "-inf" else "inf"
  | NaN => "nan"
  end.

(** A number held by a variable that starts as an [int] and may become a
    [float]. *)
Inductive pynum : Type :=
| PInt (n : Z)
| PFloat (x : pyfloat).

(** [f"{x:.<d>f}"]: an [int] is converted to a float first. *)
Definition num_format_f (d : nat) (x : pynum) : exc string :=
  match x with
  | PInt n => bind (float_of_int n) (fun f => Ok (format_f d f))
  | PFloat f => Ok (format_f d f)
  end.

(** [int(x)] for a float: truncation towards zero. *)
Definition float_trunc (x : pyfloat) : exc Z :=
  match x with
  | Fin s m e =>
      let a := if 0 <=? e then m * 2 ^ e else m / 2 ^ (- e) in
      Ok (if s then - a else a)
  | Inf _ => Raise OverflowError
  | NaN => Raise ValueError
  end.

(** *** Values of the report

    What the report holds: [None], booleans, ints, floats, strings, lists
    and dictionaries with string keys.  A dictionary is the list of its
    items in insertion order. *)

Inductive pyval : Type :=
| VNone
| VBool (b : bool)
| VInt (n : Z)
| VFloat (x : pyfloat)
| VStr (s : string)
| VList (l : list pyval)
| VDict (d : list (string * pyval)).

Definition dict : Type := list (string * pyval).

(** [d.get(k)] as an option. *)
Fixpoint dict_find (d : dict) (k : string) : option pyval :=
  match d with
  | [] => None
  | (k', v) :: rest => if String.eqb k' k then Some v else dict_find rest k
  end.

(** [k in d] *)
Definition dict_has (d : dict) (k : string) : bool :=
  match dict_find d k with Some _ => true | None => false end.

(** [d[k] = v]: an existing key keeps its place, a new one goes last. *)
Fixpoint dict_set (d : dict) (k : string) (v : pyval) : dict :=
  match d with
  | [] => [(k, v)]
  | (k', v') :: rest =>
      if String.eqb k' k then (k', v) :: rest else (k', v') :: dict_set rest k v
  end.

Definition dict_keys (d : dict) : list string := map fst d.

(** [x if x is not None else None] for optional provider fields. *)
Definition opt_val {A} (f : A -> pyval) (o : option A) : pyval :=
  match o with Some a => f a | None => VNone end.

(** Float and container builtins that are not computed here; they are
    taken as given. *)
Class Builtins : Type := {
  (** [str(x)] of a float *)
  float_repr : pyfloat -> string;
  (** [float(s)] of a string *)
  float_parse : string -> exc pyfloat;
  (** [round(x, ndigits)] *)
  float_round : pyfloat -> Z -> pyfloat;
  (** [x * y] *)
  float_mul : pyfloat -> pyfloat -> pyfloat;
  (** [str(v)] of a list or a dictionary *)
  container_repr : pyval -> string
}.

Section WithBuiltins.
Context {B : Builtins}.

(** [bool(v)] *)
Definition truthy (v : pyval) : bool :=
  match v with
  | VNone => false
  | VBool b => b
  | VInt n => negb (n =? 0)
  | VFloat x => float_truthy x
  | VStr s => negb (String.eqb s "")
  | VList l => match l with [] => false | _ => true end
  | VDict d => match d with [] => false | _ => true end
  end.

(** [a or b] *)
Definition py_or (a b : pyval) : pyval := if truthy a then a else b.

(** [str(v)], which is also what an f-string field and [print] show. *)
Definition py_str (v : pyval) : string :=
  match v with
  | VNone => "None"
  | VBool b => if b then "True" else "False"
  | VInt n => int_str n
  | VFloat x => float_repr x
  | VStr s => s
  | VList _ | VDict _ => container_repr v
  end.

(** [float(v)] *)
Definition py_float (v : pyval) : exc pyfloat :=
  match v with
  | VBool b => Ok (Fin false (if b then 1 else 0) 0)
  | VInt n => float_of_int n
  | VFloat x => Ok x
  | VStr s => float_parse s
  | VNone | VList _ | VDict _ => Raise TypeError
  end.

(** [v.get(k, default)]: only a dictionary has the method. *)
Definition get_or (v : pyval) (k : string) (default : pyval) : exc pyval :=
  match v with
  | VDict d => Ok (match dict_find d k with Some x => x | None => default end)
  | _ => Raise AttributeError
  end.

(** [v.get(k)] *)
Definition get (v : pyval) (k : string) : exc pyval := get_or v k VNone.

(** [v[k]] with a string key. *)
Definition getitem (v : pyval) (k : string) : exc pyval :=
  match v with
  | VDict d => match dict_find d k with Some x => Ok x | None => Raise KeyError end
  | _ => Raise TypeError
  end.

(** [v.items()] *)
Definition items (v : pyval) : exc (list (string * pyval)) :=
  match v with
  | VDict d => Ok d
  | _ => Raise AttributeError
  end.

(** [v.keys()] *)
Definition keys (v : pyval) : exc (list string) :=
  match v with
  | VDict d => Ok (dict_keys d)
  | _ => Raise AttributeError
  end.

Fixpoint chars (s : string) : list pyval :=
  match s with
  | EmptyString => []
  | String c s' => VStr (String c EmptyString) :: chars s'
  end.

(** [for x in v]: the elements of a list, the keys of a dictionary, the
    characters of a string (byte by byte here; the scripts only ever
    subscript them, which fails for any string). *)
Definition iter (v : pyval) : exc (list pyval) :=
  match v with
  | VList l => Ok l
  | VDict d => Ok (map VStr (dict_keys d))
  | VStr s => Ok (chars s)
  | _ => Raise TypeError
  end.

(** [p in v] for a string [p]. *)
Definition contains (p : string) (v : pyval) : exc bool :=
  match v with
  | VStr s => Ok (str_contains p s)
  | VList l =>
      Ok (existsb (fun x => match x with VStr s => String.eqb s p | _ => false end) l)
  | VDict d => Ok (dict_has d p)
  | _ => Raise TypeError
  end.

(** [v.startswith(p)] *)
Definition val_startswith (v : pyval) (p : string) : exc bool :=
  match v with
  | VStr s => Ok (startswith s p)
  | _ => Raise AttributeError
  end.

End WithBuiltins.

(** [l[:n]] *)
Definition slice_to {A} (n : Z) (l : list A) : list A :=
  if 0 <=? n then firstn (Z.to_nat n) l
  else firstn (List.length l - Z.to_nat (- n)) l.

(** [sorted(l, key=key, reverse=True)], with [ltb] the [<] of the keys.
    The builtin is a stable sort, and stays stable when reversed: the
    result is in descending key order and elements whose keys compare equal
    keep the order they had in [l].  Insertion from the right, past the
    strictly greater elements only, computes that list. *)
Section Sorted.
Context {A K : Type} (ltb : K -> K -> bool) (key : A -> K).

Fixpoint insert_desc (x : A) (l : list A) : list A :=
  match l with
  | [] => [x]
  | y :: rest =>
      if ltb (key x) (key y) then y :: insert_desc x rest else x :: y :: rest
  end.

Definition sorted_reverse (l : list A) : list A :=
  fold_right insert_desc [] l.

End Sorted.

(** *** Output

    [print] appends a line to standard output; a computation that prints
    carries the lines it has printed together with its outcome. *)

Definition io (A : Type) : Type := list string * exc A.

Definition io_ret {A} (a : A) : io A := ([], Ok a).

Definition io_bind {A C} (m : io A) (k : A -> io C) : io C :=
  match m with
  | (o1, Ok a) => let '(o2, r) := k a in ((o1 ++ o2)%list, r)
  | (o1, Raise e) => (o1, Raise e)
  end.

Definition lift {A} (m : exc A) : io A := ([], m).

(** [print(a, b, ...)] *)
Definition print (args : list string) : io unit := ([join " " args], Ok tt).

(** [for x in l: body(x)] *)
Fixpoint for_each {A} (l : list A) (body : A -> io unit) : io unit :=
  match l with
  | [] => io_ret tt
  | x :: rest => io_bind (body x) (fun _ => for_each rest body)
  end.

End Py.

Import Py.

Notation "x <- m ;; k" := (bind m (fun x => k))
  (at level 61, m at next level, right associativity).
Notation "x <~ m ;; k" := (io_bind m (fun x => k))
  (at level 61, m at next level, right associativity).
Notation "m ;;; k" := (io_bind m (fun _ => k))
  (at level 61, right associativity).

(* ================================================================== *)
(** ** What psutil and GPUtil hand back *)
(* ================================================================== *)

Module Psutil.

(** One record per named tuple the scripts read, with the fields they read.
    Where the script takes [str(...)] of an enum member ([addr.family],
    [st.duplex], [c.type]) the field is that string. *)

Record uname_result := {
  u_system : string; u_node : string; u_release : string;
  u_version : string; u_machine : string; u_processor : string }.

Record scpufreq := { freq_current : pyfloat; freq_min : pyfloat; freq_max : pyfloat }.

Record svmem := { vm_total : Z; vm_available : Z; vm_used : Z; vm_percent : pyfloat }.

Record sswap := { sw_total : Z; sw_used : Z; sw_percent : pyfloat }.

Record sdiskpart := {
  device : string; mountpoint : string; fstype : string; opts : string }.

Record sdiskusage := { du_total : Z; du_used : Z; du_free : Z; du_percent : pyfloat }.

Record sdiskio := { read_bytes : Z; write_bytes : Z; read_count : Z; write_count : Z }.

Record snicaddr := {
  family : string; address : string;
  netmask : option string; broadcast : option string }.

Record snicstats := { isup : bool; duplex : string; speed : Z; mtu : Z }.

Record snetio := {
  bytes_sent : Z; bytes_recv : Z; packets_sent : Z; packets_recv : Z }.

Record gpu := {
  gpu_id : Z; gpu_name : string; load : pyfloat;
  memoryTotal : pyfloat; memoryUsed : pyfloat; memoryFree : pyfloat;
  memoryUtil : pyfloat; temperature : option pyfloat }.

Record shwtemp := {
  t_label : string; t_current : pyfloat;
  t_high : option pyfloat; t_critical : option pyfloat }.

Record sfan := { f_label : string; f_current : Z }.

Record sbattery := {
  b_percent : pyfloat; b_secsleft : Z; b_power_plugged : option bool }.

(** A process as [process_iter] yields it; reading its CPU share or its
    memory may raise. *)
Record process := {
  pid : Z; name : option string; username : option string;
  cpu_percent : exc pyfloat; memory_rss : exc Z }.

Record sconn := {
  fd : Z; c_family : string; c_type : string;
  laddr : option (string * Z); raddr : option (string * Z);
  c_pid : option Z; status : string }.

End Psutil.

Import Psutil.

(* ================================================================== *)
(** ** sdchecker.py *)
(* ================================================================== *)

Module Sdchecker.

(** [factor = 1024], an [int]. *)
Definition factor : Z := 1024.

Definition units : list string := [""; "K"; "M"; "G"; "T"; "P"]%string.

(** [bytes < factor] *)
Definition lt_factor (bytes : pynum) : bool :=
  match bytes with
  | PInt n => n <? factor
  | PFloat x => float_ltb x (Fin false 1 10)
  end.

(** [bytes /= factor] *)
Definition div_factor (bytes : pynum) : exc pynum :=
  match bytes with
  | PInt n => x <- int_truediv_pow2 n 10 ;; Ok (PFloat x)
  | PFloat x => Ok (PFloat (float_div_pow2 x 10))
  end.

(** The loop of [get_size]; falling off its end returns [None]. *)
Fixpoint get_size_loop (us : list string) (bytes : pynum) (suffix : string)
  : exc (option string) :=
  match us with
  | [] => Ok None
  | unit :: rest =>
      if lt_factor bytes
      then s <- num_format_f 2 bytes ;; Ok (Some (s +++ unit +++ suffix))
      else bytes' <- div_factor bytes ;; get_size_loop rest bytes' suffix
  end.

Definition get_size (bytes : Z) (suffix : string) : exc (option string) :=
  get_size_loop units (PInt bytes) suffix.

(** An f-string field holding what [get_size] returned. *)
Definition show (o : option string) : string :=
  match o with Some s => s | None => "None" end.

(** The loop over the partitions: the device is printed first; a
    [PermissionError] of the usage query skips the three figures. *)
Definition disk_section (partitions : list sdiskpart)
    (disk_usage : string -> exc sdiskusage) : io unit :=
  for_each partitions (fun partition =>
    print ["- Dysk: " +++ device partition] ;;;
    match disk_usage (mountpoint partition) with
    | Raise PermissionError => io_ret tt
    | Raise e => lift (Raise e)
    | Ok partition_usage =>
        total <~ lift (get_size (du_total partition_usage) "B") ;;
        print ["  Rozmiar: " +++ show total] ;;;
        used <~ lift (get_size (du_used partition_usage) "B") ;;
        print ["  Użycie: " +++ show used] ;;;
        free <~ lift (get_size (du_free partition_usage) "B") ;;
        print ["  Wolne miejsce: " +++ show free]
    end).

End Sdchecker.

(* ================================================================== *)
(** ** SystemDiagnosticsTool.py *)
(* ================================================================== *)

Module SystemDiagnosticsTool.

(** [factor = 1024.0], a [float]. *)
Definition factor : pyfloat := Fin false 1 10.

Definition units : list string := [""; "K"; "M"; "G"; "T"; "P"]%string.

(** [abs(bytes) < factor]; an [int] is compared with a float exactly. *)
Definition abs_lt_factor (bytes : pynum) : bool :=
  match bytes with
  | PInt n => Z.abs n <? 1024
  | PFloat x => float_ltb (float_abs x) factor
  end.

(** [bytes /= factor]: an [int] is converted to a float first. *)
Definition div_factor (bytes : pynum) : exc pynum :=
  match bytes with
  | PInt n => x <- float_of_int n ;; Ok (PFloat (float_div_pow2 x 10))
  | PFloat x => Ok (PFloat (float_div_pow2 x 10))
  end.

Fixpoint get_size_loop (us : list string) (bytes : pynum) (suffix : string)
  : exc string :=
  match us with
  | [] => s <- num_format_f 2 bytes ;; Ok (s +++ "E" +++ suffix)
  | unit :: rest =>
      if abs_lt_factor bytes
      then s <- num_format_f 2 bytes ;; Ok (s +++ unit +++ suffix)
      else bytes' <- div_factor bytes ;; get_size_loop rest bytes' suffix
  end.

Definition get_size_suffix (bytes : Z) (suffix : string) : exc string :=
  get_size_loop units (PInt bytes) suffix.

(** [get_size(bytes)], with the default suffix. *)
Definition get_size (bytes : Z) : exc string := get_size_suffix bytes "B".

(** *** What the operating system and the libraries answer *)

Record provider := {
  HAVE_GPUTIL : bool;
  HAVE_CPUINFO : bool;
  HAVE_DISTRO : bool;
  (** [datetime.datetime.now().isoformat()] *)
  now_isoformat : string;
  uname : uname_result;
  getuser : exc string;
  (** [distro.name(pretty=True)] *)
  distro_name : exc string;
  boot_time : exc pyfloat;
  (** [datetime.datetime.fromtimestamp(ts).isoformat()] *)
  boot_isoformat : pyfloat -> exc string;
  (** [(now - fromtimestamp(ts)).total_seconds()] *)
  uptime_total_seconds : pyfloat -> pyfloat;
  (** [str(now - fromtimestamp(ts))] *)
  uptime_str : pyfloat -> string;
  cpu_count_physical : exc (option Z);
  cpu_count_logical : exc (option Z);
  cpu_freq : exc (option scpufreq);
  cpu_percent_percpu : exc (list pyfloat);
  cpu_percent_total : exc pyfloat;
  get_cpu_info : exc dict;
  virtual_memory : exc svmem;
  swap_memory : exc sswap;
  disk_partitions : exc (list sdiskpart);
  disk_usage : string -> exc sdiskusage;
  disk_io_counters : exc (option sdiskio);
  net_if_addrs : exc (list (string * list snicaddr));
  net_if_stats : exc (list (string * snicstats));
  net_io_counters : exc (option snetio);
  getGPUs : exc (list gpu);
  sensors_temperatures : exc (list (string * list shwtemp));
  sensors_fans : exc (list (string * list sfan));
  sensors_battery : exc (option sbattery);
  process_iter : exc (list process);
  net_connections : exc (list sconn);
  (** [socket.gethostbyname(socket.gethostname())] *)
  gethostbyname_hostname : exc string;
  (** [open("system_report.json", "w")] *)
  open_report : exc unit }.

(** [psutil.CONN_LISTEN] *)
Definition CONN_LISTEN : string := "LISTEN".

(** The command line: [--json], [--top N], [--quiet]. *)
Record arguments := { json : bool; top : Z; quiet : bool }.

(** [[f(x) for x in l]] where [f] may raise. *)
Fixpoint map_exc {A C} (f : A -> exc C) (l : list A) : exc (list C) :=
  match l with
  | [] => Ok []
  | x :: rest => y <- f x ;; ys <- map_exc f rest ;; Ok (y :: ys)
  end.

(** [{k: f(v) for k, v in l}] *)
Definition dict_comprehension {A} (f : A -> pyval) (l : list (string * A)) : dict :=
  fold_left (fun d kv => dict_set d (fst kv) (f (snd kv))) l [].

Definition opt_str (o : option string) : pyval := opt_val VStr o.
Definition opt_float (o : option pyfloat) : pyval := opt_val VFloat o.
Definition opt_int (o : option Z) : pyval := opt_val VInt o.

Section Collector.
Context {B : Builtins}.
Variable P : provider.

Definition uptime_info : exc pyval :=
  boot_ts <- boot_time P ;;
  iso <- boot_isoformat P boot_ts ;;
  secs <- float_trunc (uptime_total_seconds P boot_ts) ;;
  Ok (VDict [
    ("boot_time", VStr iso);
    ("uptime_seconds", VInt secs);
    ("uptime_human", VStr (before_char "." (uptime_str P boot_ts)))
  ]%string).

Definition basic_system_info : exc pyval :=
  let u := uname P in
  user <- getuser P ;;
  let sys := [
    ("system", VStr (u_system u));
    ("node_name", VStr (u_node u));
    ("release", VStr (u_release u));
    ("version", VStr (u_version u));
    ("machine", VStr (u_machine u));
    ("processor", py_or (VStr (u_processor u)) (VStr "unknown"));
    ("user", VStr user)
  ]%string in
  if HAVE_DISTRO P
  then d <- distro_name P ;; Ok (VDict (dict_set sys "distro" (VStr d)))
  else Ok (VDict sys).

Definition cpu_freq_dict (f : scpufreq) : pyval :=
  VDict [
    ("current_mhz", VFloat (float_round (freq_current f) 2));
    ("min_mhz", VFloat (float_round (freq_min f) 2));
    ("max_mhz", VFloat (float_round (freq_max f) 2))
  ]%string.

(** [ci.get(k)] for each key the script copies. *)
Definition cpu_detailed (ci : dict) : pyval :=
  let g k := match dict_find ci k with Some v => v | None => VNone end in
  VDict [
    ("brand_raw", g "brand_raw");
    ("arch", g "arch");
    ("bits", g "bits");
    ("hz_advertised", g "hz_advertised_friendly");
    ("hz_actual", g "hz_actual_friendly");
    ("flags", g "flags")
  ]%string.

Definition cpu_info : exc pyval :=
  phys <- cpu_count_physical P ;;
  logical <- cpu_count_logical P ;;
  let info := [
    ("physical_cores", opt_int phys);
    ("total_logical_cpus", opt_int logical);
    ("cpu_freq", VNone);
    ("cpu_usage_per_core", VNone);
    ("cpu_total_usage_percent", VNone);
    ("detailed", VNone)
  ]%string in
  let info :=
    match cpu_freq P with
    | Ok (Some f) => dict_set info "cpu_freq" (cpu_freq_dict f)
    | Ok None => info
    | Raise _ => info
    end in
  per_core <- cpu_percent_percpu P ;;
  let info := dict_set info "cpu_usage_per_core" (VList (map VFloat per_core)) in
  total <- cpu_percent_total P ;;
  let info := dict_set info "cpu_total_usage_percent" (VFloat total) in
  let info :=
    if HAVE_CPUINFO P
    then match get_cpu_info P with
         | Ok ci => dict_set info "detailed" (cpu_detailed ci)
         | Raise _ => info
         end
    else info in
  Ok (VDict info).

Definition memory_info : exc pyval :=
  svmem <- virtual_memory P ;;
  swap <- swap_memory P ;;
  total <- get_size (vm_total svmem) ;;
  available <- get_size (vm_available svmem) ;;
  used <- get_size (vm_used svmem) ;;
  swap_total <- get_size (sw_total swap) ;;
  swap_used <- get_size (sw_used swap) ;;
  Ok (VDict [
    ("total", VStr total);
    ("available", VStr available);
    ("used", VStr used);
    ("percent", VFloat (vm_percent svmem));
    ("swap_total", VStr swap_total);
    ("swap_used", VStr swap_used);
    ("swap_percent", VFloat (sw_percent swap))
  ]%string).

(** One turn of the partition loop of [disks_info]: only a
    [PermissionError] of the usage query is caught. *)
Definition partition_dict (partition : sdiskpart) : exc pyval :=
  let part := [
    ("device", VStr (device partition));
    ("mountpoint", VStr (mountpoint partition));
    ("fstype", VStr (fstype partition));
    ("opts", VStr (opts partition))
  ]%string in
  try_except
    (usage <- disk_usage P (mountpoint partition) ;;
     total <- get_size (du_total usage) ;;
     let part := dict_set part "total" (VStr total) in
     used <- get_size (du_used usage) ;;
     let part := dict_set part "used" (VStr used) in
     free <- get_size (du_free usage) ;;
     let part := dict_set part "free" (VStr free) in
     let part := dict_set part "percent" (VFloat (du_percent usage)) in
     Ok (VDict part))
    (fun e =>
       match e with
       | PermissionError => Ok (VDict (dict_set part "error" (VStr "PermissionError")))
       | _ => Raise e
       end).

Definition disks_info : exc pyval :=
  partitions <- disk_partitions P ;;
  parts <- map_exc partition_dict partitions ;;
  disk_io <- disk_io_counters P ;;
  io_total_read <-
    match disk_io with
    | Some io => s <- get_size (read_bytes io) ;; Ok (VStr s)
    | None => Ok VNone
    end ;;
  io_total_write <-
    match disk_io with
    | Some io => s <- get_size (write_bytes io) ;; Ok (VStr s)
    | None => Ok VNone
    end ;;
  Ok (VDict [
    ("partitions", VList parts);
    ("io_total_read", io_total_read);
    ("io_total_write", io_total_write);
    ("io_counts_read", opt_val (fun io => VInt (read_count io)) disk_io);
    ("io_counts_write", opt_val (fun io => VInt (write_count io)) disk_io)
  ]%string).

Definition addr_dict (addr : snicaddr) : pyval :=
  VDict [
    ("family", VStr (family addr));
    ("address", VStr (address addr));
    ("netmask", opt_str (netmask addr));
    ("broadcast", opt_str (broadcast addr))
  ]%string.

Definition stats_dict (st : snicstats) : pyval :=
  VDict [
    ("isup", VBool (isup st));
    ("duplex", VStr (duplex st));
    ("speed_mbps", VInt (speed st));
    ("mtu", VInt (mtu st))
  ]%string.

Definition network_info : exc pyval :=
  let info := [("interfaces", VDict []); ("io_counters", VNone)]%string in
  addrs <- net_if_addrs P ;;
  stats <- net_if_stats P ;;
  let info :=
    dict_set info "interfaces"
      (VDict (dict_comprehension (fun l => VList (map addr_dict l)) addrs)) in
  let info := dict_set info "stats" (VDict (dict_comprehension stats_dict stats)) in
  io <- net_io_counters P ;;
  match io with
  | Some io =>
      sent <- get_size (bytes_sent io) ;;
      recv <- get_size (bytes_recv io) ;;
      Ok (VDict (dict_set info "io_counters" (VDict [
        ("bytes_sent", VStr sent);
        ("bytes_recv", VStr recv);
        ("packets_sent", VInt (packets_sent io));
        ("packets_recv", VInt (packets_recv io))
      ]%string)))
  | None => Ok (VDict info)
  end.

Definition hundred : pyfloat := Fin false 100 0.

Definition gpu_dict (g : gpu) : pyval :=
  VDict [
    ("id", VInt (gpu_id g));
    ("name", VStr (gpu_name g));
    ("load_percent", VFloat (float_round (float_mul (load g) hundred) 2));
    ("memory_total", VStr (float_repr (memoryTotal g) +++ "MB"));
    ("memory_used", VStr (float_repr (memoryUsed g) +++ "MB"));
    ("memory_free", VStr (float_repr (memoryFree g) +++ "MB"));
    ("memory_util_percent", VFloat (float_round (float_mul (memoryUtil g) hundred) 2));
    ("temperature_c", opt_float (temperature g))
  ]%string.

Definition gpu_info : pyval :=
  if negb (HAVE_GPUTIL P)
  then VDict [
    ("available", VBool false);
    ("note", VStr "GPUtil not installed. Install with 'pip install GPUtil' for GPU info.")
  ]%string
  else
    match getGPUs P with
    | Ok gpus => VDict [("available", VBool true); ("gpus", VList (map gpu_dict gpus))]%string
    | Raise e => VDict [("available", VBool false); ("error", VStr (exc_str e))]%string
    end.

(** [t._asdict()] *)
Definition temp_asdict (t : shwtemp) : pyval :=
  VDict [
    ("label", VStr (t_label t));
    ("current", VFloat (t_current t));
    ("high", opt_float (t_high t));
    ("critical", opt_float (t_critical t))
  ]%string.

Definition fan_asdict (f : sfan) : pyval :=
  VDict [("label", VStr (f_label f)); ("current", VInt (f_current f))]%string.

Definition sensors_info : pyval :=
  let out := [] in
  let out :=
    match sensors_temperatures P with
    | Ok temps =>
        dict_set out "temperatures"
          (VDict (dict_comprehension (fun v => VList (map temp_asdict v)) temps))
    | Raise _ => dict_set out "temperatures_error" (VStr "not supported")
    end in
  let out :=
    match sensors_fans P with
    | Ok fans =>
        dict_set out "fans"
          (VDict (dict_comprehension (fun v => VList (map fan_asdict v)) fans))
    | Raise _ => dict_set out "fans_error" (VStr "not supported")
    end in
  let out :=
    match sensors_battery P with
    | Ok (Some batt) =>
        dict_set out "battery" (VDict [
          ("percent", VFloat (b_percent batt));
          ("secsleft", VInt (b_secsleft batt));
          ("power_plugged", opt_val VBool (b_power_plugged batt))
        ]%string)
    | Ok None => dict_set out "battery" VNone
    | Raise _ => dict_set out "battery_error" (VStr "not supported")
    end in
  VDict out.

(** A process that was read: the entries of the dictionary
    [top_processes] builds for it. *)
Record proc_entry := {
  e_pid : Z; e_name : option string; e_user : option string;
  e_cpu_percent : pyfloat; e_memory_rss : Z; e_memory_rss_human : string }.

Definition proc_dict (x : proc_entry) : pyval :=
  VDict [
    ("pid", VInt (e_pid x));
    ("name", opt_str (e_name x));
    ("user", opt_str (e_user x));
    ("cpu_percent", VFloat (e_cpu_percent x));
    ("memory_rss", VInt (e_memory_rss x));
    ("memory_rss_human", VStr (e_memory_rss_human x))
  ]%string.

(** The body of the enumeration loop: [None] stands for [continue]. *)
Definition read_process (p : process) : exc (option proc_entry) :=
  try_except
    (cpu <- cpu_percent p ;;
     mem <- memory_rss p ;;
     human <- get_size mem ;;
     Ok (Some {| e_pid := pid p; e_name := name p; e_user := username p;
                 e_cpu_percent := cpu; e_memory_rss := mem;
                 e_memory_rss_human := human |}))
    (fun e =>
       match e with
       | NoSuchProcess | AccessDenied => Ok None
       | _ => Raise e
       end).

(** The list [procs] at the end of the enumeration loop. *)
Fixpoint read_processes (l : list process) : exc (list proc_entry) :=
  match l with
  | [] => Ok []
  | p :: rest =>
      r <- read_process p ;;
      procs <- read_processes rest ;;
      Ok (match r with Some x => x :: procs | None => procs end)
  end.

(** The two rankings of a list of read processes.  The dictionaries are
    written out after sorting here; the sort reads only its key. *)
Definition by_cpu (n : Z) (procs : list proc_entry) : list proc_entry :=
  slice_to n (sorted_reverse float_ltb e_cpu_percent procs).

Definition by_mem (n : Z) (procs : list proc_entry) : list proc_entry :=
  slice_to n (sorted_reverse Z.ltb e_memory_rss procs).

Definition top_processes (n : Z) : exc pyval :=
  ps <- process_iter P ;;
  procs <- read_processes ps ;;
  Ok (VDict [
    ("top_cpu", VList (map proc_dict (by_cpu n procs)));
    ("top_memory", VList (map proc_dict (by_mem n procs)))
  ]%string).

Definition endpoint (a : option (string * Z)) : pyval :=
  match a with
  | Some (ip, port) => VStr (ip +++ ":" +++ int_str port)
  | None => VNone
  end.

Definition conn_dict (c : sconn) : pyval :=
  VDict [
    ("fd", VInt (fd c));
    ("family", VStr (c_family c));
    ("type", VStr (c_type c));
    ("laddr", endpoint (laddr c));
    ("raddr", endpoint (raddr c));
    ("pid", opt_int (c_pid c))
  ]%string.

Definition running_services_and_connections : pyval :=
  let conns :=
    match net_connections P with
    | Ok cs => map conn_dict (filter (fun c => String.eqb (status c) CONN_LISTEN) cs)
    | Raise _ => []
    end in
  VDict [("listening_sockets", VList conns)]%string.

Definition collect_all (args : arguments) : exc pyval :=
  basic_system <- basic_system_info ;;
  uptime <- uptime_info ;;
  cpu <- cpu_info ;;
  memory <- memory_info ;;
  disks <- disks_info ;;
  network <- network_info ;;
  let sensors := sensors_info in
  let gpu := gpu_info in
  processes <- top_processes (top args) ;;
  let connections := running_services_and_connections in
  Ok (VDict [
    ("generated_at", VStr (now_isoformat P));
    ("basic_system", basic_system);
    ("uptime", uptime);
    ("cpu", cpu);
    ("memory", memory);
    ("disks", disks);
    ("network", network);
    ("sensors", sensors);
    ("gpu", gpu);
    ("processes", processes);
    ("connections", connections)
  ]%string).

(** *** The presenter *)

Local Open Scope string_scope.

(** What [get_primary_ipv4] returns: address, interface name, link speed. *)
Definition primary : Type := pyval * pyval * pyval.

(** The inner loop of [get_primary_ipv4] over the addresses of one
    interface; [Some] is a [return] from inside the loop. *)
Fixpoint scan_addrs (network_report : pyval) (ifname : string) (addrs : list pyval)
  : exc (option primary) :=
  match addrs with
  | [] => Ok None
  | a :: rest =>
      fam <- getitem a "family" ;;
      is_inet <- contains "AF_INET" fam ;;
      chosen <-
        (if is_inet
         then addr <- getitem a "address" ;;
              if truthy addr
              then loopback <- val_startswith addr "127." ;; Ok (negb loopback)
              else Ok false
         else Ok false) ;;
      if (chosen : bool)
      then addr <- getitem a "address" ;;
           stats <- getitem network_report "stats" ;;
           st <- get_or stats ifname (VDict []) ;;
           speed <- get st "speed_mbps" ;;
           Ok (Some (addr, VStr ifname, speed))
      else scan_addrs network_report ifname rest
  end.

(** The outer loop, over the interfaces in the order of the dictionary. *)
Fixpoint scan_interfaces (network_report : pyval) (ifs : list (string * pyval))
  : exc (option primary) :=
  match ifs with
  | [] => Ok None
  | (ifname, addrs) :: rest =>
      l <- iter addrs ;;
      r <- scan_addrs network_report ifname l ;;
      match r with
      | Some found => Ok (Some found)
      | None => scan_interfaces network_report rest
      end
  end.

Definition no_address : primary := (VNone, VNone, VNone).

Definition get_primary_ipv4 (network_report : pyval) : exc primary :=
  interfaces <- getitem network_report "interfaces" ;;
  ifs <- items interfaces ;;
  r <- scan_interfaces network_report ifs ;;
  match r with
  | Some found => Ok found
  | None =>
      match gethostbyname_hostname P with
      | Ok h =>
          if negb (String.eqb h "") && negb (startswith h "127.")
          then Ok (VStr h, VStr "hostname", VNone)
          else Ok no_address
      | Raise _ => Ok no_address
      end
  end.

Definition human_percent (x : pyval) : string :=
  match py_float x with
  | Ok f => format_f 1 f +++ "%"
  | Raise _ => py_str x
  end.

Definition is_none (v : pyval) : bool :=
  match v with VNone => true | _ => false end.

(** The line printed for one partition. *)
Definition disk_line (p : pyval) : exc string :=
  dev <- get_or p "device" (VStr "-") ;;
  mount <- get_or p "mountpoint" (VStr "-") ;;
  fst0 <- get p "fstype" ;;
  let fstype := py_or fst0 (VStr "-") in
  total <- get_or p "total" (VStr "-") ;;
  pct <- get_or p "percent" (VStr "-") ;;
  Ok (py_str dev +++ " typ: " +++ py_str fstype +++ "  rozmiar: " +++ py_str total
      +++ "  zajęte: " +++ py_str pct +++ "%").

(** The two lines (one [print]) for one GPU. *)
Definition gpu_line (g : pyval) : exc string :=
  mem_used <- get g "memory_used" ;;
  mem_total <- get g "memory_total" ;;
  let mem_used_s := if is_none mem_used then "-" else py_str mem_used +++ "MB" in
  let mem_total_s := if is_none mem_total then "-" else py_str mem_total +++ "MB" in
  load0 <- get g "load_percent" ;;
  let load := py_or load0 (VFloat (Fin false 0 0)) in
  temp0 <- get g "temperature_c" ;;
  let temp := py_or temp0 (VStr "-") in
  gname <- get_or g "name" (VStr "-") ;;
  load_f <- py_float load ;;
  Ok (py_str gname +++ "  | Obciążenie: " +++ format_f 1 load_f +++ "% "
      +++ String (ascii_of_nat 10) "Pamięć VRAM: " +++ mem_used_s +++ " / " +++ mem_total_s
      +++ "  | Temp: " +++ py_str temp +++ "C").

(** The line with the total CPU load. *)
Definition cpu_usage_line (cpu : pyval) : exc string :=
  total_cpu <- get cpu "cpu_total_usage_percent" ;;
  let total_cpu_f :=
    match (if is_none total_cpu then Ok (Fin false 0 0) else py_float total_cpu) with
    | Ok f => f
    | Raise _ => Fin false 0 0
    end in
  Ok (join " " ["Użycie CPU (całość):"; format_f 1 total_cpu_f +++ "%"]).

(** The line with the memory in use. *)
Definition ram_used_line (mem : pyval) : exc string :=
  used <- get_or mem "used" (VStr "-") ;;
  percent <- get_or mem "percent" (VStr "-") ;;
  Ok (join " " ["RAM użyte:"; py_str used; "(" +++ py_str percent +++ "%)"]).

(** [next((a["address"] for a in addrs if "AF_INET6" in a["family"]), None)] *)
Fixpoint first_ipv6 (addrs : list pyval) : exc pyval :=
  match addrs with
  | [] => Ok VNone
  | a :: rest =>
      fam <- getitem a "family" ;;
      is6 <- contains "AF_INET6" fam ;;
      if (is6 : bool) then getitem a "address" else first_ipv6 rest
  end.

(** The loop that picks [primary_ipv6]; [last] is its value so far. *)
Fixpoint scan_ipv6 (last : pyval) (ifs : list (string * pyval)) : exc pyval :=
  match ifs with
  | [] => Ok last
  | (_, addrs) :: rest =>
      l <- iter addrs ;;
      v <- first_ipv6 l ;;
      if truthy v then Ok v else scan_ipv6 v rest
  end.

(** [any("VPN" in name.upper() for name in names)] *)
Definition vpn_active (names : list string) : bool :=
  existsb (fun name => str_contains "VPN" (upper name)) names.

Definition print_val (args : list pyval) : io unit := print (map py_str args).

Definition pretty_print (report : pyval) (show_boot : bool) : io unit :=
  sys <~ lift (get_or report "basic_system" (VDict [])) ;;
  print [] ;;;
  print [str_repeat "=" 16; "Informacje systemowe"; str_repeat "=" 16] ;;;
  system <~ lift (get_or sys "system" (VStr "-")) ;;
  release <~ lift (get_or sys "release" (VStr "-")) ;;
  machine <~ lift (get_or sys "machine" (VStr "-")) ;;
  user <~ lift (get_or sys "user" (VStr "-")) ;;
  print [py_str system +++ " " +++ py_str release +++ " (" +++ py_str machine
         +++ ") - user: " +++ py_str user] ;;;
  distro <~ lift (get sys "distro") ;;
  (if truthy distro
   then d <~ lift (getitem sys "distro") ;; print_val [VStr "Distro:"; d]
   else io_ret tt) ;;;
  print [] ;;;
  up <~ lift (get_or report "uptime" (VDict [])) ;;
  uptime_human <~ lift (get_or up "uptime_human" (VStr "-")) ;;
  (if show_boot
   then boot <~ lift (get_or up "boot_time" (VStr "-")) ;;
        print_val [VStr "Czas pracy:"; uptime_human; VStr "| Boot:"; boot]
   else print_val [VStr "Czas pracy:"; uptime_human]) ;;;
  print [] ;;;
  print [str_repeat "-" 24; "CPU"; str_repeat "-" 25] ;;;
  cpu <~ lift (get_or report "cpu" (VDict [])) ;;
  (* [a or b or "-"]: [b] is looked up only when [a] is false *)
  physical <~ lift (get cpu "physical_cores") ;;
  cores <~ lift (if truthy physical then Ok physical else get cpu "total_logical_cpus") ;;
  let phys := py_or cores (VStr "-") in
  print ["Ilość rdzeni: " +++ py_str phys] ;;;
  freq <~ lift (get cpu "cpu_freq") ;;
  (if truthy freq
   then f <~ lift (getitem cpu "cpu_freq") ;;
        cur <~ lift (get_or f "current_mhz" (VStr "-")) ;;
        print_val [VStr "Częstotliwość (MHz):"; cur]
   else io_ret tt) ;;;
  usage <~ lift (cpu_usage_line cpu) ;;
  print [usage] ;;;
  (* [a and b]: [b] is evaluated only when [a] is true *)
  detailed <~ lift (get cpu "detailed") ;;
  brand <~ lift (if truthy detailed
                 then d <- getitem cpu "detailed" ;; get d "brand_raw"
                 else Ok detailed) ;;
  (if truthy brand
   then d <~ lift (getitem cpu "detailed") ;;
        b <~ lift (getitem d "brand_raw") ;;
        print_val [VStr "CPU model:"; b]
   else io_ret tt) ;;;
  print [] ;;;
  print [str_repeat "-" 23; "Pamięć"; str_repeat "-" 23] ;;;
  mem <~ lift (get_or report "memory" (VDict [])) ;;
  total <~ lift (get_or mem "total" (VStr "-")) ;;
  print_val [VStr "RAM całkowity:"; total] ;;;
  ram <~ lift (ram_used_line mem) ;;
  print [ram] ;;;
  print [] ;;;
  print [str_repeat "-" 23; "Dyski"; str_repeat "-" 24] ;;;
  disks <~ lift (get_or report "disks" (VDict [])) ;;
  partitions <~ lift (get_or disks "partitions" (VList [])) ;;
  parts <~ lift (iter partitions) ;;
  for_each parts (fun p => line <~ lift (disk_line p) ;; print [line]) ;;;
  print [] ;;;
  print [str_repeat "-" 24; "Sieć"; str_repeat "-" 24] ;;;
  network <~ lift (get_or report "network" (VDict [])) ;;
  interfaces <~ lift (get_or network "interfaces" (VDict [])) ;;
  found <~ lift (get_primary_ipv4 network) ;;
  let '(primary_ipv4, primary_if, _) := found in
  (if truthy primary_ipv4
   then print ["Adres IPv4: " +++ py_str primary_ipv4]
   else print ["Adres IPv4: brak"]) ;;;
  ifs <~ lift (items interfaces) ;;
  primary_ipv6 <~ lift (scan_ipv6 VNone ifs) ;;
  (if truthy primary_ipv6
   then print ["Adres IPv6: " +++ py_str primary_ipv6]
   else io_ret tt) ;;;
  names <~ lift (keys interfaces) ;;
  print [if vpn_active names then "VPN: aktywny" else "VPN: brak"] ;;;
  print [] ;;;
  print [str_repeat "-" 25; "GPU"; str_repeat "-" 24] ;;;
  gpu <~ lift (get_or report "gpu" (VDict [])) ;;
  available <~ lift (get gpu "available") ;;
  (if truthy available
   then gpus <~ lift (get_or gpu "gpus" (VList [])) ;;
        gs <~ lift (iter gpus) ;;
        for_each gs (fun g => line <~ lift (gpu_line g) ;; print [line])
   else note <~ lift (get gpu "note") ;;
        err <~ lift (if truthy note then Ok note else get gpu "error") ;;
        print_val [py_or err (VStr "Brak info o GPU")]) ;;;
  print [] ;;;
  print [str_repeat "=" 54].

(** What one run leaves behind: the lines on standard output, the files
    written (name and the report serialised into it), and how it ended. *)
Record run := {
  stdout : list string;
  written : list (string * pyval);
  outcome : exc unit }.

Definition main (args : arguments) : run :=
  match collect_all args with
  | Raise e => {| stdout := []; written := []; outcome := Raise e |}
  | Ok report =>
      let '(out, r) := if negb (quiet args) then pretty_print report false else io_ret tt in
      match r with
      | Raise e => {| stdout := out; written := []; outcome := Raise e |}
      | Ok _ =>
          if json args
          then
            let fname := "system_report.json"%string in
            match open_report P with
            | Raise e => {| stdout := out; written := []; outcome := Raise e |}
            | Ok _ =>
                {| stdout := (out ++ [join " " ["Zapisano raport do"; fname]])%list;
                   written := [(fname, report)];
                   outcome := Ok tt |}
            end
          else {| stdout := out; written := []; outcome := Ok tt |}
      end
  end.

End Collector.

End SystemDiagnosticsTool.

Module SDT := SystemDiagnosticsTool.


(* ================================================================== *)
(** ** sdchecker.py, the script *)
(* ================================================================== *)

(** The statements of [sdchecker.py] below its [get_size], run from top
    to bottom against the same environment.  [psutil.cpu_percent()] is the
    provider's total load, [psutil.disk_partitions()] its partition list. *)

Module SdcheckerScript.

Import SystemDiagnosticsTool.

Local Open Scope string_scope.

(** [enumerate(l)] *)
Fixpoint enumerate_from {A} (i : Z) (l : list A) : list (Z * A) :=
  match l with
  | [] => []
  | x :: rest => (i, x) :: enumerate_from (i + 1)%Z rest
  end.

Definition enumerate {A} (l : list A) : list (Z * A) := enumerate_from 0%Z l.

Section Script.
Context {B : Builtins}.
Variable P : provider.
(** What [input()] returns at the end. *)
Variable stdin_line : exc string.

(** The block about the operating system. *)
Definition system_block : io unit :=
  print [str_repeat "-" 35; "Informacje o systemie "; str_repeat "-" 35] ;;;
  let uname := uname P in
  print ["Nazwa systemu: " +++ u_system uname] ;;;
  print ["Wydanie: " +++ u_release uname] ;;;
  print ["Wersja: " +++ u_version uname] ;;;
  print ["Wersja bitowa: " +++ u_machine uname].

(** The block about the processor; [cpufreq.current] is read from
    whatever [cpu_freq()] returned, [None] included. *)
Definition cpu_block : io unit :=
  print [str_repeat "-" 34; "Informacje o procesorze "; str_repeat "-" 34] ;;;
  print ["Procesor: " +++ u_processor (uname P)] ;;;
  count <~ lift (cpu_count_logical P) ;;
  print ["Ilość rdzeni:"; py_str (opt_int count)] ;;;
  cpufreq <~ lift (cpu_freq P) ;;
  current <~ lift (match cpufreq with
                   | Some f => Ok (freq_current f)
                   | None => Raise AttributeError
                   end) ;;
  print ["Mhz: " +++ format_f 2 current] ;;;
  print ["Użycie procesora na poszczególne rdzenie:"] ;;;
  per_core <~ lift (cpu_percent_percpu P) ;;
  for_each (enumerate per_core) (fun ip =>
    print ["Rdzeń " +++ int_str (fst ip) +++ ": " +++ float_repr (snd ip) +++ "%"]) ;;;
  total <~ lift (cpu_percent_total P) ;;
  print ["Całkowite użycie procesora: " +++ float_repr total +++ "%"].

(** The block about memory. *)
Definition ram_block : io unit :=
  print [str_repeat "-" 38; "Informacje o RAM"; str_repeat "-" 38] ;;;
  svmem <~ lift (virtual_memory P) ;;
  total <~ lift (Sdchecker.get_size (vm_total svmem) "B") ;;
  print ["Ilość RAM: " +++ Sdchecker.show total] ;;;
  used <~ lift (Sdchecker.get_size (vm_used svmem) "B") ;;
  print ["Używane RAM: " +++ Sdchecker.show used].

(** The block about the disks. *)
Definition disk_block : io unit :=
  print [str_repeat "-" 36; "Informacje o dyskach"; str_repeat "-" 36] ;;;
  print ["Użycie dysków:"] ;;;
  partitions <~ lift (disk_partitions P) ;;
  Sdchecker.disk_section partitions (disk_usage P).

(** The lines for one address: printed only when the family string is
    exactly that of IPv4. *)
Definition address_lines (a : snicaddr) : io unit :=
  if String.eqb (family a) "AddressFamily.AF_INET"
  then print ["  Adres IP: " +++ address a] ;;;
       print ["  Maska podsieci: " +++ py_str (opt_str (netmask a))]
  else io_ret tt.

(** The block about the network. *)
Definition network_block : io unit :=
  print [str_repeat "-" 37; "Informacje sieciowe"; str_repeat "-" 36] ;;;
  if_addrs <~ lift (net_if_addrs P) ;;
  for_each if_addrs (fun kv => for_each (snd kv) address_lines).

Definition script : io unit :=
  system_block ;;;
  cpu_block ;;;
  ram_block ;;;
  disk_block ;;;
  network_block ;;;
  _ <~ lift stdin_line ;;
  io_ret tt.

End Script.

End SdcheckerScript.

(* ================================================================== *)
(** ** Vocabulary of the properties *)
(* ================================================================== *)

Import SystemDiagnosticsTool.

(** *** Sizes *)

(** The integer that [float(a)] denotes, for [a >= 0]. *)
Definition rounded (a : Z) : Z := let '(m, sh) := round53 a in m * 2 ^ sh.

(** The unit the loop stops at for a value [V], starting from the [j]-th
    power of 1024 with the units [us] left and ["E"] after them. *)
Fixpoint pick (V : Z) (j : Z) (us : list string) : Z * string :=
  match us with
  | [] => (j, "E"%string)
  | u :: rest => if V <? 1024 ^ (j + 1) then (j, u) else pick V (j + 1) rest
  end.

Definition unit_names : list string := [""; "K"; "M"; "G"; "T"; "P"; "E"]%string.

(** A count [c] of hundredths written with two decimals. *)
Definition two_decimals (c : Z) : string :=
  dec (c / 100) +++ "." +++
  String (digit_char (c / 10 mod 10)) (String (digit_char (c mod 10)) EmptyString).

(** *** Rankings *)

Section Ranking.
Context {A K : Type} (ltb : K -> K -> bool) (key : A -> K).

(** [x] may stand before [y] in a descending list. *)
Definition not_below (x y : A) : Prop := ltb (key x) (key y) = false.

(** The key of [x] ties with [k]. *)
Definition ties (k : K) (x : A) : bool :=
  negb (ltb (key x) k) && negb (ltb k (key x)).

End Ranking.

(** Floats other than NaN are totally ordered by [<]. *)
Definition ordered (x : pyfloat) : Prop := x <> NaN.

(** *** The network report and the primary address *)

Definition interfaces_dict (addrs : list (string * list snicaddr)) : pyval :=
  VDict (dict_comprehension (fun l => VList (map addr_dict l)) addrs).

Definition stats_dicts (stats : list (string * snicstats)) : pyval :=
  VDict (dict_comprehension stats_dict stats).

(** The network section [network_info] builds from an address table and a
    link table when there are no I/O counters. *)
Definition network_report_of (addrs : list (string * list snicaddr))
    (stats : list (string * snicstats)) : pyval :=
  VDict [("interfaces", interfaces_dict addrs);
         ("io_counters", VNone);
         ("stats", stats_dicts stats)]%string.

(** The test [get_primary_ipv4] applies to an address. *)
Definition eligible (a : snicaddr) : bool :=
  str_contains "AF_INET" (family a)
  && negb (String.eqb (address a) "")
  && negb (startswith (address a) "127.").

(** The first address that passes the test, interface by interface. *)
Fixpoint first_eligible (ifs : list (string * list snicaddr))
  : option (string * snicaddr) :=
  match ifs with
  | [] => None
  | (ifname, l) :: rest =>
      match find eligible l with
      | Some a => Some (ifname, a)
      | None => first_eligible rest
      end
  end.

(** The link speed recorded for an interface, [None] when there is none. *)
Definition speed_of (stats : list (string * snicstats)) (ifname : string) : pyval :=
  match dict_find (dict_comprehension stats_dict stats) ifname with
  | Some (VDict d) =>
      match dict_find d "speed_mbps" with Some v => v | None => VNone end
  | _ => VNone
  end.

(** What the fallback on the host name yields. *)
Definition hostname_fallback (P : provider) : primary :=
  match gethostbyname_hostname P with
  | Ok h =>
      if negb (String.eqb h "") && negb (startswith h "127.")
      then (VStr h, VStr "hostname", VNone)
      else no_address
  | Raise _ => no_address
  end.

(** *** Sample data *)

(** An instance of the builtins left open, for running examples: floats
    that are whole or end in an exact binary half are shown as Python
    shows them, a product of two finite floats is taken exactly, rounding
    leaves a float that has no more decimals than asked as it is. *)
Definition example_builtins : Builtins := {|
  float_repr := format_f 1;
  float_parse := fun _ => Raise ValueError;
  float_round := fun x _ => x;
  float_mul := fun x y =>
    match x, y with
    | Fin s1 m1 e1, Fin s2 m2 e2 => Fin (xorb s1 s2) (m1 * m2) (e1 + e2)
    | _, _ => NaN
    end;
  container_repr := fun _ => "<container>"%string
|}.

Definition inet (a : string) : snicaddr :=
  {| family := "AddressFamily.AF_INET"; address := a;
     netmask := None; broadcast := None |}.

Definition inet6 (a : string) : snicaddr :=
  {| family := "AddressFamily.AF_INET6"; address := a;
     netmask := None; broadcast := None |}.

Definition host_processes : list process := [
  {| pid := 1; name := Some "init"%string; username := Some "root"%string;
     cpu_percent := Ok (Fin false 0 0); memory_rss := Ok 4096 |};
  {| pid := 2; name := Some "gone"%string; username := None;
     cpu_percent := Raise NoSuchProcess; memory_rss := Ok 1 |};
  {| pid := 3; name := Some "a"%string; username := Some "alice"%string;
     cpu_percent := Ok (Fin false 5 0); memory_rss := Ok 1048576 |};
  {| pid := 4; name := Some "b"%string; username := Some "alice"%string;
     cpu_percent := Ok (Fin false 10 (-1)); memory_rss := Ok 1048576 |};
  {| pid := 5; name := Some "c"%string; username := Some "alice"%string;
     cpu_percent := Ok (Fin false 75 (-1)); memory_rss := Ok 2048 |}].

(** The four of them that can be read. *)
Definition host_procs : list proc_entry := [
  {| e_pid := 1; e_name := Some "init"%string; e_user := Some "root"%string;
     e_cpu_percent := Fin false 0 0; e_memory_rss := 4096;
     e_memory_rss_human := "4.00KB" |};
  {| e_pid := 3; e_name := Some "a"%string; e_user := Some "alice"%string;
     e_cpu_percent := Fin false 5 0; e_memory_rss := 1048576;
     e_memory_rss_human := "1.00MB" |};
  {| e_pid := 4; e_name := Some "b"%string; e_user := Some "alice"%string;
     e_cpu_percent := Fin false 10 (-1); e_memory_rss := 1048576;
     e_memory_rss_human := "1.00MB" |};
  {| e_pid := 5; e_name := Some "c"%string; e_user := Some "alice"%string;
     e_cpu_percent := Fin false 75 (-1); e_memory_rss := 2048;
     e_memory_rss_human := "2.00KB" |}].

(** A Linux host without GPUtil, cpuinfo or distro, without temperature
    or fan sensors, with one mount point it may not read, one process that
    vanishes while being read, and no right to list connections. *)
Definition host : provider := {|
  HAVE_GPUTIL := false; HAVE_CPUINFO := false; HAVE_DISTRO := false;
  now_isoformat := "2024-05-01T12:00:00";
  uname := {| u_system := "Linux"; u_node := "box"; u_release := "6.1";
              u_version := "#1"; u_machine := "x86_64"; u_processor := "" |};
  getuser := Ok "alice"%string;
  distro_name := Ok "Debian"%string;
  boot_time := Ok (Fin false 1700000000 0);
  boot_isoformat := fun _ => Ok "2023-11-14T22:13:20"%string;
  uptime_total_seconds := fun _ => Fin false 7201 (-1);
  uptime_str := fun _ => "1:00:00.500000"%string;
  cpu_count_physical := Ok (Some 4);
  cpu_count_logical := Ok (Some 8);
  cpu_freq := Ok None;
  cpu_percent_percpu := Ok [Fin false 25 (-1); Fin false 3 0];
  cpu_percent_total := Ok (Fin false 25 (-1));
  get_cpu_info := Raise (OSError "no cpuinfo");
  virtual_memory := Ok {| vm_total := 8589934592; vm_available := 4294967296;
                          vm_used := 4294967296; vm_percent := Fin false 50 0 |};
  swap_memory := Ok {| sw_total := 0; sw_used := 0; sw_percent := Fin false 0 0 |};
  disk_partitions := Ok [
    {| device := "/dev/sda1"; mountpoint := "/"; fstype := "ext4"; opts := "rw" |};
    {| device := "/dev/sdb1"; mountpoint := "/mnt/secret"; fstype := "ext4"; opts := "rw" |};
    {| device := "/dev/sdc1"; mountpoint := "/data"; fstype := "xfs"; opts := "rw" |}];
  disk_usage := fun m =>
    if String.eqb m "/mnt/secret" then Raise PermissionError
    else Ok {| du_total := 1073741824; du_used := 536870912;
               du_free := 536870912; du_percent := Fin false 50 0 |};
  disk_io_counters := Ok None;
  net_if_addrs := Ok [("lo", [inet "127.0.0.1"; inet6 "::1"]);
                      ("eth0", [inet "192.168.1.5"])]%string;
  net_if_stats := Ok [("lo", {| isup := true; duplex := "NicDuplex.NIC_DUPLEX_UNKNOWN";
                               speed := 0; mtu := 65536 |})]%string;
  net_io_counters := Ok None;
  getGPUs := Raise (OSError "nvidia-smi not found");
  sensors_temperatures := Raise AttributeError;
  sensors_fans := Raise AttributeError;
  sensors_battery := Ok None;
  process_iter := Ok host_processes;
  net_connections := Raise AccessDenied;
  gethostbyname_hostname := Ok "127.0.1.1"%string;
  open_report := Ok tt
|}.

(** *** The sections of the report *)

(** The top-level keys of the ten sections of the data model: identity,
    uptime, CPU, memory, disks, network, sensors, GPU, processes,
    connections. *)
Definition section_keys : list string :=
  ["basic_system"; "uptime"; "cpu"; "memory"; "disks"; "network";
   "sensors"; "gpu"; "processes"; "connections"]%string.

(** A GPU section says whether GPUs are available, and when they are not
    it carries a note or an error. *)
Definition gpu_marked (g : pyval) : Prop :=
  exists d, g = VDict d /\
    ((dict_find d "available" = Some (VBool true) /\ dict_has d "gpus" = true) \/
     (dict_find d "available" = Some (VBool false) /\
      (dict_has d "note" = true \/ dict_has d "error" = true))).

(** A sensors section holds, for each kind of reading, either the
    readings or a marker that they are not supported. *)
Definition sensors_marked (s : pyval) : Prop :=
  exists d, s = VDict d /\
    (dict_has d "temperatures" = true \/
       dict_find d "temperatures_error" = Some (VStr "not supported")) /\
    (dict_has d "fans" = true \/
       dict_find d "fans_error" = Some (VStr "not supported")) /\
    (dict_has d "battery" = true \/
       dict_find d "battery_error" = Some (VStr "not supported")).

(** A byte count as the operating system reports one. *)
Definition byte_count (x : Z) : Prop := 0 <= x < 2 ^ 64.

(** How a partition shows in the collected list: always with its device
    and mount point; with the four usage fields and no error marker when
    its usage could be read, with the error marker and none of the usage
    fields when reading it was not permitted. *)
Definition collected (P : provider) (p : sdiskpart) (v : pyval) : Prop :=
  exists e, v = VDict e /\
    dict_find e "device" = Some (VStr (device p)) /\
    dict_find e "mountpoint" = Some (VStr (mountpoint p)) /\
    match disk_usage P (mountpoint p) with
    | Ok u =>
        dict_has e "error" = false /\
        (exists t, get_size (du_total u) = Ok t /\ dict_find e "total" = Some (VStr t)) /\
        (exists t, get_size (du_used u) = Ok t /\ dict_find e "used" = Some (VStr t)) /\
        (exists t, get_size (du_free u) = Ok t /\ dict_find e "free" = Some (VStr t)) /\
        dict_find e "percent" = Some (VFloat (du_percent u))
    | Raise _ =>
        dict_find e "error" = Some (VStr "PermissionError") /\
        dict_has e "total" = false /\ dict_has e "used" = false /\
        dict_has e "free" = false /\ dict_has e "percent" = false
    end.

(** A usage query either answers with byte counts or is not permitted. *)
Definition usage_answers (P : provider) (p : sdiskpart) : Prop :=
  disk_usage P (mountpoint p) = Raise PermissionError \/
  exists u, disk_usage P (mountpoint p) = Ok u /\
    byte_count (du_total u) /\ byte_count (du_used u) /\ byte_count (du_free u).

Definition host_args : arguments := {| json := true; top := 2; quiet := false |}.

(** The report collected on that host. *)
Definition host_report : pyval :=
  match collect_all (B := example_builtins) host host_args with
  | Ok r => r
  | Raise _ => VNone
  end.

(** *** Missing fields *)

(** A field is missing from an entry when its key is absent or holds
    [None]. *)
Definition missing (d : dict) (k : string) : Prop :=
  dict_find d k = None \/ dict_find d k = Some VNone.

(** A GPU entry without load, memory or temperature figures. *)
Definition bare_gpu : dict := [("id", VInt 0); ("name", VStr "GPU0")]%string.

(** A partition entry as the collector leaves it after a permission
    failure. *)
Definition denied_partition : dict :=
  [("device", VStr "/dev/sdb1"); ("mountpoint", VStr "/mnt/secret");
   ("fstype", VStr "ext4"); ("opts", VStr "rw");
   ("error", VStr "PermissionError")]%string.

(** A report whose memory and disk percentages are whole numbers. *)
Definition whole_percent_report : pyval :=
  VDict [
    ("cpu", VDict [("cpu_total_usage_percent", VInt 50)]);
    ("memory", VDict [("total", VStr "8.00GB"); ("used", VStr "4.00GB");
                      ("percent", VInt 50)]);
    ("disks", VDict [("partitions", VList [
       VDict [("device", VStr "/dev/sda1"); ("fstype", VStr "ext4");
              ("total", VStr "1.00GB"); ("percent", VInt 50)]])]);
    ("network", VDict [("interfaces", VDict [])]);
    ("gpu", VDict [("available", VBool true);
                   ("gpus", VList [VDict [("name", VStr "GPU0");
                                          ("load_percent", VInt 50)]])])
  ]%string.

(** *** Reports the presenter can print *)

Definition is_dict (v : pyval) : Prop := exists d, v = VDict d.

(** [d.get(k, {})] *)
Definition sect (d : dict) (k : string) : pyval :=
  match dict_find d k with Some v => v | None => VDict [] end.

(** A value that is looked into only when it is true. *)
Definition falsy_or_dict (o : option pyval) : Prop :=
  match o with
  | Some v => truthy v = true -> is_dict v
  | None => True
  end.

(** An address entry: a dictionary whose family and address are strings. *)
Definition addr_entry (a : pyval) : Prop :=
  exists e fam addr,
    a = VDict e /\
    dict_find e "family" = Some (VStr fam) /\
    dict_find e "address" = Some (VStr addr).

(** A GPU entry: a dictionary whose load is missing or a float. *)
Definition gpu_entry (g : pyval) : Prop :=
  exists e, g = VDict e /\
    (missing e "load_percent" \/ exists x, dict_find e "load_percent" = Some (VFloat x)).

(** What [pretty_print] relies on up to the network block: the sections
    about the system, the running time, the memory, the processor and the
    disks may be absent; one that is there is a dictionary, the frequency
    and the details of the processor are looked into only when they are
    true, and the partitions are a list of dictionaries. *)
Definition printable_head (d : dict) : Prop :=
  is_dict (sect d "basic_system") /\
  is_dict (sect d "uptime") /\
  is_dict (sect d "memory") /\
  (exists c, sect d "cpu" = VDict c /\
     falsy_or_dict (dict_find c "cpu_freq") /\
     falsy_or_dict (dict_find c "detailed")) /\
  (exists ds parts, sect d "disks" = VDict ds /\
     match dict_find ds "partitions" with Some v => v | None => VList [] end = VList parts /\
     Forall is_dict parts).

(** The shape [pretty_print] relies on.  Sections may be absent, the
    network section apart: its interfaces map names to lists of address
    entries and its link table maps names to dictionaries; when GPUs are
    available they are a list of GPU entries. *)
Definition presentable (report : pyval) : Prop :=
  exists d, report = VDict d /\
    printable_head d /\
    (exists n ifs st, sect d "network" = VDict n /\
       dict_find n "interfaces" = Some (VDict ifs) /\
       Forall (fun kv => exists l, snd kv = VList l /\ Forall addr_entry l) ifs /\
       dict_find n "stats" = Some (VDict st) /\
       Forall (fun kv => is_dict (snd kv)) st) /\
    (exists g, sect d "gpu" = VDict g /\
       (truthy (match dict_find g "available" with Some v => v | None => VNone end) = true ->
        exists gs,
          match dict_find g "gpus" with Some v => v | None => VList [] end = VList gs /\
          Forall gpu_entry gs)).

(** *** Reading the processes *)

(** The two exceptions the enumeration loop catches. *)
Definition gone (e : pyexc) : bool :=
  match e with NoSuchProcess | AccessDenied => true | _ => false end.

(** Both readings of a process succeed. *)
Definition read_ok (p : process) : bool :=
  match cpu_percent p, memory_rss p with
  | Ok _, Ok _ => true
  | _, _ => false
  end.

(** A process whose readings succeed, with a resident size a float can
    hold. *)
Definition reads (p : process) : Prop :=
  exists c m, cpu_percent p = Ok c /\ memory_rss p = Ok m /\ Z.abs m < 2 ^ 1023.

(** A process that has vanished or denies access at one of its readings. *)
Definition vanished (p : process) : Prop :=
  (exists e, cpu_percent p = Raise e /\ gone e = true) \/
  (exists c e, cpu_percent p = Ok c /\ memory_rss p = Raise e /\ gone e = true).

(** A process whose reading fails with [e]. *)
Definition fails_with (p : process) (e : pyexc) : Prop :=
  cpu_percent p = Raise e \/ (exists c, cpu_percent p = Ok c /\ memory_rss p = Raise e).

(** The entry made for a process that was read. *)
Definition entry_of (p : process) (x : proc_entry) : Prop :=
  e_pid x = pid p /\ e_name x = name p /\ e_user x = username p /\
  cpu_percent p = Ok (e_cpu_percent x) /\
  memory_rss p = Ok (e_memory_rss x) /\
  get_size (e_memory_rss x) = Ok (e_memory_rss_human x).

(** *** Hosts that answer, and hosts that do not *)

(** The sample host with another clock frequency, another answer to the
    usage query and another list of processes. *)
Definition host_with (freq : exc (option scpufreq))
    (usage : string -> exc sdiskusage) (procs : exc (list process)) : provider := {|
  HAVE_GPUTIL := HAVE_GPUTIL host; HAVE_CPUINFO := HAVE_CPUINFO host;
  HAVE_DISTRO := HAVE_DISTRO host; now_isoformat := now_isoformat host;
  uname := uname host; getuser := getuser host; distro_name := distro_name host;
  boot_time := boot_time host; boot_isoformat := boot_isoformat host;
  uptime_total_seconds := uptime_total_seconds host; uptime_str := uptime_str host;
  cpu_count_physical := cpu_count_physical host;
  cpu_count_logical := cpu_count_logical host;
  cpu_freq := freq; cpu_percent_percpu := cpu_percent_percpu host;
  cpu_percent_total := cpu_percent_total host; get_cpu_info := get_cpu_info host;
  virtual_memory := virtual_memory host; swap_memory := swap_memory host;
  disk_partitions := disk_partitions host;
  disk_usage := usage;
  disk_io_counters := disk_io_counters host;
  net_if_addrs := net_if_addrs host; net_if_stats := net_if_stats host;
  net_io_counters := net_io_counters host; getGPUs := getGPUs host;
  sensors_temperatures := sensors_temperatures host; sensors_fans := sensors_fans host;
  sensors_battery := sensors_battery host; process_iter := procs;
  net_connections := net_connections host;
  gethostbyname_hostname := gethostbyname_hostname host;
  open_report := open_report host |}.

(** A host whose second mount point has gone stale. *)
Definition stale_host : provider :=
  host_with (cpu_freq host)
    (fun m => if String.eqb m "/mnt/secret"
              then Raise (OSError "No such file or directory")
              else disk_usage host m)
    (process_iter host).

(** A process whose memory reading fails with an error of the operating
    system. *)
Definition zombie : process :=
  {| pid := 6; name := Some "z"%string; username := None;
     cpu_percent := Ok (Fin false 0 0);
     memory_rss := Raise (OSError "Input/output error") |}.

(** A host with such a process among the others. *)
Definition zombie_host : provider :=
  host_with (cpu_freq host) (disk_usage host)
    (Ok (firstn 2 host_processes ++ zombie :: skipn 2 host_processes)%list).

(** A host that reports its clock frequency. *)
Definition clocked_host : provider :=
  host_with (Ok (Some {| freq_current := Fin false 2400 0;
                         freq_min := Fin false 800 0;
                         freq_max := Fin false 3600 0 |}))
    (disk_usage host) (process_iter host).

(** What the collector needs of the environment: the calls it does not
    guard answer, the byte counts are byte counts, a mount point either
    answers the usage query or refuses permission, and a process is read
    or has gone. *)
Definition answers (P : provider) : Prop :=
  is_ok (getuser P) = true /\
  (HAVE_DISTRO P = true -> is_ok (distro_name P) = true) /\
  (exists ts iso secs,
     boot_time P = Ok ts /\ boot_isoformat P ts = Ok iso /\
     float_trunc (uptime_total_seconds P ts) = Ok secs) /\
  (is_ok (cpu_count_physical P) = true /\ is_ok (cpu_count_logical P) = true /\
   is_ok (cpu_percent_percpu P) = true /\ is_ok (cpu_percent_total P) = true) /\
  (exists vm sw,
     virtual_memory P = Ok vm /\ swap_memory P = Ok sw /\
     byte_count (vm_total vm) /\ byte_count (vm_available vm) /\
     byte_count (vm_used vm) /\ byte_count (sw_total sw) /\ byte_count (sw_used sw)) /\
  (exists parts io,
     disk_partitions P = Ok parts /\ Forall (usage_answers P) parts /\
     disk_io_counters P = Ok io /\
     (forall c, io = Some c -> byte_count (read_bytes c) /\ byte_count (write_bytes c))) /\
  (exists addrs stats io,
     net_if_addrs P = Ok addrs /\ net_if_stats P = Ok stats /\
     net_io_counters P = Ok io /\
     (forall c, io = Some c -> byte_count (bytes_sent c) /\ byte_count (bytes_recv c))) /\
  (exists ps, process_iter P = Ok ps /\ Forall (fun p => reads p \/ vanished p) ps).

(** *** What sdchecker.py needs of the environment *)

(** The address is of the family the script prints. *)
Definition is_ipv4 (a : snicaddr) : bool :=
  String.eqb (family a) "AddressFamily.AF_INET".

(** The two lines the script prints for an address. *)
Definition address_report {B : Builtins} (a : snicaddr) : list string :=
  ["  Adres IP: " +++ address a;
   "  Maska podsieci: " +++ py_str (opt_str (netmask a))]%string.

(** The calls of the script answer, the frequency is known, the byte
    counts are byte counts, and a mount point either answers the usage
    query or refuses permission. *)
Definition script_answers (P : provider) (stdin_line : exc string) : Prop :=
  is_ok (cpu_count_logical P) = true /\
  (exists f, cpu_freq P = Ok (Some f)) /\
  is_ok (cpu_percent_percpu P) = true /\ is_ok (cpu_percent_total P) = true /\
  (exists vm, virtual_memory P = Ok vm /\
     byte_count (vm_total vm) /\ byte_count (vm_used vm)) /\
  (exists parts, disk_partitions P = Ok parts /\ Forall (usage_answers P) parts) /\
  is_ok (net_if_addrs P) = true /\
  is_ok stdin_line = true.
(* ================================================================== *)
(** ** Rounding and the size formatter *)
(* ================================================================== *)

Lemma round_half_even_error num den :
  0 < den -> 2 * Z.abs (num - round_half_even num den * den) <= den.
Proof.
  intros Hd. unfold round_half_even.
  pose proof (Z.div_mod num den ltac:(lia)) as E.
  pose proof (Z.mod_pos_bound num den Hd) as Hr.
  destruct (Z.compare_spec (2 * (num mod den)) den) as [C|C|C];
    [destruct (Z.even (num / den))| |]; nia.
Qed.

Lemma round_half_even_exact q den :
  0 < den -> round_half_even (q * den) den = q.
Proof.
  intros Hd. unfold round_half_even.
  rewrite Z.div_mul, Z.mod_mul by lia.
  destruct (Z.compare_spec (2 * 0) den); lia.
Qed.

Lemma round_half_even_floor num den :
  0 < den -> num / den <= round_half_even num den <= num / den + 1.
Proof.
  intros Hd. unfold round_half_even.
  destruct (2 * (num mod den) ?= den); [destruct (Z.even (num / den))| |]; lia.
Qed.

Lemma round53_small a : 0 <= a -> a < 2 ^ 53 -> round53 a = (a, 0).
Proof.
  intros H0 H. unfold round53.
  destruct (Z.eqb_spec a 0) as [->|Hn]; [reflexivity|].
  assert (Z.log2 a < 53) by (apply Z.log2_lt_pow2; lia).
  destruct (Z.leb_spec (Z.log2 a + 1) 53); [reflexivity | lia].
Qed.

Lemma round53_spec a :
  0 <= a ->
  let '(m, sh) := round53 a in
  0 <= m /\ 0 <= sh /\ m <= 2 ^ 53 /\
  (a < 2 ^ 53 -> m = a /\ sh = 0) /\
  (2 ^ 53 <= a -> 2 ^ 52 <= m /\ sh = Z.log2 a - 52).
Proof.
  intros H0. unfold round53.
  destruct (Z.eqb_spec a 0) as [->|Hn].
  { simpl. repeat split; try lia. }
  pose proof (Z.log2_spec a ltac:(lia)) as [L1 L2].
  pose proof (Z.log2_nonneg a) as L0.
  destruct (Z.leb_spec (Z.log2 a + 1) 53) as [Hs|Hb].
  - assert (a < 2 ^ 53).
    { eapply Z.lt_le_trans; [exact L2|]. apply Z.pow_le_mono_r; lia. }
    repeat split; try lia.
  - set (sh := Z.log2 a + 1 - 53) in *.
    assert (Hsh : 0 < sh) by (unfold sh; lia).
    assert (Hp : 0 < 2 ^ sh) by (apply Z.pow_pos_nonneg; lia).
    assert (E52 : 2 ^ Z.log2 a = 2 ^ 52 * 2 ^ sh).
    { rewrite <- Z.pow_add_r by lia. f_equal. unfold sh. lia. }
    assert (E53 : 2 ^ Z.succ (Z.log2 a) = 2 ^ 53 * 2 ^ sh).
    { rewrite <- Z.pow_add_r by lia. f_equal. unfold sh. lia. }
    pose proof (round_half_even_floor a (2 ^ sh) Hp) as [F1 F2].
    assert (2 ^ 52 <= a / 2 ^ sh).
    { apply Z.div_le_lower_bound; lia. }
    assert (a / 2 ^ sh < 2 ^ 53).
    { apply Z.div_lt_upper_bound; lia. }
    assert (2 ^ 53 <= a).
    { assert (53 <= Z.log2 a) by lia.
      eapply Z.le_trans; [|exact L1]. apply Z.pow_le_mono_r; lia. }
    repeat split; try lia.
Qed.

Lemma pow1024 j : 0 <= j -> 1024 ^ j = 2 ^ (10 * j).
Proof. intros. rewrite Z.pow_mul_r by lia. reflexivity. Qed.

Lemma ltb_scale a b t : 0 < t -> (a <? b) = (a * t <? b * t).
Proof.
  intros. destruct (Z.ltb_spec a b), (Z.ltb_spec (a * t) (b * t)); try reflexivity; nia.
Qed.

Lemma ltb_factor m sh j :
  0 <= sh -> 0 <= j ->
  float_ltb (float_abs (Fin false m (sh - 10 * j))) SDT.factor
  = (m * 2 ^ sh <? 1024 ^ (j + 1)).
Proof.
  intros Hsh Hj. cbn [float_abs SDT.factor float_ltb]. unfold scaled.
  set (e := sh - 10 * j). set (emin := Z.min e 10).
  set (t := emin + 10 * j).
  assert (Ht : 0 <= t) by (unfold t, emin, e; lia).
  rewrite (ltb_scale _ _ (2 ^ t)) by (apply Z.pow_pos_nonneg; lia).
  rewrite pow1024 by lia.
  replace (m * 2 ^ (e - emin) * 2 ^ t) with (m * 2 ^ sh).
  2:{ rewrite <- Z.mul_assoc, <- Z.pow_add_r by (unfold emin; lia).
      do 2 f_equal. unfold t, e. lia. }
  replace (1 * 2 ^ (10 - emin) * 2 ^ t) with (2 ^ (10 * (j + 1))).
  2:{ rewrite Z.mul_1_l, <- Z.pow_add_r by (unfold emin; lia).
      f_equal. unfold t. lia. }
  reflexivity.
Qed.

Lemma div_pow2_exact s m e k :
  -1074 <= e - k -> float_div_pow2 (Fin s m e) k = Fin s m (e - k).
Proof.
  intros H. unfold float_div_pow2.
  destruct (Z.ltb_spec (e - k) (-1074)); [lia | reflexivity].
Qed.

Lemma loop_float us : forall j m sh suffix,
  0 <= sh -> 0 <= j -> j + Z.of_nat (List.length us) <= 107 ->
  SDT.get_size_loop us (PFloat (Fin false m (sh - 10 * j))) suffix
  = let '(k, u) := pick (m * 2 ^ sh) j us in
    Ok (format_f 2 (Fin false m (sh - 10 * k)) +++ u +++ suffix).
Proof.
  induction us as [|u us IH]; intros j m sh suffix Hsh Hj Hlen.
  - reflexivity.
  - cbn [SDT.get_size_loop pick SDT.abs_lt_factor].
    rewrite ltb_factor by assumption.
    destruct (m * 2 ^ sh <? 1024 ^ (j + 1)); [reflexivity|].
    cbn [SDT.div_factor bind].
    cbn [List.length] in Hlen.
    rewrite div_pow2_exact by lia.
    replace (sh - 10 * j - 10) with (sh - 10 * (j + 1)) by lia.
    apply IH; lia.
Qed.

Lemma pick_spec us : forall V j,
  let '(k, u) := pick V j us in
  j <= k <= j + Z.of_nat (List.length us) /\
  (forall i, j <= i < k -> 1024 ^ (i + 1) <= V) /\
  (k < j + Z.of_nat (List.length us) -> V < 1024 ^ (k + 1)) /\
  u = nth (Z.to_nat (k - j)) (us ++ ["E"%string]) ""%string.
Proof.
  induction us as [|u us IH]; intros V j.
  - cbn. replace (j - j) with 0 by lia. repeat split; try lia. 
  - cbn [pick]. destruct (Z.ltb_spec V (1024 ^ (j + 1))) as [Hlt|Hge].
    + replace (j - j) with 0 by lia. cbn [List.length]. repeat split; try lia. 
    + specialize (IH V (j + 1)). destruct (pick V (j + 1) us) as [k u'].
      destruct IH as (Hk & Hlow & Hup & Hu). cbn [List.length].
      split; [lia|]. split; [|split].
      * intros i Hi. destruct (Z.eq_dec i j) as [->|]; [assumption | apply Hlow; lia].
      * intros. apply Hup. lia.
      * rewrite Hu. replace (Z.to_nat (k - j)) with (S (Z.to_nat (k - (j + 1)))) by lia.
        reflexivity.
Qed.

Lemma scaled_decimal_error d m e sh k :
  0 <= sh -> 0 <= k -> e = sh - 10 * k ->
  let c := scaled_decimal d m e in
  2 * Z.abs (10 ^ Z.of_nat d * (m * 2 ^ sh) - c * 1024 ^ k) <= 1024 ^ k.
Proof.
  intros Hsh Hk He c. subst c. unfold scaled_decimal.
  rewrite pow1024 by lia.
  assert (P10 : 0 < 2 ^ (10 * k)) by (apply Z.pow_pos_nonneg; lia).
  destruct (Z.leb_spec 0 e) as [Hpos|Hneg].
  - replace (2 ^ sh) with (2 ^ e * 2 ^ (10 * k)).
    2:{ rewrite <- Z.pow_add_r by lia. f_equal. lia. }
    match goal with |- 2 * Z.abs ?x <= _ => replace x with 0 by ring end.
    simpl. lia.
  - set (D := 10 ^ Z.of_nat d).
    assert (Pe : 0 < 2 ^ (- e)) by (apply Z.pow_pos_nonneg; lia).
    pose proof (round_half_even_error (m * D) (2 ^ (- e)) Pe) as R.
    set (c := round_half_even (m * D) (2 ^ (- e))) in *.
    assert (Ps : 0 < 2 ^ sh) by (apply Z.pow_pos_nonneg; lia).
    replace (2 ^ (10 * k)) with (2 ^ (- e) * 2 ^ sh).
    2:{ rewrite <- Z.pow_add_r by lia. f_equal. lia. }
    replace (D * (m * 2 ^ sh) - c * (2 ^ (- e) * 2 ^ sh))
      with ((m * D - c * 2 ^ (- e)) * 2 ^ sh) by ring.
    rewrite Z.abs_mul, (Z.abs_eq (2 ^ sh)) by lia. nia.
Qed.

Lemma fixed_two c : fixed 2 c = two_decimals c.
Proof. reflexivity. Qed.

Lemma scaled_decimal_nonneg d m e : 0 <= m -> 0 <= scaled_decimal d m e.
Proof.
  intros Hm. unfold scaled_decimal.
  assert (0 < 10 ^ Z.of_nat d) by (apply Z.pow_pos_nonneg; lia).
  destruct (Z.leb_spec 0 e).
  - assert (0 < 2 ^ e) by (apply Z.pow_pos_nonneg; lia). nia.
  - assert (Pe : 0 < 2 ^ (- e)) by (apply Z.pow_pos_nonneg; lia).
    pose proof (round_half_even_floor (m * 10 ^ Z.of_nat d) (2 ^ (- e)) Pe) as [F _].
    assert (0 <= m * 10 ^ Z.of_nat d / 2 ^ (- e)) by (apply Z.div_pos; nia).
    lia.
Qed.

Lemma float_of_int_ok n :
  Z.abs n < 2 ^ 1023 ->
  float_of_int n = Ok (Fin (n <? 0) (fst (round53 (Z.abs n))) (snd (round53 (Z.abs n)))).
Proof.
  intros Hn. unfold float_of_int.
  pose proof (round53_spec (Z.abs n) (Z.abs_nonneg n)) as S.
  destruct (round53 (Z.abs n)) as [m sh]. cbn [fst snd].
  destruct S as (Hm & Hsh & Hm53 & Hsmall & Hbig).
  destruct (Z.leb_spec (2 ^ 1024) (m * 2 ^ sh)) as [Hov|]; [exfalso | reflexivity].
  destruct (Z.lt_ge_cases (Z.abs n) (2 ^ 53)) as [Hs|Hb].
  - destruct (Hsmall Hs) as [-> ->]. rewrite Z.pow_0_r, Z.mul_1_r in Hov.
    assert (2 ^ 1023 < 2 ^ 1024) by (apply Z.pow_lt_mono_r; lia). lia.
  - destruct (Hbig Hb) as [_ ->].
    assert (L : Z.log2 (Z.abs n) < 1023) by (apply Z.log2_lt_pow2; lia).
    assert (52 <= Z.log2 (Z.abs n)).
    { apply Z.log2_le_pow2; [lia|]. 
      assert (2 ^ 52 <= 2 ^ 53) by (apply Z.pow_le_mono_r; lia). lia. }
    assert (2 ^ (Z.log2 (Z.abs n) - 52) <= 2 ^ 970) by (apply Z.pow_le_mono_r; lia).
    assert (0 < 2 ^ (Z.log2 (Z.abs n) - 52)) by (apply Z.pow_pos_nonneg; lia).
    assert (2 ^ 53 * 2 ^ 970 < 2 ^ 1024).
    { rewrite <- Z.pow_add_r by lia. apply Z.pow_lt_mono_r; lia. }
    nia.
Qed.

Lemma rounded_small n : 0 <= n -> n <= 2 ^ 53 -> rounded n = n.
Proof.
  intros H0 H. unfold rounded.
  destruct (Z.eq_dec n (2 ^ 53)) as [->|Hne].
  - vm_compute. reflexivity.
  - rewrite round53_small by lia. lia.
Qed.

Lemma rounded_ge_1024 n : 1024 <= n -> 1024 <= rounded n.
Proof.
  intros H. unfold rounded.
  pose proof (round53_spec n ltac:(lia)) as S. destruct (round53 n) as [m sh].
  destruct S as (Hm & Hsh & Hm53 & Hsmall & Hbig).
  destruct (Z.lt_ge_cases n (2 ^ 53)) as [Hs|Hb].
  - destruct (Hsmall Hs) as [-> ->]. lia.
  - destruct (Hbig Hb) as [H52 _].
    assert (0 < 2 ^ sh) by (apply Z.pow_pos_nonneg; lia).
    assert (1024 <= 2 ^ 52) by (vm_compute; discriminate). nia.
Qed.

Lemma get_size_loop_cons u us bytes suffix :
  SDT.get_size_loop (u :: us) bytes suffix
  = if SDT.abs_lt_factor bytes
    then s <- num_format_f 2 bytes ;; Ok (s +++ u +++ suffix)
    else bytes' <- SDT.div_factor bytes ;; SDT.get_size_loop us bytes' suffix.
Proof. reflexivity. Qed.

(** The formatter on a non-negative count: which unit it stops at and
    what it prints there. *)
Lemma get_size_scaled (n : Z) (Hn : 0 <= n) (Hmax : n < 2 ^ 1023) :
  exists k c,
    0 <= k <= 6 /\
    (forall i, 0 <= i < k -> 1024 ^ (i + 1) <= rounded n) /\
    (k < 6 -> rounded n < 1024 ^ (k + 1)) /\
    0 <= c /\
    2 * Z.abs (100 * rounded n - c * 1024 ^ k) <= 1024 ^ k /\
    SDT.get_size n = Ok (two_decimals c +++ nth (Z.to_nat k) unit_names ""%string +++ "B") /\
    (n <= 2 ^ 53 -> rounded n = n).
Proof.
  pose proof (float_of_int_ok n ltac:(lia)) as F.
  rewrite Z.abs_eq in F by lia.
  replace (n <? 0) with false in F by (symmetry; apply Z.ltb_ge; lia).
  pose proof (rounded_small n Hn) as Hexact.
  unfold SDT.get_size, SDT.get_size_suffix, SDT.units.
  rewrite get_size_loop_cons. cbn [SDT.abs_lt_factor]. rewrite Z.abs_eq by lia.
  destruct (Z.ltb_spec n 1024) as [Hsmall|Hbig].
  - exists 0, (100 * n).
    assert (n < 2 ^ 53) by (assert (1024 < 2 ^ 53) by (vm_compute; reflexivity); lia).
    rewrite Hexact by lia.
    change (1024 ^ (0 + 1)) with 1024. change (1024 ^ 0) with 1.
    split; [lia|]. split; [intros; lia|]. split; [intros; lia|].
    split; [lia|]. split; [lia|]. split; [|auto].
    cbn [num_format_f]. rewrite F. rewrite round53_small by lia.
    cbn [fst snd bind format_f]. rewrite fixed_two.
    unfold scaled_decimal. cbn [Z.leb Z.compare].
    replace (n * 2 ^ 0 * 10 ^ Z.of_nat 2) with (100 * n)
      by (change (2 ^ 0) with 1; change (10 ^ Z.of_nat 2) with 100; lia).
    reflexivity.
  - cbn [SDT.div_factor]. rewrite F. cbn [bind].
    pose proof (round53_spec n Hn) as S.
    pose proof (rounded_ge_1024 n Hbig) as G.
    unfold rounded in *. destruct (round53 n) as [m sh]. cbn [fst snd] in *.
    destruct S as (Hm & Hsh & _).
    rewrite div_pow2_exact by lia.
    replace (sh - 10) with (sh - 10 * 1) by lia.
    rewrite loop_float by (cbn; lia).
    pose proof (pick_spec ["K"; "M"; "G"; "T"; "P"]%string (m * 2 ^ sh) 1) as Pk.
    destruct (pick (m * 2 ^ sh) 1 ["K"; "M"; "G"; "T"; "P"]%string) as [k u].
    cbn [List.length] in Pk. destruct Pk as (Hk & Hlow & Hup & Hu).
    exists k, (scaled_decimal 2 m (sh - 10 * k)).
    split; [lia|]. split.
    { intros i Hi. destruct (Z.eq_dec i 0) as [->|];
        [change (1024 ^ (0 + 1)) with 1024; lia | apply Hlow; lia]. }
    split; [intros; apply Hup; lia|].
    split; [apply scaled_decimal_nonneg; lia|].
    split.
    { pose proof (scaled_decimal_error 2 m (sh - 10 * k) sh k Hsh ltac:(lia) eq_refl) as E.
      cbn zeta in E. exact E. }
    split; [|exact Hexact].
    cbn [format_f]. rewrite fixed_two. cbn [String.append].
    rewrite Hu. unfold unit_names.
    replace (Z.to_nat k) with (S (Z.to_nat (k - 1))) by lia. reflexivity.
Qed.


(** C2 (as amended).  For a non-negative byte count [n] (anything a float
    can hold), [get_size] prints the count divided by [1024^k], where [k]
    is the first of the units B, KB, MB, GB, TB, PB, EB at which the
    running value is below 1024 (the last one if there is none); what it
    prints is that quotient to the nearest hundredth, with two decimals,
    followed by the unit.  The running value is the count itself up to
    [2^53], and the float nearest to it beyond.  In particular 0 gives
    0.00B, 1024 gives 1.00KB, 1536 gives 1.50KB and 1073741824 gives
    1.00GB. *)
Theorem get_size_humanize :
  (forall n : Z, 0 <= n -> n < 2 ^ 1023 ->
     exists k c,
       0 <= k <= 6 /\
       (forall i, 0 <= i < k -> 1024 ^ (i + 1) <= rounded n) /\
       (k < 6 -> rounded n < 1024 ^ (k + 1)) /\
       0 <= c /\
       2 * Z.abs (100 * rounded n - c * 1024 ^ k) <= 1024 ^ k /\
       SDT.get_size n
       = Ok (two_decimals c +++ nth (Z.to_nat k) unit_names ""%string +++ "B") /\
       (n <= 2 ^ 53 -> rounded n = n)) /\
  SDT.get_size 0 = Ok "0.00B"%string /\
  SDT.get_size 1024 = Ok "1.00KB"%string /\
  SDT.get_size 1536 = Ok "1.50KB"%string /\
  SDT.get_size 1073741824 = Ok "1.00GB"%string.
Proof.
  split; [exact get_size_scaled|].
  repeat split; vm_compute; reflexivity.
Qed.

(** One and a half kibibytes. *)
Lemma get_size_humanize_witness :
  exists k c,
    0 <= k <= 6 /\
    (forall i, 0 <= i < k -> 1024 ^ (i + 1) <= rounded 1536) /\
    (k < 6 -> rounded 1536 < 1024 ^ (k + 1)) /\
    0 <= c /\
    2 * Z.abs (100 * rounded 1536 - c * 1024 ^ k) <= 1024 ^ k /\
    SDT.get_size 1536
    = Ok (two_decimals c +++ nth (Z.to_nat k) unit_names ""%string +++ "B") /\
    (1536 <= 2 ^ 53 -> rounded 1536 = 1536).
Proof.
  apply (proj1 get_size_humanize 1536); [lia | reflexivity].
Defined.

(** C2 (where the statement fails).  One byte short of [1024^6] the count
    is below 1024 petabyte units, yet [get_size] answers in the next unit:
    the count becomes the float [2^60] before it is divided. *)
Lemma get_size_rounds_into_next_unit :
  2 ^ 60 - 1 < 1024 * 1024 ^ 5 /\
  rounded (2 ^ 60 - 1) = 2 ^ 60 /\
  SDT.get_size (2 ^ 60 - 1) = Ok "1.00EB"%string.
Proof. repeat split; vm_compute; reflexivity. Qed.

(** The same four sizes through [sdchecker.py], and one that is rounded
    half to even. *)
Lemma get_size_examples :
  Sdchecker.get_size 0 "B" = Ok (Some "0.00B"%string) /\
  Sdchecker.get_size 1024 "B" = Ok (Some "1.00KB"%string) /\
  Sdchecker.get_size 1536 "B" = Ok (Some "1.50KB"%string) /\
  Sdchecker.get_size 1073741824 "B" = Ok (Some "1.00GB"%string) /\
  SDT.get_size 1152 = Ok "1.12KB"%string /\
  SDT.get_size (2 ^ 50 - 1) = Ok "1024.00TB"%string /\
  SDT.get_size (-2048) = Ok "-2.00KB"%string.
Proof. repeat split; vm_compute; reflexivity. Qed.


(* ================================================================== *)
(** ** Stable descending sort *)
(* ================================================================== *)

Section SortFacts.
Context {A K : Type} (ltb : K -> K -> bool) (key : A -> K) (good : K -> Prop).
Hypothesis asym : forall a b, good a -> good b -> ltb a b = true -> ltb b a = false.
Hypothesis negtrans : forall a b c, good a -> good b -> good c ->
  ltb a b = false -> ltb b c = false -> ltb a c = false.

Lemma insert_desc_perm x l : Permutation (insert_desc ltb key x l) (x :: l).
Proof.
  induction l as [|y l IH]; cbn; [reflexivity|].
  destruct (ltb (key x) (key y)); [|reflexivity].
  rewrite IH. apply perm_swap.
Qed.

Lemma sorted_reverse_perm l : Permutation (sorted_reverse ltb key l) l.
Proof.
  induction l as [|x l IH]; cbn; [reflexivity|].
  rewrite insert_desc_perm. now apply perm_skip.
Qed.

Lemma insert_desc_sorted x l :
  good (key x) -> Forall (fun y => good (key y)) l ->
  StronglySorted (not_below ltb key) l ->
  StronglySorted (not_below ltb key) (insert_desc ltb key x l).
Proof.
  intros Gx Gl Hs. induction Hs as [|y l Hs IH Hy]; cbn.
  - repeat constructor.
  - inversion Gl as [|? ? Gy Gl']; subst.
    destruct (ltb (key x) (key y)) eqn:E.
    + constructor; [apply IH; assumption|].
      eapply Permutation_Forall; [symmetry; apply insert_desc_perm|].
      constructor; [|assumption]. unfold not_below. now apply asym.
    + constructor; [constructor; assumption|].
      constructor; [exact E|].
      rewrite Forall_forall in *. intros z Hz. unfold not_below in *.
      apply (negtrans _ (key y)); auto.
Qed.

Lemma sorted_reverse_sorted l :
  Forall (fun y => good (key y)) l ->
  StronglySorted (not_below ltb key) (sorted_reverse ltb key l).
Proof.
  induction 1 as [|x l Gx Gl IH]; cbn; [constructor|].
  apply insert_desc_sorted; auto.
  eapply Permutation_Forall; [symmetry; apply sorted_reverse_perm | assumption].
Qed.

Lemma insert_desc_ties k x l :
  good k -> good (key x) -> Forall (fun y => good (key y)) l ->
  filter (ties ltb key k) (insert_desc ltb key x l) = filter (ties ltb key k) (x :: l).
Proof.
  intros Gk Gx Gl. induction Gl as [|y l Gy Gl IH]; [reflexivity|].
  cbn [insert_desc]. destruct (ltb (key x) (key y)) eqn:E; [|reflexivity].
  cbn [filter] in *. rewrite IH.
  destruct (ties ltb key k x) eqn:Tx, (ties ltb key k y) eqn:Ty; try reflexivity.
  unfold ties in Tx, Ty.
  apply andb_true_iff in Tx as [Tx1 Tx2], Ty as [Ty1 Ty2].
  apply negb_true_iff in Tx1, Tx2, Ty1, Ty2.
  rewrite (negtrans _ k _ Gx Gk Gy Tx1 Ty2) in E. discriminate.
Qed.

Lemma sorted_reverse_ties k l :
  good k -> Forall (fun y => good (key y)) l ->
  filter (ties ltb key k) (sorted_reverse ltb key l) = filter (ties ltb key k) l.
Proof.
  intros Gk Gl. induction Gl as [|x l Gx Gl IH]; [reflexivity|].
  cbn [sorted_reverse fold_right].
  change (fold_right (insert_desc ltb key) [] l) with (sorted_reverse ltb key l).
  rewrite insert_desc_ties; auto.
  - cbn [filter]. now rewrite IH.
  - eapply Permutation_Forall; [symmetry; apply sorted_reverse_perm | assumption].
Qed.

End SortFacts.

Lemma slice_to_length {A} (n : Z) (l : list A) :
  0 <= n -> List.length (slice_to n l) = Z.to_nat (Z.min n (Z.of_nat (List.length l))).
Proof.
  intros Hn. unfold slice_to.
  destruct (Z.leb_spec 0 n); [|lia].
  rewrite length_firstn. lia.
Qed.

Lemma float_ltb_common s1 m1 e1 s2 m2 e2 e0 :
  e0 <= Z.min e1 e2 ->
  float_ltb (Fin s1 m1 e1) (Fin s2 m2 e2) = (scaled s1 m1 e1 e0 <? scaled s2 m2 e2 e0).
Proof.
  intros H. cbn [float_ltb]. set (emin := Z.min e1 e2) in *.
  rewrite (ltb_scale _ _ (2 ^ (emin - e0))) by (apply Z.pow_pos_nonneg; lia).
  unfold scaled.
  rewrite <- !Z.mul_assoc, <- !Z.pow_add_r by (unfold emin; lia).
  replace (e1 - emin + (emin - e0)) with (e1 - e0) by lia.
  replace (e2 - emin + (emin - e0)) with (e2 - e0) by lia.
  reflexivity.
Qed.

Lemma float_ltb_asym a b :
  ordered a -> ordered b -> float_ltb a b = true -> float_ltb b a = false.
Proof.
  unfold ordered. intros Ha Hb.
  destruct a as [s1 m1 e1|[]|], b as [s2 m2 e2|[]|]; try congruence; cbn; try congruence.
  change (float_ltb (Fin s1 m1 e1) (Fin s2 m2 e2) = true ->
          float_ltb (Fin s2 m2 e2) (Fin s1 m1 e1) = false).
  rewrite (float_ltb_common s1 m1 e1 s2 m2 e2 (Z.min e1 e2)) by lia.
  rewrite (float_ltb_common s2 m2 e2 s1 m1 e1 (Z.min e1 e2)) by lia.
  lia.
Qed.

Lemma float_ltb_negtrans a b c :
  ordered a -> ordered b -> ordered c ->
  float_ltb a b = false -> float_ltb b c = false -> float_ltb a c = false.
Proof.
  unfold ordered. intros Ha Hb Hc.
  destruct a as [s1 m1 e1|[]|], b as [s2 m2 e2|[]|], c as [s3 m3 e3|[]|];
    try congruence; cbn; try congruence.
  change (float_ltb (Fin s1 m1 e1) (Fin s2 m2 e2) = false ->
          float_ltb (Fin s2 m2 e2) (Fin s3 m3 e3) = false ->
          float_ltb (Fin s1 m1 e1) (Fin s3 m3 e3) = false).
  set (e0 := Z.min e1 (Z.min e2 e3)).
  rewrite (float_ltb_common s1 m1 e1 s2 m2 e2 e0) by (unfold e0; lia).
  rewrite (float_ltb_common s2 m2 e2 s3 m3 e3 e0) by (unfold e0; lia).
  rewrite (float_ltb_common s1 m1 e1 s3 m3 e3 e0) by (unfold e0; lia).
  lia.
Qed.

(* ================================================================== *)
(** ** The two formatters side by side, and the ends of the range *)
(* ================================================================== *)

Lemma sd_loop_float us : forall j m sh suffix,
  0 <= sh -> 0 <= j -> j + Z.of_nat (List.length us) <= 107 ->
  Sdchecker.get_size_loop us (PFloat (Fin false m (sh - 10 * j))) suffix
  = let '(k, u) := pick (m * 2 ^ sh) j us in
    Ok (if k <? j + Z.of_nat (List.length us)
        then Some (format_f 2 (Fin false m (sh - 10 * k)) +++ u +++ suffix)
        else None).
Proof.
  induction us as [|u us IH]; intros j m sh suffix Hsh Hj Hlen.
  - cbn. now rewrite Z.add_0_r, Z.ltb_irrefl.
  - cbn [Sdchecker.get_size_loop pick Sdchecker.lt_factor].
    change (float_ltb (Fin false m (sh - 10 * j)) (Fin false 1 10))
      with (float_ltb (float_abs (Fin false m (sh - 10 * j))) SDT.factor).
    rewrite ltb_factor by assumption.
    cbn [List.length] in *.
    destruct (m * 2 ^ sh <? 1024 ^ (j + 1)).
    + cbn. destruct (Z.ltb_spec j (j + Z.pos (Pos.of_succ_nat (List.length us)))); [reflexivity | lia].
    + cbn [Sdchecker.div_factor bind].
      rewrite div_pow2_exact by lia.
      replace (sh - 10 * j - 10) with (sh - 10 * (j + 1)) by lia.
      rewrite IH by lia.
      destruct (pick (m * 2 ^ sh) (j + 1) us) as [k u'].
      replace (j + 1 + Z.of_nat (List.length us))
        with (j + Z.of_nat (S (List.length us))) by lia.
      reflexivity.
Qed.

Lemma int_truediv_ok n :
  0 <= n -> n < 2 ^ 1023 ->
  int_truediv_pow2 n 10
  = Ok (float_div_pow2 (Fin false (fst (round53 n)) (snd (round53 n))) 10).
Proof.
  intros H0 Hn. pose proof (float_of_int_ok n ltac:(lia)) as F.
  unfold float_of_int, int_truediv_pow2 in *.
  rewrite Z.abs_eq in * by lia.
  destruct (round53 n) as [m sh]. cbn [fst snd] in *.
  replace (n <? 0) with false by (symmetry; apply Z.ltb_ge; lia).
  destruct (Z.leb_spec (2 ^ 1024) (m * 2 ^ sh)); [discriminate|].
  destruct (Z.leb_spec (2 ^ (1024 + 10)) (m * 2 ^ sh)); [|reflexivity].
  assert (2 ^ 1024 <= 2 ^ (1024 + 10)) by (apply Z.pow_le_mono_r; lia). lia.
Qed.

Lemma sd_get_size_loop_cons u us bytes suffix :
  Sdchecker.get_size_loop (u :: us) bytes suffix
  = if Sdchecker.lt_factor bytes
    then s <- num_format_f 2 bytes ;; Ok (Some (s +++ u +++ suffix))
    else bytes' <- Sdchecker.div_factor bytes ;; Sdchecker.get_size_loop us bytes' suffix.
Proof. reflexivity. Qed.

(** Below [1024^6] the two scripts print a size alike; from there on
    [sdchecker.py] runs out of units and hands back [None]. *)
Lemma sdchecker_get_size_vs_tool (n : Z) :
  0 <= n -> n < 2 ^ 1023 ->
  exists s,
    SDT.get_size n = Ok s /\
    Sdchecker.get_size n "B" = Ok (if rounded n <? 1024 ^ 6 then Some s else None).
Proof.
  intros Hn Hmax.
  pose proof (float_of_int_ok n ltac:(lia)) as F.
  rewrite Z.abs_eq in F by lia.
  replace (n <? 0) with false in F by (symmetry; apply Z.ltb_ge; lia).
  unfold SDT.get_size, SDT.get_size_suffix, SDT.units, Sdchecker.get_size, Sdchecker.units.
  rewrite get_size_loop_cons, sd_get_size_loop_cons.
  cbn [SDT.abs_lt_factor Sdchecker.lt_factor]. rewrite Z.abs_eq by lia.
  unfold Sdchecker.factor.
  destruct (Z.ltb_spec n 1024) as [Hsmall|Hbig].
  - assert (n < 2 ^ 53) by (assert (1024 < 2 ^ 53) by (vm_compute; reflexivity); lia).
    rewrite rounded_small by lia.
    assert (n < 1024 ^ 6) by (assert (1024 < 1024 ^ 6) by (vm_compute; reflexivity); lia).
    destruct (Z.ltb_spec n (1024 ^ 6)); [|lia].
    cbn [num_format_f]. rewrite F. cbn [bind]. eexists. split; reflexivity.
  - cbn [SDT.div_factor Sdchecker.div_factor].
    rewrite F, int_truediv_ok by assumption. cbn [bind].
    pose proof (round53_spec n Hn) as S.
    unfold rounded. destruct (round53 n) as [m sh]. cbn [fst snd] in *.
    destruct S as (Hm & Hsh & _).
    rewrite div_pow2_exact by lia.
    replace (sh - 10) with (sh - 10 * 1) by lia.
    rewrite loop_float, sd_loop_float by (cbn; lia).
    pose proof (pick_spec ["K"; "M"; "G"; "T"; "P"]%string (m * 2 ^ sh) 1) as Pk.
    destruct (pick (m * 2 ^ sh) 1 ["K"; "M"; "G"; "T"; "P"]%string) as [k u].
    cbn [List.length] in *. destruct Pk as (Hk & Hlow & Hup & _).
    eexists. split; [reflexivity|]. f_equal.
    destruct (Z.ltb_spec k (1 + Z.of_nat 5)) as [Hk6|Hk6],
             (Z.ltb_spec (m * 2 ^ sh) (1024 ^ 6)) as [HV|HV]; try reflexivity; exfalso.
    + specialize (Hup Hk6).
      assert (1024 ^ (k + 1) <= 1024 ^ 6) by (apply Z.pow_le_mono_r; lia). lia.
    + assert (k = 6) by lia. subst k.
      specialize (Hlow 5 ltac:(lia)). change (5 + 1) with 6 in Hlow. lia.
Qed.

(** Past the units, [sdchecker.py] has no string to give. *)
Lemma sdchecker_get_size_none (n : Z) :
  1024 ^ 6 <= n -> n < 2 ^ 1023 -> Sdchecker.get_size n "B" = Ok None.
Proof.
  intros Hn Hmax.
  assert (E60 : 1024 ^ 6 = 2 ^ 60) by reflexivity.
  destruct (sdchecker_get_size_vs_tool n ltac:(lia) Hmax) as (s & _ & ->).
  assert (1024 ^ 6 <= rounded n).
  { unfold rounded. pose proof (round53_spec n ltac:(lia)) as S.
    pose proof (Z.log2_spec n ltac:(lia)) as [L _].
    destruct (round53 n) as [m sh]. destruct S as (_ & _ & _ & _ & Hbig).
    assert (2 ^ 53 <= 2 ^ 60) by (apply Z.pow_le_mono_r; lia).
    destruct (Hbig ltac:(lia)) as [H52 ->].
    assert (60 <= Z.log2 n) by (apply Z.log2_le_pow2; lia).
    assert (2 ^ 60 <= 2 ^ Z.log2 n) by (apply Z.pow_le_mono_r; lia).
    assert (2 ^ Z.log2 n = 2 ^ 52 * 2 ^ (Z.log2 n - 52)).
    { rewrite <- Z.pow_add_r by lia. f_equal. lia. }
    assert (0 < 2 ^ (Z.log2 n - 52)) by (apply Z.pow_pos_nonneg; lia).
    nia. }
  destruct (Z.ltb_spec (rounded n) (1024 ^ 6)); [lia | reflexivity].
Qed.

(** Once the value is a float, nothing in the loop can raise. *)
Lemma get_size_loop_float_total us : forall x suffix,
  exists s, SDT.get_size_loop us (PFloat x) suffix = Ok s.
Proof.
  induction us as [|u us IH]; intros x suffix; cbn.
  - eexists; reflexivity.
  - destruct (float_ltb (float_abs x) SDT.factor); [eexists; reflexivity | apply IH].
Qed.

(** The formatter of [SystemDiagnosticsTool.py] returns a string for every
    integer a float can hold. *)
Lemma get_size_total (n : Z) :
  Z.abs n < 2 ^ 1023 -> exists s, SDT.get_size n = Ok s.
Proof.
  intros Hn. pose proof (float_of_int_ok n Hn) as F.
  unfold SDT.get_size, SDT.get_size_suffix, SDT.units.
  rewrite get_size_loop_cons. cbn [SDT.abs_lt_factor num_format_f SDT.div_factor].
  rewrite F. cbn [bind].
  destruct (Z.abs n <? 1024); [eexists; reflexivity | apply get_size_loop_float_total].
Qed.

(** An integer too large for a float is the one way it raises. *)
Lemma get_size_overflow : SDT.get_size (2 ^ 1024) = Raise OverflowError.
Proof. vm_compute. reflexivity. Qed.

(** C6 (code of sdchecker.py at the failing input).  At one exbibyte,
    [1024^6] bytes, the formatter of [sdchecker.py] falls off the end of
    its loop and returns [None], where the formatter of
    [SystemDiagnosticsTool.py] falls through to the unit E and returns the
    string 1.00EB. *)
Theorem sdchecker_get_size_falls_off :
  Sdchecker.get_size (1024 ^ 6) "B" = Ok None /\
  SDT.get_size (1024 ^ 6) = Ok "1.00EB"%string.
Proof. split; vm_compute; reflexivity. Qed.

(* ================================================================== *)
(** ** Substrings and the VPN flag *)
(* ================================================================== *)

Local Open Scope string_scope.

Lemma prefix_iff p : forall s,
  String.prefix p s = true <-> exists post, s = p +++ post.
Proof.
  induction p as [|c p IH]; intros s.
  - split; [intros _; now exists s | intros _; destruct s; reflexivity].
  - destruct s as [|d s]; cbn.
    + split; [discriminate | intros [post H]; discriminate].
    + destruct (Ascii.ascii_dec c d) as [->|Hne].
      * rewrite IH. split; intros [post H]; exists post; congruence.
      * split; [discriminate | intros [post H]; congruence].
Qed.

Lemma append_assoc (a b c : string) : (a +++ b) +++ c = a +++ b +++ c.
Proof. induction a; cbn; congruence. Qed.

Lemma str_contains_iff p : forall s,
  str_contains p s = true <-> exists pre post, s = pre +++ p +++ post.
Proof.
  induction s as [|d s IH]; cbn [str_contains]; rewrite orb_true_iff, prefix_iff.
  - split.
    + intros [[post H]|H]; [now exists "", post | discriminate].
    + intros (pre & post & H). left. destruct pre; [now exists post | discriminate].
  - rewrite IH. split.
    + intros [[post H]|(pre & post & H)].
      * now exists "", post.
      * exists (String d pre), post. cbn. now rewrite H.
    + intros (pre & post & H). destruct pre as [|e pre]; cbn in H.
      * left. now exists post.
      * right. exists pre, post. congruence.
Qed.

Lemma upper_app a b : upper (a +++ b) = upper a +++ upper b.
Proof. induction a; cbn; congruence. Qed.

Lemma upper_split a : forall s b,
  upper s = a +++ b -> exists s1 s2, s = s1 +++ s2 /\ upper s1 = a /\ upper s2 = b.
Proof.
  induction a as [|c a IH]; intros s b H.
  - now exists "", s.
  - destruct s as [|d s]; [discriminate|]. cbn in H. injection H as Hc H.
    destruct (IH _ _ H) as (s1 & s2 & -> & H1 & H2).
    exists (String d s1), s2. cbn. now rewrite Hc, H1.
Qed.

(** C7.  The presenter's VPN flag is set exactly when some interface name
    has a run of three characters that reads VPN once upper-cased, that is,
    contains VPN whatever the case of its letters.  An interface named tun0
    does not set it; one named VPN-Gateway does. *)
Theorem vpn_active_iff :
  (forall names : list string,
     vpn_active names = true <->
     exists name pre mid post,
       In name names /\ name = pre +++ mid +++ post /\ upper mid = "VPN") /\
  vpn_active ["tun0"] = false /\
  vpn_active ["VPN-Gateway"] = true /\
  vpn_active ["lo"; "my-vpn0"] = true.
Proof.
  split; [|repeat split; reflexivity].
  intros names. unfold vpn_active. rewrite existsb_exists. split.
  - intros (name & Hin & H). apply str_contains_iff in H as (pre' & post' & H).
    apply upper_split in H as (pre & rest & -> & _ & H).
    apply upper_split in H as (mid & post & -> & Hmid & _).
    now exists (pre +++ mid +++ post), pre, mid, post.
  - intros (name & pre & mid & post & Hin & -> & Hmid).
    exists (pre +++ mid +++ post). split; [assumption|].
    apply str_contains_iff. exists (upper pre), (upper post).
    now rewrite !upper_app, Hmid.
Qed.

(* ================================================================== *)
(** ** The primary IPv4 address *)
(* ================================================================== *)

Lemma dict_find_set d k v k' :
  dict_find (dict_set d k v) k' = if String.eqb k k' then Some v else dict_find d k'.
Proof.
  induction d as [|[k0 v0] d IH]; cbn.
  - reflexivity.
  - destruct (String.eqb_spec k0 k) as [->|Hne]; cbn.
    + destruct (String.eqb_spec k k'); reflexivity.
    + rewrite IH. destruct (String.eqb_spec k0 k') as [->|]; [|reflexivity].
      destruct (String.eqb_spec k k'); [congruence | reflexivity].
Qed.

Lemma dict_set_fresh d k v :
  ~ In k (dict_keys d) -> dict_set d k v = (d ++ [(k, v)])%list.
Proof.
  induction d as [|[k0 v0] d IH]; cbn; intros H; [reflexivity|].
  destruct (String.eqb_spec k0 k) as [->|Hne]; [tauto|].
  rewrite IH; tauto.
Qed.

Lemma dict_comprehension_acc {A} (f : A -> pyval) l : forall acc,
  NoDup (dict_keys acc ++ map fst l) ->
  fold_left (fun d kv => dict_set d (fst kv) (f (snd kv))) l acc
  = (acc ++ map (fun kv => (fst kv, f (snd kv))) l)%list.
Proof.
  induction l as [|[k x] l IH]; intros acc H; cbn.
  - now rewrite app_nil_r.
  - cbn in H. pose proof (NoDup_remove_2 _ _ _ H) as Hk.
    rewrite dict_set_fresh by (intros F; apply Hk, in_or_app; now left).
    rewrite IH.
    + now rewrite <- app_assoc.
    + unfold dict_keys. rewrite map_app. cbn. rewrite <- app_assoc. exact H.
Qed.

(** With distinct keys a comprehension lists the items in their order. *)
Lemma dict_comprehension_distinct {A} (f : A -> pyval) l :
  NoDup (map fst l) ->
  dict_comprehension f l = map (fun kv => (fst kv, f (snd kv))) l.
Proof. intros H. unfold dict_comprehension. now rewrite dict_comprehension_acc. Qed.

Lemma dict_comprehension_values {A} (f : A -> pyval) l : forall acc k v,
  (forall k' v', dict_find acc k' = Some v' -> exists x, v' = f x) ->
  dict_find (fold_left (fun d kv => dict_set d (fst kv) (f (snd kv))) l acc) k = Some v ->
  exists x, v = f x.
Proof.
  induction l as [|[k0 x0] l IH]; intros acc k v Hacc H; cbn in H; [eauto|].
  eapply IH; [|exact H]. intros k' v'. rewrite dict_find_set. cbn.
  destruct (String.eqb k0 k'); [intros [= <-]; eauto | apply Hacc].
Qed.

Section PrimaryAddress.
Variable P : provider.
Variable addrs : list (string * list snicaddr).
Variable stats : list (string * snicstats).

Let R := network_report_of addrs stats.

Lemma speed_lookup ifname :
  (stats' <- getitem R "stats" ;;
   st <- get_or stats' ifname (VDict []) ;;
   get st "speed_mbps") = Ok (speed_of stats ifname).
Proof.
  cbn. unfold speed_of.
  destruct (dict_find (dict_comprehension stats_dict stats) ifname) as [v|] eqn:E;
    [|reflexivity].
  apply dict_comprehension_values in E as [st ->]; [reflexivity | discriminate].
Qed.

Lemma scan_addrs_typed ifname l :
  scan_addrs R ifname (map addr_dict l)
  = Ok (match find eligible l with
        | Some a => Some (VStr (address a), VStr ifname, speed_of stats ifname)
        | None => None
        end).
Proof.
  induction l as [|a l IH]; [reflexivity|].
  cbn [map scan_addrs find].
  change (getitem (addr_dict a) "family") with (Ok (VStr (family a))).
  change (getitem (addr_dict a) "address") with (Ok (VStr (address a))).
  cbn [bind contains truthy val_startswith]. unfold eligible.
  destruct (str_contains "AF_INET" (family a)); cbn [bind andb]; [|exact IH].
  destruct (String.eqb (address a) ""); cbn [negb bind andb]; [exact IH|].
  destruct (startswith (address a) "127."); cbn [negb bind]; [exact IH|].
  pose proof (speed_lookup ifname) as S. unfold R in *.
  cbn [bind] in S |- *.
  destruct (getitem (network_report_of addrs stats) "stats") as [s|e]; [|discriminate].
  cbn [bind] in S |- *.
  destruct (get_or s ifname (VDict [])) as [st|e]; [|discriminate].
  cbn [bind] in S |- *. now rewrite S.
Qed.

Lemma scan_interfaces_typed ifs :
  scan_interfaces R (map (fun kv => (fst kv, VList (map addr_dict (snd kv)))) ifs)
  = Ok (match first_eligible ifs with
        | Some (ifname, a) => Some (VStr (address a), VStr ifname, speed_of stats ifname)
        | None => None
        end).
Proof.
  induction ifs as [|[ifname l] ifs IH]; [reflexivity|].
  cbn [map scan_interfaces fst snd iter bind first_eligible].
  rewrite scan_addrs_typed. cbn [bind].
  destruct (find eligible l); [reflexivity | exact IH].
Qed.

(** What [get_primary_ipv4] computes on a report built from an address
    table: the first address, in the order of the table, whose family
    string contains AF_INET and which is neither empty nor starts with
    127., together with its interface; failing that, the host name's
    address unless that is empty, a loopback or unresolved; failing that,
    no address and no interface name. *)
Lemma get_primary_ipv4_scan :
  NoDup (map fst addrs) ->
  get_primary_ipv4 P R
  = Ok (match first_eligible addrs with
        | Some (ifname, a) => (VStr (address a), VStr ifname, speed_of stats ifname)
        | None => hostname_fallback P
        end).
Proof.
  intros Hnd. unfold get_primary_ipv4.
  change (getitem R "interfaces") with (Ok (interfaces_dict addrs)).
  cbn [bind]. unfold interfaces_dict. cbn [items bind].
  rewrite dict_comprehension_distinct by assumption.
  rewrite scan_interfaces_typed. cbn [bind].
  destruct (first_eligible addrs) as [[ifname a]|]; [reflexivity|].
  unfold hostname_fallback.
  destruct (gethostbyname_hostname P) as [h|e]; [|reflexivity].
  destruct (negb (String.eqb h "") && negb (startswith h "127.")); reflexivity.
Qed.

End PrimaryAddress.

(** The first example of the specification: loopback first, then eth0. *)
Lemma get_primary_ipv4_eth0 :
  get_primary_ipv4 host
    (network_report_of [("lo", [inet "127.0.0.1"]); ("eth0", [inet "192.168.1.5"])] [])
  = Ok (VStr "192.168.1.5", VStr "eth0", VNone).
Proof. reflexivity. Qed.

(** The second example: only a loopback, and a host name that resolves to
    a loopback too. *)
Lemma get_primary_ipv4_none :
  get_primary_ipv4 host (network_report_of [("lo", [inet "127.0.0.1"])] [])
  = Ok no_address.
Proof. reflexivity. Qed.

(** Where [str(addr.family)] is the number of the family (2 for IPv4),
    no address passes the test and the host name decides. *)
Lemma get_primary_ipv4_numeric_family :
  get_primary_ipv4 host
    (network_report_of
       [("eth0", [{| family := "2"; address := "192.168.1.5";
                     netmask := None; broadcast := None |}])] [])
  = Ok no_address.
Proof. reflexivity. Qed.

(** An address of family IPv6 passes the test: its family string contains
    AF_INET. *)
Lemma eligible_ipv6 (a : string) :
  a <> "" -> startswith a "127." = false -> eligible (inet6 a) = true.
Proof.
  intros Ha Hs. unfold eligible. cbn [family address inet6]. rewrite Hs.
  destruct (String.eqb_spec a ""); [contradiction | reflexivity].
Qed.

(** C1 (code at the failing input).  On a host whose loopback interface
    carries 127.0.0.1 and ::1 and whose eth0 carries 192.168.1.5, in that
    order, [get_primary_ipv4] returns the IPv6 loopback ::1 on lo as the
    primary IPv4 address, and the presenter prints it as such. *)
Theorem get_primary_ipv4_picks_ipv6 :
  get_primary_ipv4 host
    (network_report_of
       [("lo", [inet "127.0.0.1"; inet6 "::1"]); ("eth0", [inet "192.168.1.5"])] [])
  = Ok (VStr "::1", VStr "lo", VNone)
  /\ (exists report out,
        collect_all (B := example_builtins) host {| json := false; top := 5; quiet := false |}
          = Ok report /\
        pretty_print (B := example_builtins) host report false = (out, Ok tt) /\
        In "Adres IPv4: ::1" out).
Proof.
  split; [reflexivity|].
  eexists. eexists. split; [vm_compute; reflexivity|].
  split; [vm_compute; reflexivity|].
  cbn. tauto.
Qed.

(* ================================================================== *)
(** ** The two rankings of the processes *)
(* ================================================================== *)

Local Close Scope string_scope.

Lemma Z_ltb_asym (a b : Z) : True -> True -> (a <? b) = true -> (b <? a) = false.
Proof. lia. Qed.

Lemma Z_ltb_negtrans (a b c : Z) :
  True -> True -> True -> (a <? b) = false -> (b <? c) = false -> (a <? c) = false.
Proof. lia. Qed.

(** The contract of a stable descending sort fixes its result: two lists
    with the same elements, both descending, in which the elements tying
    with any key come in the same order, are equal. *)
Section Unique.
Context {A K : Type} (ltb : K -> K -> bool) (key : A -> K) (good : K -> Prop).
Hypothesis asym : forall a b, good a -> good b -> ltb a b = true -> ltb b a = false.

Lemma ties_refl x : good (key x) -> ties ltb key (key x) x = true.
Proof.
  intros G. unfold ties.
  destruct (ltb (key x) (key x)) eqn:E; [|reflexivity].
  pose proof (asym _ _ G G E). congruence.
Qed.

Lemma sorted_head_ties x y l :
  good (key x) -> good (key y) -> In y l ->
  StronglySorted (not_below ltb key) (x :: l) ->
  ltb (key x) (key y) = false.
Proof.
  intros Gx Gy Hin Hs. inversion Hs as [|? ? _ Hall]; subst.
  rewrite Forall_forall in Hall. now apply Hall.
Qed.

Lemma stable_descending_unique (S1 : list A) : forall S2,
  Forall (fun y => good (key y)) S1 ->
  Permutation S1 S2 ->
  StronglySorted (not_below ltb key) S1 ->
  StronglySorted (not_below ltb key) S2 ->
  (forall k, good k -> filter (ties ltb key k) S1 = filter (ties ltb key k) S2) ->
  S1 = S2.
Proof.
  induction S1 as [|x S1 IH]; intros S2 G Hp H1 H2 Hf.
  - apply Permutation_nil in Hp. now subst.
  - destruct S2 as [|y S2]; [apply Permutation_sym, Permutation_nil in Hp; discriminate|].
    inversion G as [|? ? Gx G1]; subst.
    assert (G2 : Forall (fun z => good (key z)) (y :: S2))
      by (eapply Permutation_Forall; eassumption).
    inversion G2 as [|? ? Gy G2']; subst.
    assert (Exy : ltb (key x) (key y) = false).
    { assert (Hin : In y (x :: S1))
        by (eapply Permutation_in; [symmetry; exact Hp | now left]).
      destruct Hin as [->|Hin].
      - destruct (ltb (key y) (key y)) eqn:E; [|reflexivity].
        pose proof (asym _ _ Gy Gy E). congruence.
      - eapply sorted_head_ties; eauto. }
    assert (Eyx : ltb (key y) (key x) = false).
    { assert (Hin : In x (y :: S2))
        by (eapply Permutation_in; [exact Hp | now left]).
      destruct Hin as [->|Hin].
      - exact Exy.
      - eapply sorted_head_ties; eauto. }
    assert (x = y).
    { specialize (Hf (key x) Gx). cbn [filter] in Hf.
      rewrite ties_refl in Hf by assumption.
      unfold ties at 2 in Hf. rewrite Exy, Eyx in Hf. cbn in Hf. congruence. }
    subst y. f_equal. apply IH; try assumption.
    + eapply Permutation_cons_inv; eassumption.
    + now inversion H1.
    + now inversion H2.
    + intros k Gk. specialize (Hf k Gk). cbn [filter] in Hf.
      destruct (ties ltb key k x); congruence.
Qed.

End Unique.

(** Which processes end up in [procs]: those whose two readings succeed;
    one that has vanished or denies access is left out, and the others
    are read all the same. *)
Lemma read_processes_skips (p : process) (ps : list process) (procs : list proc_entry) :
  (cpu_percent p = Raise NoSuchProcess \/ cpu_percent p = Raise AccessDenied \/
   (exists c, cpu_percent p = Ok c /\
      (memory_rss p = Raise NoSuchProcess \/ memory_rss p = Raise AccessDenied))) ->
  read_processes ps = Ok procs ->
  read_processes (p :: ps) = Ok procs.
Proof.
  intros H E. cbn [read_processes]. unfold read_process.
  destruct H as [->|[->|(c & -> & [->| ->])]]; cbn; now rewrite E.
Qed.

Lemma read_processes_reads (p : process) (ps : list process) (procs : list proc_entry) c m h :
  cpu_percent p = Ok c -> memory_rss p = Ok m -> get_size m = Ok h ->
  read_processes ps = Ok procs ->
  read_processes (p :: ps)
  = Ok ({| e_pid := pid p; e_name := name p; e_user := username p;
           e_cpu_percent := c; e_memory_rss := m; e_memory_rss_human := h |} :: procs).
Proof.
  intros Hc Hm Hh E. cbn [read_processes]. unfold read_process.
  rewrite Hc, Hm. cbn [bind]. rewrite Hh. cbn. now rewrite E.
Qed.

(** C3.  Whatever processes were read, and for every N >= 0, the top-CPU
    list is the first N of the processes in descending order of CPU
    percent and the top-memory list the first N of them in descending
    order of resident memory; processes whose keys tie stay in the order
    of the enumeration; each list has exactly min(N, number of processes)
    entries, none for N = 0.  (CPU percentages are numbers: none is NaN.) *)
Theorem top_processes_ranking (P : provider) (n : Z)
    (ps : list process) (procs : list proc_entry) :
  0 <= n ->
  process_iter P = Ok ps ->
  read_processes ps = Ok procs ->
  Forall (fun x => ordered (e_cpu_percent x)) procs ->
  exists by_cpu_all by_mem_all,
    top_processes P n
    = Ok (VDict [("top_cpu"%string, VList (map proc_dict (firstn (Z.to_nat n) by_cpu_all)));
                 ("top_memory"%string, VList (map proc_dict (firstn (Z.to_nat n) by_mem_all)))])
    /\ Permutation by_cpu_all procs
    /\ StronglySorted (not_below float_ltb e_cpu_percent) by_cpu_all
    /\ (forall k, ordered k ->
          filter (ties float_ltb e_cpu_percent k) by_cpu_all
          = filter (ties float_ltb e_cpu_percent k) procs)
    /\ Permutation by_mem_all procs
    /\ StronglySorted (not_below Z.ltb e_memory_rss) by_mem_all
    /\ (forall k,
          filter (ties Z.ltb e_memory_rss k) by_mem_all
          = filter (ties Z.ltb e_memory_rss k) procs)
    /\ List.length (firstn (Z.to_nat n) by_cpu_all)
       = Z.to_nat (Z.min n (Z.of_nat (List.length procs)))
    /\ List.length (firstn (Z.to_nat n) by_mem_all)
       = Z.to_nat (Z.min n (Z.of_nat (List.length procs)))
    /\ (n = 0 -> firstn (Z.to_nat n) by_cpu_all = [] /\ firstn (Z.to_nat n) by_mem_all = []).
Proof.
  intros Hn Hit Hread Hord.
  exists (sorted_reverse float_ltb e_cpu_percent procs),
         (sorted_reverse Z.ltb e_memory_rss procs).
  assert (Hlen : forall (S : list proc_entry), Permutation S procs ->
            List.length (firstn (Z.to_nat n) S)
            = Z.to_nat (Z.min n (Z.of_nat (List.length procs)))).
  { intros S HS. rewrite length_firstn, (Permutation_length HS). lia. }
  split.
  { unfold top_processes. rewrite Hit. cbn [bind]. rewrite Hread. cbn [bind].
    unfold by_cpu, by_mem, slice_to.
    destruct (Z.leb_spec 0 n); [reflexivity | lia]. }
  split; [apply sorted_reverse_perm|].
  split; [apply (sorted_reverse_sorted float_ltb e_cpu_percent ordered
                   float_ltb_asym float_ltb_negtrans); assumption|].
  split; [intros k Hk; apply (sorted_reverse_ties float_ltb e_cpu_percent ordered
                               float_ltb_negtrans); assumption|].
  split; [apply sorted_reverse_perm|].
  split; [apply (sorted_reverse_sorted Z.ltb e_memory_rss (fun _ => True)
                   Z_ltb_asym Z_ltb_negtrans);
          apply Forall_forall; intros; exact I|].
  split; [intros k; apply (sorted_reverse_ties Z.ltb e_memory_rss (fun _ => True)
                             Z_ltb_negtrans); [exact I|];
          apply Forall_forall; intros; exact I|].
  split; [apply Hlen, sorted_reverse_perm|].
  split; [apply Hlen, sorted_reverse_perm|].
  intros ->. split; reflexivity.
Qed.

(** The host of the examples, asked for the top two. *)
Lemma top_processes_ranking_witness :
  exists by_cpu_all by_mem_all,
    top_processes host 2
    = Ok (VDict [("top_cpu"%string, VList (map proc_dict (firstn (Z.to_nat 2) by_cpu_all)));
                 ("top_memory"%string, VList (map proc_dict (firstn (Z.to_nat 2) by_mem_all)))])
    /\ Permutation by_cpu_all host_procs
    /\ StronglySorted (not_below float_ltb e_cpu_percent) by_cpu_all
    /\ (forall k, ordered k ->
          filter (ties float_ltb e_cpu_percent k) by_cpu_all
          = filter (ties float_ltb e_cpu_percent k) host_procs)
    /\ Permutation by_mem_all host_procs
    /\ StronglySorted (not_below Z.ltb e_memory_rss) by_mem_all
    /\ (forall k,
          filter (ties Z.ltb e_memory_rss k) by_mem_all
          = filter (ties Z.ltb e_memory_rss k) host_procs)
    /\ List.length (firstn (Z.to_nat 2) by_cpu_all)
       = Z.to_nat (Z.min 2 (Z.of_nat (List.length host_procs)))
    /\ List.length (firstn (Z.to_nat 2) by_mem_all)
       = Z.to_nat (Z.min 2 (Z.of_nat (List.length host_procs)))
    /\ (2 = 0 -> firstn (Z.to_nat 2) by_cpu_all = [] /\ firstn (Z.to_nat 2) by_mem_all = []).
Proof.
  apply (top_processes_ranking host 2 host_processes host_procs).
  - lia.
  - reflexivity.
  - reflexivity.
  - repeat constructor; discriminate.
Defined.

(** There the rankings come out as pids 5, 3, 4, 1 by CPU (3 and 4 tie at
    5.0 and keep their order) and 3, 4, 1, 5 by memory. *)
Lemma host_rankings :
  map e_pid (sorted_reverse float_ltb e_cpu_percent host_procs) = [5; 3; 4; 1] /\
  map e_pid (sorted_reverse Z.ltb e_memory_rss host_procs) = [3; 4; 1; 5] /\
  map e_pid (by_cpu 2 host_procs) = [5; 3] /\
  map e_pid (by_mem 0 host_procs) = [].
Proof. repeat split; reflexivity. Qed.

(* ================================================================== *)
(** ** The collector: partitions, sections, keys *)
(* ================================================================== *)

Lemma get_size_byte_count x : byte_count x -> exists s, get_size x = Ok s.
Proof.
  intros [H0 H]. apply get_size_total.
  assert (2 ^ 64 < 2 ^ 1023) by (apply Z.pow_lt_mono_r; lia). lia.
Qed.

Lemma partition_dict_denied P p :
  disk_usage P (mountpoint p) = Raise PermissionError ->
  partition_dict P p
  = Ok (VDict [("device", VStr (device p)); ("mountpoint", VStr (mountpoint p));
               ("fstype", VStr (fstype p)); ("opts", VStr (opts p));
               ("error", VStr "PermissionError")]%string).
Proof. intros H. unfold partition_dict. rewrite H. reflexivity. Qed.

Lemma partition_dict_read P p u t s f :
  disk_usage P (mountpoint p) = Ok u ->
  get_size (du_total u) = Ok t -> get_size (du_used u) = Ok s ->
  get_size (du_free u) = Ok f ->
  partition_dict P p
  = Ok (VDict [("device", VStr (device p)); ("mountpoint", VStr (mountpoint p));
               ("fstype", VStr (fstype p)); ("opts", VStr (opts p));
               ("total", VStr t); ("used", VStr s); ("free", VStr f);
               ("percent", VFloat (du_percent u))]%string).
Proof.
  intros H Ht Hs Hf. unfold partition_dict. rewrite H. cbn [bind try_except].
  rewrite Ht. cbn [bind]. rewrite Hs. cbn [bind]. rewrite Hf. reflexivity.
Qed.

Lemma partition_dict_collected P p :
  usage_answers P p -> exists v, partition_dict P p = Ok v /\ collected P p v.
Proof.
  intros [H|(u & H & Bt & Bu & Bf)].
  - eexists. split; [now apply partition_dict_denied|].
    eexists. split; [reflexivity|]. rewrite H. repeat split; reflexivity.
  - destruct (get_size_byte_count _ Bt) as [t Ht].
    destruct (get_size_byte_count _ Bu) as [s Hs].
    destruct (get_size_byte_count _ Bf) as [f Hf].
    eexists. split; [eapply partition_dict_read; eassumption|].
    eexists. split; [reflexivity|]. rewrite H.
    split; [reflexivity|]. split; [reflexivity|]. split; [reflexivity|].
    split; [exists t; split; [assumption | reflexivity]|].
    split; [exists s; split; [assumption | reflexivity]|].
    split; [exists f; split; [assumption | reflexivity]|].
    reflexivity.
Qed.

Lemma map_partition_dict P parts :
  Forall (usage_answers P) parts ->
  exists entries, map_exc (partition_dict P) parts = Ok entries /\
                  Forall2 (collected P) parts entries.
Proof.
  induction 1 as [|p parts Hp _ (entries & E & F)].
  - exists []. split; [reflexivity | constructor].
  - destruct (partition_dict_collected P p Hp) as (v & Ev & Cv).
    exists (v :: entries). cbn. rewrite Ev. cbn. rewrite E. cbn.
    split; [reflexivity | now constructor].
Qed.

(** C5.  When the usage query of some partitions raises a permission
    failure (and the others answer), [disks_info] still returns; its
    partition list has one entry per partition, in order; the entry of a
    partition that could not be read carries the error marker and none of
    total, used, free, percent; the entries of the others carry all four
    and no marker. *)
Theorem disks_info_permission (P : provider) (parts : list sdiskpart) :
  disk_partitions P = Ok parts ->
  Forall (usage_answers P) parts ->
  (disk_io_counters P = Ok None \/
   exists io, disk_io_counters P = Ok (Some io) /\
              byte_count (read_bytes io) /\ byte_count (write_bytes io)) ->
  exists d entries,
    disks_info P = Ok (VDict d) /\
    dict_find d "partitions" = Some (VList entries) /\
    Forall2 (collected P) parts entries.
Proof.
  intros Hp Hu Hio.
  destruct (map_partition_dict P parts Hu) as (entries & E & F).
  unfold disks_info. rewrite Hp. cbn [bind]. rewrite E. cbn [bind].
  destruct Hio as [->|(io & -> & Br & Bw)]; cbn [bind].
  - eexists. exists entries. split; [reflexivity|]. split; [reflexivity | assumption].
  - destruct (get_size_byte_count _ Br) as [r ->].
    destruct (get_size_byte_count _ Bw) as [w ->]. cbn [bind].
    eexists. exists entries. split; [reflexivity|]. split; [reflexivity | assumption].
Qed.

(** On the host of the examples the second of three partitions may not be
    read. *)
Lemma disks_info_permission_witness :
  exists d entries,
    disks_info host = Ok (VDict d) /\
    dict_find d "partitions" = Some (VList entries) /\
    Forall2 (collected host)
      [ {| device := "/dev/sda1"; mountpoint := "/"; fstype := "ext4"; opts := "rw" |};
        {| device := "/dev/sdb1"; mountpoint := "/mnt/secret"; fstype := "ext4"; opts := "rw" |};
        {| device := "/dev/sdc1"; mountpoint := "/data"; fstype := "xfs"; opts := "rw" |} ]
      entries.
Proof.
  apply (disks_info_permission host).
  - reflexivity.
  - apply Forall_cons; [|apply Forall_cons; [|apply Forall_cons; [|apply Forall_nil]]].
    + right. eexists. split; [reflexivity|]. unfold byte_count. cbn. lia.
    + left. reflexivity.
    + right. eexists. split; [reflexivity|]. unfold byte_count. cbn. lia.
  - left. reflexivity.
Defined.

(** In [sdchecker.py] a partition that may not be read is named and
    skipped, and the loop goes on with the next one. *)
Lemma sdchecker_disk_section_skips p rest du :
  du (mountpoint p) = Raise PermissionError ->
  Sdchecker.disk_section (p :: rest) du
  = (("- Dysk: " +++ device p) :: fst (Sdchecker.disk_section rest du),
     snd (Sdchecker.disk_section rest du)).
Proof.
  intros H. unfold Sdchecker.disk_section. cbn [for_each]. rewrite H.
  cbn. destruct (for_each rest _) as [out r]. reflexivity.
Qed.

(* ================================================================== *)
(** ** The assembled report and its export *)
(* ================================================================== *)

Lemma bind_ok {A C} (m : exc A) (k : A -> exc C) r :
  bind m k = Ok r -> exists a, m = Ok a /\ k a = Ok r.
Proof. destruct m as [a|e]; cbn; [eauto | discriminate]. Qed.

(** Peel the binds of a hypothesis [... = Ok r] one by one. *)
Ltac peel H :=
  repeat match type of H with
         | bind ?m _ = Ok _ =>
             let a := fresh "a" in
             let E := fresh "E" in
             apply bind_ok in H as (a & E & H)
         end.

Section Report.
Context {B : Builtins}.
Variable P : provider.

Lemma gpu_info_marked : gpu_marked (gpu_info P).
Proof.
  unfold gpu_info, gpu_marked.
  destruct (HAVE_GPUTIL P); cbn [negb].
  - destruct (getGPUs P) as [gpus|e]; eexists; (split; [reflexivity|]);
      [left | right]; cbn; tauto.
  - eexists. split; [reflexivity|]. right. cbn. tauto.
Qed.

Lemma sensors_info_marked : sensors_marked (sensors_info P).
Proof.
  unfold sensors_info, sensors_marked.
  destruct (sensors_temperatures P) as [temps|e1],
           (sensors_fans P) as [fans|e2],
           (sensors_battery P) as [[batt|]|e3];
    (eexists; split; [reflexivity|]); cbn; tauto.
Qed.

(** The report holds exactly these keys, in this order. *)
Lemma collect_all_keys args report :
  collect_all P args = Ok report ->
  exists d, report = VDict d /\
    dict_keys d = ("generated_at" :: section_keys)%string /\
    dict_find d "generated_at" = Some (VStr (now_isoformat P)) /\
    dict_find d "sensors" = Some (sensors_info P) /\
    dict_find d "gpu" = Some (gpu_info P).
Proof.
  intros H. unfold collect_all in H. peel H. injection H as <-.
  eexists. split; [reflexivity|]. repeat split; reflexivity.
Qed.

(** The collector returns whenever the seven sections that can fail do;
    the GPU, the sensors and the connections never stop it. *)
Lemma collect_all_returns args :
  is_ok (basic_system_info P) = true -> is_ok (uptime_info P) = true ->
  is_ok (cpu_info P) = true -> is_ok (memory_info P) = true ->
  is_ok (disks_info P) = true -> is_ok (network_info P) = true ->
  is_ok (top_processes P (top args)) = true ->
  is_ok (collect_all P args) = true.
Proof.
  unfold collect_all.
  destruct (basic_system_info P); [|discriminate].
  destruct (uptime_info P); [|discriminate].
  destruct (cpu_info P); [|discriminate].
  destruct (memory_info P); [|discriminate].
  destruct (disks_info P); [|discriminate].
  destruct (network_info P); [|discriminate].
  destruct (top_processes P (top args)); [|discriminate].
  reflexivity.
Qed.

(** What a run with [--json] that ends well has written. *)
Lemma main_written args report :
  collect_all P args = Ok report ->
  json args = true ->
  outcome (main P args) = Ok tt ->
  written (main P args) = [("system_report.json"%string, report)].
Proof.
  intros Hc Hj. unfold main. rewrite Hc, Hj.
  destruct (if negb (quiet args) then pretty_print P report false else io_ret tt)
    as [out [[]|e]]; cbn; [|discriminate].
  destruct (open_report P) as [[]|e]; cbn; [reflexivity | discriminate].
Qed.

(** Without [--json] nothing is written. *)
Lemma main_not_written args :
  json args = false -> written (main P args) = [].
Proof.
  intros Hj. unfold main. rewrite Hj.
  destruct (collect_all P args) as [report|e]; [|reflexivity].
  destruct (if negb (quiet args) then pretty_print P report false else io_ret tt)
    as [out [[]|e]]; reflexivity.
Qed.

End Report.

Lemma dict_has_in d k : In k (dict_keys d) -> dict_has d k = true.
Proof.
  unfold dict_has. induction d as [|[k0 v0] d IH]; cbn; [tauto|].
  intros [->|H].
  - now rewrite String.eqb_refl.
  - destruct (String.eqb k0 k); [reflexivity | auto].
Qed.

Lemma section_keys_has d :
  dict_keys d = ("generated_at" :: section_keys)%string ->
  Forall (fun k => dict_has d k = true) section_keys.
Proof.
  intros H. apply Forall_forall. intros k Hk.
  apply dict_has_in. rewrite H. now right.
Qed.

(** C4.  Whenever the collector returns a report, the report is a
    dictionary that holds every one of the ten section keys; its GPU
    section says whether GPUs are available and otherwise carries a note or
    an error, and its sensors section carries, per kind of reading, the
    readings or a not-supported marker: a source that is missing leaves a
    marker, never a missing key.  A run with --json that ends well has
    written that same dictionary to system_report.json. *)
Theorem report_has_every_section {B : Builtins} (P : provider)
    (args : arguments) (report : pyval) :
  collect_all P args = Ok report ->
  exists d,
    report = VDict d /\
    Forall (fun k => dict_has d k = true) section_keys /\
    (exists g, dict_find d "gpu" = Some g /\ gpu_marked g) /\
    (exists s, dict_find d "sensors" = Some s /\ sensors_marked s) /\
    (json args = true -> outcome (main P args) = Ok tt ->
     written (main P args) = [("system_report.json"%string, VDict d)]).
Proof.
  intros H. destruct (collect_all_keys P args report H) as (d & -> & K & _ & S & G).
  exists d. split; [reflexivity|].
  split; [now apply section_keys_has|].
  split; [exists (gpu_info P); split; [assumption | apply gpu_info_marked]|].
  split; [exists (sensors_info P); split; [assumption | apply sensors_info_marked]|].
  intros Hj Ho. now apply main_written.
Qed.

(** The host of the examples has neither GPUtil nor temperature or fan
    sensors; its report still has every section. *)
Lemma report_has_every_section_witness :
  exists d,
    host_report = VDict d /\
    Forall (fun k => dict_has d k = true) section_keys /\
    (exists g, dict_find d "gpu" = Some g /\ gpu_marked g) /\
    (exists s, dict_find d "sensors" = Some s /\ sensors_marked s) /\
    (json host_args = true ->
     outcome (main (B := example_builtins) host host_args)
       = Ok tt ->
     written (main (B := example_builtins) host host_args)
       = [("system_report.json"%string, VDict d)]).
Proof.
  apply (report_has_every_section (B := example_builtins) host host_args host_report).
  vm_compute. reflexivity.
Defined.

(** C10.  Whenever the collector returns a report, the report holds,
    next to the section keys and distinct from each of them, the key
    generated_at with the time of collection; a run with --json that ends
    well has written it along. *)
Theorem report_has_generated_at {B : Builtins} (P : provider)
    (args : arguments) (report : pyval) :
  collect_all P args = Ok report ->
  exists d,
    report = VDict d /\
    dict_find d "generated_at" = Some (VStr (now_isoformat P)) /\
    ~ In "generated_at"%string section_keys /\
    (json args = true -> outcome (main P args) = Ok tt ->
     exists file, written (main P args) = [("system_report.json"%string, VDict file)] /\
                  dict_find file "generated_at" = Some (VStr (now_isoformat P))).
Proof.
  intros H. destruct (collect_all_keys P args report H) as (d & -> & _ & T & _).
  exists d. split; [reflexivity|]. split; [assumption|]. split.
  - cbn. intros F. repeat (destruct F as [F|F]; [discriminate|]). exact F.
  - intros Hj Ho. exists d. split; [now apply main_written | assumption].
Qed.

Lemma report_has_generated_at_witness :
  exists d,
    host_report = VDict d /\
    dict_find d "generated_at" = Some (VStr (now_isoformat host)) /\
    ~ In "generated_at"%string section_keys /\
    (json host_args = true ->
     outcome (main (B := example_builtins) host host_args)
       = Ok tt ->
     exists file,
       written (main (B := example_builtins) host host_args)
         = [("system_report.json"%string, VDict file)] /\
       dict_find file "generated_at" = Some (VStr (now_isoformat host))).
Proof.
  apply (report_has_generated_at (B := example_builtins) host host_args host_report).
  vm_compute. reflexivity.
Defined.

(** The run itself, on that host: it ends well and the file is written. *)
Lemma host_run :
  outcome (main (B := example_builtins) host host_args)
    = Ok tt /\
  map fst (written (main (B := example_builtins) host
                      host_args))
    = ["system_report.json"%string].
Proof. split; vm_compute; reflexivity. Qed.

(* ================================================================== *)
(** ** The presenter: percentages and missing fields *)
(* ================================================================== *)

Local Open Scope string_scope.

Section Presenter.
Context {B : Builtins}.

(** The CPU line formats whatever converts to a float with one decimal. *)
Lemma cpu_usage_line_float (x : pyfloat) :
  cpu_usage_line (VDict [("cpu_total_usage_percent", VFloat x)])
  = Ok ("Użycie CPU (całość): " +++ format_f 1 x +++ "%").
Proof. reflexivity. Qed.

(** The memory line shows the percentage as [str] shows it. *)
Lemma ram_used_line_raw (used : string) (percent : pyval) :
  ram_used_line (VDict [("used", VStr used); ("percent", percent)])
  = Ok ("RAM użyte: " +++ used +++ " (" +++ py_str percent +++ "%)").
Proof. reflexivity. Qed.

Lemma disk_line_ok (p : dict) :
  disk_line (VDict p)
  = Ok (py_str (match dict_find p "device" with Some v => v | None => VStr "-" end)
        +++ " typ: "
        +++ py_str (py_or (match dict_find p "fstype" with Some v => v | None => VNone end)
                          (VStr "-"))
        +++ "  rozmiar: "
        +++ py_str (match dict_find p "total" with Some v => v | None => VStr "-" end)
        +++ "  zajęte: "
        +++ py_str (match dict_find p "percent" with Some v => v | None => VStr "-" end)
        +++ "%").
Proof. reflexivity. Qed.


Lemma gpu_line_ok (g : dict) (x : pyfloat) :
  py_float (py_or (match dict_find g "load_percent" with Some v => v | None => VNone end)
                  (VFloat (Fin false 0 0))) = Ok x ->
  gpu_line (VDict g)
  = Ok (py_str (match dict_find g "name" with Some v => v | None => VStr "-" end)
        +++ "  | Obciążenie: " +++ format_f 1 x +++ "% "
        +++ String (ascii_of_nat 10) "Pamięć VRAM: "
        +++ (match dict_find g "memory_used" with
             | None | Some VNone => "-"
             | Some v => py_str v +++ "MB"
             end)
        +++ " / "
        +++ (match dict_find g "memory_total" with
             | None | Some VNone => "-"
             | Some v => py_str v +++ "MB"
             end)
        +++ "  | Temp: "
        +++ py_str (py_or (match dict_find g "temperature_c" with Some v => v | None => VNone end)
                          (VStr "-"))
        +++ "C").
Proof.
  intros H. unfold gpu_line. cbn [get get_or bind]. rewrite H. cbn [bind].
  destruct (dict_find g "memory_used") as [[]|], (dict_find g "memory_total") as [[]|];
    reflexivity.
Qed.

Lemma missing_load (g : dict) :
  missing g "load_percent" ->
  py_float (py_or (match dict_find g "load_percent" with Some v => v | None => VNone end)
                  (VFloat (Fin false 0 0))) = Ok (Fin false 0 0).
Proof. intros [-> | ->]; reflexivity. Qed.

(** C9 (as amended).  A partition entry always gets its line, and a
    missing total or percent shows there as a dash.  A GPU entry whose
    load is missing or a float always gets its line; missing used memory,
    total memory and temperature show as dashes, a missing load as 0.0%. *)
Theorem lines_degrade_gracefully :
  (forall p : dict,
     exists line, disk_line (VDict p) = Ok line /\
       (dict_find p "total" = None ->
        exists pre post, line = pre +++ "  rozmiar: -  zajęte: " +++ post) /\
       (dict_find p "percent" = None ->
        exists pre, line = pre +++ "  zajęte: -%")) /\
  (forall g : dict,
     missing g "load_percent" \/ (exists x, dict_find g "load_percent" = Some (VFloat x)) ->
     exists line, gpu_line (VDict g) = Ok line /\
       (missing g "memory_used" ->
        exists pre post, line = pre +++ "Pamięć VRAM: - / " +++ post) /\
       (missing g "memory_total" ->
        exists pre post, line = pre +++ " / -  | Temp: " +++ post) /\
       (missing g "temperature_c" ->
        exists pre, line = pre +++ "  | Temp: -C") /\
       (missing g "load_percent" ->
        exists pre post, line = pre +++ "  | Obciążenie: 0.0% " +++ post)).
Proof.
  split.
  - intros p. eexists. split; [apply disk_line_ok|]. split.
    + intros ->.
      match goal with
      | |- exists pre post, ?d +++ ?t1 +++ ?f +++ ?t2 +++ ?tot +++ ?t3 +++ ?rest = _ =>
          exists (d +++ t1 +++ f), rest
      end.
      rewrite !append_assoc. reflexivity.
    + intros ->.
      match goal with
      | |- exists pre, ?d +++ ?t1 +++ ?f +++ ?t2 +++ ?tot +++ ?rest = _ =>
          exists (d +++ t1 +++ f +++ t2 +++ tot)
      end.
      rewrite !append_assoc. reflexivity.
  - intros g Hload.
    assert (exists x, py_float (py_or (match dict_find g "load_percent" with
                                       | Some v => v | None => VNone end)
                                      (VFloat (Fin false 0 0))) = Ok x) as [x Hx].
    { destruct Hload as [M|[x E]].
      - eexists. now apply missing_load.
      - rewrite E. unfold py_or. destruct (truthy (VFloat x)); eexists; reflexivity. }
    eexists. split; [apply (gpu_line_ok g x Hx)|].
    split; [|split; [|split]].
    + intros M.
      match goal with
      | |- exists pre post,
             ?n +++ ?t1 +++ ?l +++ ?t2 +++ String ?nl ?t3 +++ ?u +++ ?t4 +++ ?rest = _ =>
          exists (n +++ t1 +++ l +++ t2 +++ String nl ""), rest
      end.
      rewrite !append_assoc. destruct M as [-> | ->]; reflexivity.
    + intros M.
      match goal with
      | |- exists pre post,
             ?n +++ ?t1 +++ ?l +++ ?t2 +++ ?t3 +++ ?u +++ ?t4 +++ ?tt +++ ?t5 +++ ?rest = _ =>
          exists (n +++ t1 +++ l +++ t2 +++ t3 +++ u), rest
      end.
      rewrite !append_assoc. destruct M as [-> | ->]; reflexivity.
    + intros M.
      match goal with
      | |- exists pre,
             ?n +++ ?t1 +++ ?l +++ ?t2 +++ ?t3 +++ ?u +++ ?t4 +++ ?tt +++ ?rest = _ =>
          exists (n +++ t1 +++ l +++ t2 +++ t3 +++ u +++ t4 +++ tt)
      end.
      rewrite !append_assoc. destruct M as [-> | ->]; reflexivity.
    + intros M. rewrite (missing_load g M) in Hx. injection Hx as <-.
      match goal with
      | |- exists pre post, ?n +++ ?t1 +++ ?l +++ ?t2 +++ ?rest = _ =>
          exists n, rest
      end.
      reflexivity.
Qed.

(** C8 (code at the failing input).  The presenter formats the total CPU
    load and the GPU load with one decimal and a percent sign, but writes
    the memory and the disk percentage as [str] shows them: a percentage
    of 50 held as a whole number is printed 50.0% on the CPU and GPU lines
    and 50% on the memory and disk lines, and a float is printed in its
    own notation, however many decimals that has.  The helper
    [human_percent], which would print 50.0%, is not called. *)
Theorem percentages_shown_raw :
  (forall (used : string) (x : pyfloat),
     ram_used_line (VDict [("used", VStr used); ("percent", VFloat x)])
     = Ok ("RAM użyte: " +++ used +++ " (" +++ float_repr x +++ "%)")) /\
  (forall (dev total : string) (x : pyfloat),
     disk_line (VDict [("device", VStr dev); ("total", VStr total); ("percent", VFloat x)])
     = Ok (dev +++ " typ: -  rozmiar: " +++ total +++ "  zajęte: " +++ float_repr x +++ "%")) /\
  (exists out,
     pretty_print host whole_percent_report false = (out, Ok tt) /\
     In "Użycie CPU (całość): 50.0%" out /\
     In "RAM użyte: 4.00GB (50%)" out /\
     In "/dev/sda1 typ: ext4  rozmiar: 1.00GB  zajęte: 50%" out /\
     In ("GPU0  | Obciążenie: 50.0% " +++ String (ascii_of_nat 10)
         "Pamięć VRAM: - / -  | Temp: -C") out) /\
  human_percent (VInt 50) = "50.0%".
Proof.
  split; [reflexivity|]. split; [reflexivity|]. split; [|reflexivity].
  eexists. split; [vm_compute; reflexivity|]. cbn. tauto.
Qed.

End Presenter.

(** C9 (where the statement fails).  A GPU entry without a load figure is
    printed with the load 0.0%, not with a dash; its missing memory and
    temperature figures are dashes. *)
Lemma gpu_line_missing_load_is_zero :
  missing bare_gpu "load_percent" /\
  gpu_line (B := example_builtins) (VDict bare_gpu)
  = Ok ("GPU0  | Obciążenie: 0.0% " +++ String (ascii_of_nat 10)
        "Pamięć VRAM: - / -  | Temp: -C") /\
  (forall line, gpu_line (B := example_builtins) (VDict bare_gpu) = Ok line ->
     str_contains "Obciążenie: -" line = false).
Proof.
  split; [now left|]. split; [reflexivity|].
  intros line H. vm_compute in H. injection H as <-. reflexivity.
Qed.

(** The entry of a partition that may not be read, and a GPU entry with
    nothing but a name. *)
Lemma lines_degrade_gracefully_witness :
  (exists line, disk_line (B := example_builtins) (VDict denied_partition) = Ok line /\
     (dict_find denied_partition "total" = None ->
      exists pre post, line = pre +++ "  rozmiar: -  zajęte: " +++ post) /\
     (dict_find denied_partition "percent" = None ->
      exists pre, line = pre +++ "  zajęte: -%")) /\
  (exists line, gpu_line (B := example_builtins) (VDict bare_gpu) = Ok line /\
     (missing bare_gpu "memory_used" ->
      exists pre post, line = pre +++ "Pamięć VRAM: - / " +++ post) /\
     (missing bare_gpu "memory_total" ->
      exists pre post, line = pre +++ " / -  | Temp: " +++ post) /\
     (missing bare_gpu "temperature_c" ->
      exists pre, line = pre +++ "  | Temp: -C") /\
     (missing bare_gpu "load_percent" ->
      exists pre post, line = pre +++ "  | Obciążenie: 0.0% " +++ post)).
Proof.
  split.
  - apply (proj1 (lines_degrade_gracefully (B := example_builtins)) denied_partition).
  - apply (proj2 (lines_degrade_gracefully (B := example_builtins)) bare_gpu). left. left. reflexivity.
Defined.


(** What the run on the host of the examples prints. *)
Lemma host_stdout :
  stdout (main (B := example_builtins) host host_args)
  = [""; "================ Informacje systemowe ================";
     "Linux 6.1 (x86_64) - user: alice"; ""; "Czas pracy: 1:00:00"; "";
     "------------------------ CPU -------------------------";
     "Ilość rdzeni: 4"; "Użycie CPU (całość): 12.5%"; "";
     "----------------------- Pamięć -----------------------";
     "RAM całkowity: 8.00GB"; "RAM użyte: 4.00GB (50.0%)"; "";
     "----------------------- Dyski ------------------------";
     "/dev/sda1 typ: ext4  rozmiar: 1.00GB  zajęte: 50.0%";
     "/dev/sdb1 typ: ext4  rozmiar: -  zajęte: -%";
     "/dev/sdc1 typ: xfs  rozmiar: 1.00GB  zajęte: 50.0%"; "";
     "------------------------ Sieć ------------------------";
     "Adres IPv4: ::1"; "Adres IPv6: ::1"; "VPN: brak"; "";
     "------------------------- GPU ------------------------";
     "GPUtil not installed. Install with 'pip install GPUtil' for GPU info.";
     ""; "======================================================";
     "Zapisano raport do system_report.json"].
Proof. vm_compute. reflexivity. Qed.

(* ================================================================== *)
(** ** The presenter on a whole report *)
(* ================================================================== *)

(** How a run of output statements ends. *)
Lemma snd_bind {A C} (m : io A) (k : A -> io C) (a : A) :
  snd m = Ok a -> snd (io_bind m k) = snd (k a).
Proof.
  destruct m as [o [x|e]]; cbn; intros [= <-]. now destruct (k x).
Qed.

Lemma snd_bind_raise {A C} (m : io A) (k : A -> io C) (e : pyexc) :
  snd m = Raise e -> snd (io_bind m k) = Raise e.
Proof. destruct m as [o [x|e']]; cbn; intros [= <-]. reflexivity. Qed.

Lemma snd_for_each {A} (l : list A) (body : A -> io unit) :
  Forall (fun x => snd (body x) = Ok tt) l -> snd (for_each l body) = Ok tt.
Proof.
  induction 1 as [|x l Hx _ IH]; [reflexivity|].
  cbn [for_each]. now rewrite (snd_bind _ _ tt Hx).
Qed.

Section Printing.
Context {B : Builtins}.
Variable P : provider.

Lemma disk_line_dict p : is_dict p -> exists s, disk_line p = Ok s.
Proof. intros [d ->]. eexists. reflexivity. Qed.

Lemma gpu_line_entry g : gpu_entry g -> exists s, gpu_line g = Ok s.
Proof.
  intros (e & -> & H).
  assert (exists x, py_float (py_or (match dict_find e "load_percent" with
                                     | Some v => v | None => VNone end)
                                    (VFloat (Fin false 0 0))) = Ok x) as [x Hx].
  { destruct H as [M|[x E]].
    - eexists. now apply missing_load.
    - rewrite E. unfold py_or. destruct (truthy (VFloat x)); eexists; reflexivity. }
  eexists. now apply (gpu_line_ok e x).
Qed.

Lemma cpu_usage_line_dict c : exists s, cpu_usage_line (VDict c) = Ok s.
Proof. eexists. reflexivity. Qed.

Variable n : dict.
Variable st : dict.
Hypothesis Hst : dict_find n "stats" = Some (VDict st).
Hypothesis Hdicts : Forall (fun kv => is_dict (snd kv)) st.

Lemma dict_find_Forall (Q : pyval -> Prop) (d : dict) k v :
  Forall (fun kv => Q (snd kv)) d -> dict_find d k = Some v -> Q v.
Proof.
  induction 1 as [|[k0 v0] d H0 _ IH]; cbn; [discriminate|].
  destruct (String.eqb k0 k); [intros [= <-]; exact H0 | exact IH].
Qed.

Lemma speed_lookup_ok ifname :
  exists v, (stats <- getitem (VDict n) "stats" ;;
             s <- get_or stats ifname (VDict []) ;;
             get s "speed_mbps") = Ok v.
Proof.
  cbn [getitem]. rewrite Hst. cbn [bind get_or].
  destruct (dict_find st ifname) as [v|] eqn:E.
  - destruct (dict_find_Forall is_dict st ifname v Hdicts E) as [d ->].
    eexists. reflexivity.
  - eexists. reflexivity.
Qed.

Lemma scan_addrs_ok ifname l :
  Forall addr_entry l -> exists r, scan_addrs (VDict n) ifname l = Ok r.
Proof.
  induction 1 as [|a l (e & fam & addr & -> & Hf & Ha) _ IH]; [eexists; reflexivity|].
  cbn [scan_addrs getitem]. rewrite Hf, Ha. cbn [bind contains truthy val_startswith].
  destruct (str_contains "AF_INET" fam); cbn [bind]; [|exact IH].
  destruct (negb (String.eqb addr "")); cbn [bind]; [|exact IH].
  destruct (negb (startswith addr "127.")); cbn [bind]; [|exact IH].
  destruct (speed_lookup_ok ifname) as [v Hv].
  cbn [getitem] in Hv. rewrite Hst in Hv |- *. cbn [bind] in Hv |- *.
  destruct (get_or (VDict st) ifname (VDict [])) as [s|]; [|discriminate].
  cbn [bind] in Hv |- *. rewrite Hv. eexists. reflexivity.
Qed.

Lemma scan_interfaces_ok ifs :
  Forall (fun kv => exists l, snd kv = VList l /\ Forall addr_entry l) ifs ->
  exists r, scan_interfaces (VDict n) ifs = Ok r.
Proof.
  induction 1 as [|[ifname v] ifs (l & Hv & Hl) _ IH]; [eexists; reflexivity|].
  cbn in Hv. subst v. cbn [scan_interfaces iter bind].
  destruct (scan_addrs_ok ifname l Hl) as [r ->]. cbn [bind].
  destruct r; [eexists; reflexivity | exact IH].
Qed.

Lemma first_ipv6_ok l : Forall addr_entry l -> exists v, first_ipv6 l = Ok v.
Proof.
  induction 1 as [|a l (e & fam & addr & -> & Hf & Ha) _ IH]; [eexists; reflexivity|].
  cbn [first_ipv6 getitem]. rewrite Hf. cbn [bind contains].
  destruct (str_contains "AF_INET6" fam); [|exact IH].
  rewrite Ha. eexists. reflexivity.
Qed.

Lemma scan_ipv6_ok ifs : forall last,
  Forall (fun kv => exists l, snd kv = VList l /\ Forall addr_entry l) ifs ->
  exists v, scan_ipv6 last ifs = Ok v.
Proof.
  induction ifs as [|[ifname v] ifs IH]; intros last H; [eexists; reflexivity|].
  inversion H as [|? ? (l & Hv & Hl) Hrest]; subst. cbn in Hv. subst v.
  cbn [scan_ipv6 iter bind].
  destruct (first_ipv6_ok l Hl) as [v ->]. cbn [bind].
  destruct (truthy v); [eexists; reflexivity | now apply IH].
Qed.

Lemma get_primary_ipv4_ok ifs :
  dict_find n "interfaces" = Some (VDict ifs) ->
  Forall (fun kv => exists l, snd kv = VList l /\ Forall addr_entry l) ifs ->
  exists r, get_primary_ipv4 P (VDict n) = Ok r.
Proof.
  intros Hi Hifs. unfold get_primary_ipv4. cbn [getitem]. rewrite Hi. cbn [bind items].
  destruct (scan_interfaces_ok ifs Hifs) as [r ->]. cbn [bind].
  destruct r; [eexists; reflexivity|].
  destruct (gethostbyname_hostname P) as [h|e]; [|eexists; reflexivity].
  destruct (negb (String.eqb h "") && negb (startswith h "127.")); eexists; reflexivity.
Qed.

End Printing.

Lemma snd_bind_any {A C} (m : io A) (k : A -> io C) (r : exc C) :
  (exists a, snd m = Ok a) -> (forall a, snd (k a) = r) -> snd (io_bind m k) = r.
Proof. intros [a Ha] Hk. now rewrite (snd_bind _ _ a Ha). Qed.

Lemma snd_bind_then {A C} (m : io A) (f : A -> io unit) (rest : io C) (r : exc C) :
  (exists a, snd m = Ok a /\ snd (f a) = Ok tt) -> snd rest = r ->
  snd (io_bind m (fun x => io_bind (f x) (fun _ => rest))) = r.
Proof.
  intros (a & Ha & Hf) Hr. rewrite (snd_bind _ _ a Ha). now rewrite (snd_bind _ _ tt Hf).
Qed.


Section Presenting.
Context {B : Builtins}.
Variable P : provider.

Ltac step := erewrite snd_bind by reflexivity.

(** The statements of [pretty_print] up to the block about the network
    go through on a head that can be printed. *)
Ltac print_head c show_boot Hfreq Hdet Hparts Hpd :=
  repeat step;
  (erewrite (snd_bind _ _ tt);
    [|cbn [getitem];
      match goal with
      | |- context [dict_find ?sys "distro"] =>
          destruct (dict_find sys "distro") as [v|]; [destruct (truthy v)|]; reflexivity
      end]);
  repeat step;
  (erewrite (snd_bind _ _ tt); [|destruct show_boot; reflexivity]);
  repeat step;
  (apply snd_bind_any;
   [cbn [get get_or lift snd];
    match goal with |- context [if truthy ?x then _ else _] => destruct (truthy x) end;
    eexists; reflexivity|]);
  intros cores; repeat step;
  (erewrite (snd_bind _ _ tt);
   [|cbn [get get_or getitem]; unfold falsy_or_dict in Hfreq;
     destruct (dict_find c "cpu_freq") as [v|]; [|reflexivity];
     destruct (truthy v); [|reflexivity];
     destruct (Hfreq eq_refl) as [f ->]; reflexivity]);
  repeat step;
  (apply snd_bind_then;
   [cbn [get get_or getitem lift snd]; unfold falsy_or_dict in Hdet;
    destruct (dict_find c "detailed") as [v|]; [|eexists; split; reflexivity];
    destruct (truthy v) eqn:Tv;
    [destruct (Hdet eq_refl) as [dd ->]; cbn [bind get get_or getitem];
     destruct (dict_find dd "brand_raw") as [b|] eqn:Eb; [|eexists; split; reflexivity];
     exists b; split; [reflexivity|];
     destruct (truthy b); [|reflexivity];
     step; cbn [getitem]; rewrite Eb; reflexivity
    |eexists; split; [reflexivity|]; rewrite Tv; reflexivity]|]);
  repeat step;
  cbn [get_or]; rewrite Hparts; repeat step;
  (erewrite (snd_bind _ _ tt);
   [|apply snd_for_each; eapply Forall_impl; [|exact Hpd];
     let p := fresh "p" in let Hp := fresh "Hp" in let line := fresh "line" in
     let Hl := fresh "Hl" in
     intros p Hp; destruct (disk_line_dict p Hp) as [line Hl];
     rewrite Hl; reflexivity]);
  repeat step.

Ltac sections d :=
  repeat match goal with
         | |- context [get_or (VDict d) ?k (VDict [])] =>
             change (get_or (VDict d) k (VDict [])) with (Ok (sect d k))
         end.

Lemma pretty_print_returns report show_boot :
  presentable report -> snd (pretty_print P report show_boot) = Ok tt.
Proof.
  intros (d & -> & ([sys Hsys] & [up Hup] & [mem Hmem] & (c & Hc & Hfreq & Hdet)
                    & (ds & parts & Hds & Hparts & Hpd))
          & (n & ifs & st & Hn & Hifs & Hall & Hst & Hstd) & (g & Hg & Hgpus)).
  unfold pretty_print. sections d.
  rewrite Hsys, Hup, Hmem, Hc, Hds, Hn, Hg.
  print_head c show_boot Hfreq Hdet Hparts Hpd.
  (* network *)
  cbn [get_or]. rewrite Hifs. repeat step.
  apply snd_bind_any; [apply (get_primary_ipv4_ok P n st Hst Hstd ifs Hifs Hall)|].
  intros [[primary_ipv4 primary_if] speed].
  erewrite (snd_bind _ _ tt); [|destruct (truthy primary_ipv4); reflexivity].
  repeat step.
  apply snd_bind_any; [apply (scan_ipv6_ok ifs VNone Hall)|].
  intros primary_ipv6.
  erewrite (snd_bind _ _ tt); [|destruct (truthy primary_ipv6); reflexivity].
  repeat step.
  (* GPU *)
  erewrite (snd_bind _ _ tt).
  2:{ cbn [get get_or].
      destruct (truthy match dict_find g "available" with Some x => x | None => VNone end).
      - destruct (Hgpus eq_refl) as (gs & Hgs & Hall_g). rewrite Hgs. repeat step.
        apply snd_for_each. eapply Forall_impl; [|exact Hall_g].
        intros x Hx. destruct (gpu_line_entry x Hx) as [line Hl].
        rewrite Hl. reflexivity.
      - step. apply snd_bind_any.
        + cbn [lift snd get get_or].
          match goal with |- context [if truthy ?x then _ else _] => destruct (truthy x) end;
            eexists; reflexivity.
        + intros err. reflexivity. }
  repeat step. reflexivity.
Qed.

(** X1.  [pretty_print] prints a report of the shape it relies on to the
    end and returns, with or without the boot time: every section but the
    network one may be missing, and a section that is there is a
    dictionary whose entries have the types the collector gives them. *)
Theorem pretty_print_presentable report show_boot :
  presentable report -> exists out, pretty_print P report show_boot = (out, Ok tt).
Proof.
  intros H. pose proof (pretty_print_returns report show_boot H) as E.
  destruct (pretty_print P report show_boot) as [out r]. cbn in E. subst r.
  now exists out.
Qed.

(** X2.  A report whose network section is missing, or has no
    [interfaces] entry, makes [pretty_print] raise [KeyError] once the
    blocks before the network have been printed: the section is fetched
    with a default, and [get_primary_ipv4] then indexes it. *)
Theorem pretty_print_needs_interfaces (d n : dict) show_boot :
  printable_head d ->
  sect d "network" = VDict n ->
  dict_find n "interfaces" = None ->
  snd (pretty_print P (VDict d) show_boot) = Raise KeyError.
Proof.
  intros ([sys Hsys] & [up Hup] & [mem Hmem] & (c & Hc & Hfreq & Hdet)
          & (ds & parts & Hds & Hparts & Hpd)) Hn Hifs.
  unfold pretty_print. sections d.
  rewrite Hsys, Hup, Hmem, Hc, Hds, Hn.
  print_head c show_boot Hfreq Hdet Hparts Hpd.
  cbn [get_or]. rewrite Hifs. repeat step.
  apply snd_bind_raise. unfold get_primary_ipv4. cbn [getitem lift snd].
  rewrite Hifs. reflexivity.
Qed.

(** X3.  [pretty_print] reads seven sections of the report and no other:
    two reports that agree on the system, uptime, CPU, memory, disk,
    network and GPU sections are printed alike.  The processes, the
    sensors, the connections and the time stamp never reach the screen;
    they show in the JSON file only. *)
Theorem pretty_print_reads_seven_sections (d d' : dict) show_boot :
  (forall k, In k ["basic_system"; "uptime"; "cpu"; "memory"; "disks"; "network"; "gpu"] ->
             dict_find d k = dict_find d' k) ->
  pretty_print P (VDict d) show_boot = pretty_print P (VDict d') show_boot.
Proof.
  intros H.
  assert (E : forall k,
            In k ["basic_system"; "uptime"; "cpu"; "memory"; "disks"; "network"; "gpu"] ->
            sect d k = sect d' k).
  { intros k Hk. unfold sect. now rewrite (H k Hk). }
  unfold pretty_print. sections d. sections d'.
  rewrite (E "basic_system"), (E "uptime"), (E "cpu"), (E "memory"), (E "disks"),
          (E "network"), (E "gpu") by (cbn; tauto).
  reflexivity.
Qed.

End Presenting.

Lemma pretty_print_presentable_witness :
  exists out, pretty_print (B := example_builtins) host host_report true = (out, Ok tt).
Proof.
  apply (pretty_print_presentable (B := example_builtins) host host_report true).
  exists (match host_report with VDict d => d | _ => [] end).
  split; [reflexivity|].
  split.
  { split; [eexists; reflexivity|]. split; [eexists; reflexivity|].
    split; [eexists; reflexivity|].
    split; [eexists; split; [reflexivity|]; split; cbn; [discriminate | discriminate]|].
    eexists _, _. split; [reflexivity|]. split; [reflexivity|].
    repeat (apply Forall_cons; [eexists; reflexivity|]). apply Forall_nil. }
  split.
  { eexists _, _, _. split; [reflexivity|]. split; [reflexivity|].
    split.
    - repeat (apply Forall_cons;
              [eexists; split;
               [reflexivity
               |repeat (apply Forall_cons; [eexists _, _, _; repeat split; reflexivity|]);
                apply Forall_nil]|]).
      apply Forall_nil.
    - split; [reflexivity|].
      repeat (apply Forall_cons; [eexists; reflexivity|]). apply Forall_nil. }
  eexists. split; [reflexivity|]. cbn. discriminate.
Defined.

Lemma pretty_print_needs_interfaces_witness :
  snd (pretty_print (B := example_builtins) host
         (VDict [("gpu", VDict [("available", VBool false)])]) false)
  = Raise KeyError.
Proof.
  apply (pretty_print_needs_interfaces (B := example_builtins) host
           [("gpu", VDict [("available", VBool false)])] [] false).
  - split; [eexists; reflexivity|]. split; [eexists; reflexivity|].
    split; [eexists; reflexivity|].
    split; [exists []; split; [reflexivity|]; split; exact I|].
    exists [], []. split; [reflexivity|]. split; [reflexivity | apply Forall_nil].
  - reflexivity.
  - reflexivity.
Defined.

Lemma pretty_print_reads_seven_sections_witness :
  pretty_print (B := example_builtins) host
    (VDict (match host_report with VDict d => d | _ => [] end)) false
  = pretty_print (B := example_builtins) host
      (VDict (match collect_all (B := example_builtins) host
                      {| json := false; top := 0; quiet := false |} with
              | Ok (VDict d) => d
              | _ => []
              end)) false.
Proof.
  apply (pretty_print_reads_seven_sections (B := example_builtins) host).
  intros k Hk. cbn [In] in Hk.
  destruct Hk as [<-|[<-|[<-|[<-|[<-|[<-|[<-|[]]]]]]]]; reflexivity.
Defined.
(* ================================================================== *)
(** ** The formatter outside the byte counts *)
(* ================================================================== *)

Local Close Scope string_scope.

Lemma get_size_loop_sign us : forall m e suffix,
  SDT.get_size_loop us (PFloat (Fin true m e)) suffix
  = match SDT.get_size_loop us (PFloat (Fin false m e)) suffix with
    | Ok s => Ok ("-" +++ s)
    | Raise x => Raise x
    end.
Proof.
  induction us as [|u us IH]; intros m e suffix.
  - reflexivity.
  - cbn [SDT.get_size_loop SDT.abs_lt_factor float_abs].
    destruct (float_ltb (Fin false m e) SDT.factor); [reflexivity|].
    cbn [SDT.div_factor bind float_div_pow2].
    destruct (e - 10 <? -1074); apply IH.
Qed.

(** X4.  [get_size] of [SystemDiagnosticsTool.py] scales by magnitude: a
    negative count is shown as the positive one with a minus sign in
    front, in the same unit, and raises where the positive one raises. *)
Theorem get_size_negative (n : Z) :
  0 < n ->
  SDT.get_size (- n)
  = match SDT.get_size n with
    | Ok s => Ok ("-" +++ s)
    | Raise x => Raise x
    end.
Proof.
  intros Hn. unfold SDT.get_size, SDT.get_size_suffix, SDT.units.
  rewrite !get_size_loop_cons. cbn [SDT.abs_lt_factor num_format_f SDT.div_factor].
  rewrite Z.abs_opp. unfold float_of_int. rewrite Z.abs_opp.
  destruct (round53 (Z.abs n)) as [m sh].
  replace (- n <? 0) with true by (symmetry; apply Z.ltb_lt; lia).
  replace (n <? 0) with false by (symmetry; apply Z.ltb_ge; lia).
  destruct (Z.abs n <? 1024), (2 ^ 1024 <=? m * 2 ^ sh); cbn [bind]; try reflexivity.
  cbn [float_div_pow2]. destruct (sh - 10 <? -1074); apply get_size_loop_sign.
Qed.

Lemma get_size_negative_witness :
  SDT.get_size (- 2048)
  = match SDT.get_size 2048 with
    | Ok s => Ok ("-" +++ s)
    | Raise x => Raise x
    end.
Proof. apply (get_size_negative 2048). lia. Defined.

(** Where [float(n)] overflows. *)
Lemma float_of_int_raises (n : Z) :
  float_of_int n = Raise OverflowError <-> 2 ^ 1024 - 2 ^ 970 <= Z.abs n.
Proof.
  unfold float_of_int.
  pose proof (round53_spec (Z.abs n) (Z.abs_nonneg n)) as S.
  set (a := Z.abs n) in *. assert (Ha : 0 <= a) by apply Z.abs_nonneg.
  destruct (Z.lt_ge_cases a (2 ^ 53)) as [Hs|Hb].
  - destruct (round53 a) as [m sh]. destruct S as (_ & _ & _ & Hsmall & _).
    destruct (Hsmall Hs) as [-> ->].
    assert (2 ^ 53 < 2 ^ 1024 - 2 ^ 970) by (vm_compute; reflexivity).
    destruct (Z.leb_spec (2 ^ 1024) (a * 2 ^ 0)) as [Hov|Hov].
    + rewrite Z.pow_0_r in Hov. lia.
    + split; [discriminate | lia].
  - assert (Hsh : round53 a = (round_half_even a (2 ^ (Z.log2 a - 52)), Z.log2 a - 52)).
    { unfold round53. destruct (Z.eqb_spec a 0) as [E|_].
      - rewrite E in Hb. vm_compute in Hb. contradiction.
      - assert (53 <= Z.log2 a) by (apply Z.log2_le_pow2; lia).
        destruct (Z.leb_spec (Z.log2 a + 1) 53); [lia|].
        replace (Z.log2 a + 1 - 53) with (Z.log2 a - 52) by lia. reflexivity. }
    rewrite Hsh in *. destruct S as (Hm & _ & Hm53 & _ & Hbig).
    destruct (Hbig Hb) as [H52 _].
    pose proof (Z.log2_spec a ltac:(lia)) as [L1 L2].
    set (L := Z.log2 a) in *.
    set (m := round_half_even a (2 ^ (L - 52))) in *.
    assert (HL : 53 <= L) by (apply Z.log2_le_pow2; lia).
    destruct (Z.leb_spec (2 ^ 1024) (m * 2 ^ (L - 52))) as [Hov|Hov].
    + split; [intros _ | reflexivity].
      destruct (Z.le_gt_cases 1024 L) as [Hl|Hl].
      * assert (2 ^ 1024 <= 2 ^ L) by (apply Z.pow_le_mono_r; lia). lia.
      * destruct (Z.le_gt_cases L 1022) as [Hl2|Hl2].
        -- exfalso.
           assert (2 ^ (L - 52) <= 2 ^ 970) by (apply Z.pow_le_mono_r; lia).
           assert (0 < 2 ^ (L - 52)) by (apply Z.pow_pos_nonneg; lia).
           assert (2 ^ 53 * 2 ^ 970 < 2 ^ 1024) by (vm_compute; reflexivity).
           nia.
        -- assert (EL : L = 1023) by lia. subst m. rewrite EL in *.
           change (1023 - 52) with 971 in *.
           unfold round_half_even in Hov.
           pose proof (Z.div_mod a (2 ^ 971) ltac:(vm_compute; discriminate)) as E.
           pose proof (Z.mod_pos_bound a (2 ^ 971) ltac:(vm_compute; reflexivity)) as R.
           set (q := a / 2 ^ 971) in *. set (r := a mod 2 ^ 971) in *.
           assert (q < 2 ^ 53).
           { apply Z.div_lt_upper_bound; [vm_compute; reflexivity|].
             change (Z.succ 1023) with 1024 in L2.
             replace (2 ^ 971 * 2 ^ 53) with (2 ^ 1024) by (vm_compute; reflexivity).
             exact L2. }
           assert (E1 : 2 ^ 1024 = 2 ^ 53 * 2 ^ 971) by (vm_compute; reflexivity).
           assert (E2 : 2 ^ 970 * 2 = 2 ^ 971) by (vm_compute; reflexivity).
           destruct (Z.compare_spec (2 * r) (2 ^ 971)) as [C|C|C];
             [destruct (Z.even q)| |]; nia.
    + split; [discriminate | intros Hth; exfalso].
      destruct (Z.le_gt_cases 1024 L) as [Hl|Hl].
      * assert (2 ^ (L - 52) >= 2 ^ 972)
          by (apply Z.le_ge, Z.pow_le_mono_r; lia).
        assert (2 ^ 52 * 2 ^ 972 = 2 ^ 1024) by (vm_compute; reflexivity).
        nia.
      * destruct (Z.le_gt_cases L 1022) as [Hl2|Hl2].
        -- assert (2 ^ Z.succ L <= 2 ^ 1023) by (apply Z.pow_le_mono_r; lia).
           assert (2 ^ 1023 < 2 ^ 1024 - 2 ^ 970) by (vm_compute; reflexivity). lia.
        -- assert (EL : L = 1023) by lia. subst m. rewrite EL in *.
           change (1023 - 52) with 971 in *.
           unfold round_half_even in Hov.
           pose proof (Z.div_mod a (2 ^ 971) ltac:(vm_compute; discriminate)) as E.
           pose proof (Z.mod_pos_bound a (2 ^ 971) ltac:(vm_compute; reflexivity)) as R.
           set (q := a / 2 ^ 971) in *. set (r := a mod 2 ^ 971) in *.
           assert (E1 : 2 ^ 1024 = 2 ^ 53 * 2 ^ 971) by (vm_compute; reflexivity).
           assert (E2 : 2 ^ 970 * 2 = 2 ^ 971) by (vm_compute; reflexivity).
           assert (Hq : q = 2 ^ 53 - 1) by nia.
           assert (Hr : 2 ^ 970 <= r) by nia.
           destruct (Z.compare_spec (2 * r) (2 ^ 971)) as [C|C|C]; try nia.
           rewrite Hq in Hov. change (Z.even (2 ^ 53 - 1)) with false in Hov. nia.
Qed.

(** X5.  [get_size] of [SystemDiagnosticsTool.py] raises for exactly the
    integers that [float] cannot hold, those of magnitude
    [2^1024 - 2^970] and more, and what it raises is [OverflowError];
    for every other integer it returns a string. *)
Theorem get_size_raises_iff (n : Z) (e : pyexc) :
  SDT.get_size n = Raise e <-> e = OverflowError /\ 2 ^ 1024 - 2 ^ 970 <= Z.abs n.
Proof.
  pose proof (float_of_int_raises n) as R.
  assert (K : 1024 < 2 ^ 1024 - 2 ^ 970) by (vm_compute; reflexivity).
  unfold SDT.get_size, SDT.get_size_suffix, SDT.units.
  rewrite get_size_loop_cons. cbn [SDT.abs_lt_factor num_format_f SDT.div_factor].
  assert (F : (exists x, float_of_int n = Ok x) \/ float_of_int n = Raise OverflowError).
  { unfold float_of_int. destruct (round53 (Z.abs n)) as [m sh].
    destruct (2 ^ 1024 <=? m * 2 ^ sh); [now right | left; eexists; reflexivity]. }
  destruct (Z.ltb_spec (Z.abs n) 1024) as [Hs|Hb].
  - destruct F as [[x ->]|F].
    + cbn [bind]. split; [discriminate | intros [_ H]; lia].
    + apply R in F. lia.
  - destruct F as [[x Hx]|F].
    + rewrite Hx. cbn [bind].
      destruct (get_size_loop_float_total ["K"; "M"; "G"; "T"; "P"]%string
                  (float_div_pow2 x 10) "B"%string) as [s ->].
      split; [discriminate|]. intros [_ H]. apply R in H. congruence.
    + rewrite F. cbn [bind]. split.
      * intros [= <-]. split; [reflexivity | now apply R].
      * intros [-> _]. reflexivity.
Qed.

(** X6.  [get_size] of [sdchecker.py] compares the count itself with
    1024, not its magnitude: a negative count is never scaled, whatever
    its size, and is shown in the first unit with two decimals, where
    [SystemDiagnosticsTool.py] scales it like the positive one. *)
Theorem sdchecker_get_size_negative (n : Z) (suffix : string) :
  n < 0 -> Z.abs n < 2 ^ 1023 ->
  Sdchecker.get_size n suffix
  = Ok (Some ("-" +++ two_decimals (100 * rounded (- n)) +++ suffix)).
Proof.
  intros Hn Hb. unfold Sdchecker.get_size, Sdchecker.units.
  rewrite sd_get_size_loop_cons. cbn [Sdchecker.lt_factor].
  unfold Sdchecker.factor.
  replace (n <? 1024) with true by (symmetry; apply Z.ltb_lt; lia).
  cbn [num_format_f]. rewrite (float_of_int_ok n Hb). cbn [bind format_f].
  replace (n <? 0) with true by (symmetry; apply Z.ltb_lt; lia).
  replace (Z.abs n) with (- n) by lia.
  pose proof (round53_spec (- n) ltac:(lia)) as S. unfold rounded.
  destruct (round53 (- n)) as [m sh]. cbn [fst snd].
  destruct S as (_ & Hsh & _). unfold scaled_decimal.
  replace (0 <=? sh) with true by (symmetry; apply Z.leb_le; lia).
  rewrite fixed_two. change (10 ^ Z.of_nat 2) with 100.
  replace (m * 2 ^ sh * 100) with (100 * (m * 2 ^ sh)) by ring.
  reflexivity.
Qed.

Lemma sdchecker_get_size_negative_witness :
  Sdchecker.get_size (- 2048) "B"
  = Ok (Some ("-" +++ two_decimals (100 * rounded (- - 2048)) +++ "B")).
Proof. apply (sdchecker_get_size_negative (- 2048) "B"); [lia | vm_compute; reflexivity]. Defined.

Local Open Scope string_scope.
(* ================================================================== *)
(** ** Processes and partitions: what is skipped and what ends the run *)
(* ================================================================== *)

Local Close Scope string_scope.

Lemma read_process_reads p :
  reads p -> exists x, read_process p = Ok (Some x) /\ entry_of p x.
Proof.
  intros (c & m & Hc & Hm & Hb). destruct (get_size_total m Hb) as [h Hh].
  eexists. unfold read_process. rewrite Hc, Hm. cbn [bind]. rewrite Hh.
  split; [reflexivity|]. repeat split; assumption.
Qed.

Lemma read_process_vanished p : vanished p -> read_process p = Ok None.
Proof.
  unfold read_process.
  intros [(e & -> & G)|(c & e & -> & -> & G)]; destruct e; try discriminate; reflexivity.
Qed.

Lemma read_process_fails p e :
  fails_with p e -> gone e = false -> read_process p = Raise e.
Proof.
  unfold read_process.
  intros [-> | (c & -> & ->)] G; destruct e; try discriminate; reflexivity.
Qed.

Lemma read_ok_reads p : reads p -> read_ok p = true.
Proof. intros (c & m & Hc & Hm & _). unfold read_ok. now rewrite Hc, Hm. Qed.

Lemma read_ok_vanished p : vanished p -> read_ok p = false.
Proof.
  unfold read_ok. intros [(e & -> & _)|(c & e & -> & -> & _)]; reflexivity.
Qed.

(** The enumeration loop keeps, in order, the processes both of whose
    readings succeed. *)
Lemma read_processes_filter (ps : list process) :
  Forall (fun p => reads p \/ vanished p) ps ->
  exists procs,
    read_processes ps = Ok procs /\
    Forall2 entry_of (filter read_ok ps) procs.
Proof.
  induction 1 as [|p ps Hp _ (procs & E & F)].
  - exists []. split; [reflexivity | constructor].
  - cbn [read_processes filter]. destruct Hp as [Hr|Hv].
    + destruct (read_process_reads p Hr) as (x & -> & Hx).
      rewrite (read_ok_reads p Hr). cbn [bind]. rewrite E. cbn [bind].
      exists (x :: procs). split; [reflexivity | now constructor].
    + rewrite (read_process_vanished p Hv), (read_ok_vanished p Hv).
      cbn [bind]. rewrite E. cbn [bind]. exists procs. now split.
Qed.

(** X7.  When every process either can be read or has vanished (or
    denies access), [top_processes] returns, for any [n]: its two lists
    rank exactly the processes both of whose readings succeeded, each with
    its own pid, name, user, CPU share and resident size; the others are
    left out without a trace. *)
Theorem top_processes_reads (P : provider) (n : Z) (ps : list process) :
  process_iter P = Ok ps ->
  Forall (fun p => reads p \/ vanished p) ps ->
  exists procs,
    Forall2 entry_of (filter read_ok ps) procs /\
    top_processes P n
    = Ok (VDict [("top_cpu"%string, VList (map proc_dict (by_cpu n procs)));
                 ("top_memory"%string, VList (map proc_dict (by_mem n procs)))]).
Proof.
  intros Hit Hps. destruct (read_processes_filter ps Hps) as (procs & E & F).
  exists procs. split; [exact F|].
  unfold top_processes. rewrite Hit. cbn [bind]. rewrite E. reflexivity.
Qed.

Lemma host_processes_read : Forall (fun p => reads p \/ vanished p) host_processes.
Proof.
  unfold host_processes.
  repeat (apply Forall_cons; [|]); try apply Forall_nil.
  - left. eexists _, _. repeat split; try reflexivity.
  - right. left. eexists. split; reflexivity.
  - left. eexists _, _. repeat split; try reflexivity.
  - left. eexists _, _. repeat split; try reflexivity.
  - left. eexists _, _. repeat split; try reflexivity.
Defined.

Lemma top_processes_reads_witness :
  exists procs,
    Forall2 entry_of (filter read_ok host_processes) procs /\
    top_processes host 2
    = Ok (VDict [("top_cpu"%string, VList (map proc_dict (by_cpu 2 procs)));
                 ("top_memory"%string, VList (map proc_dict (by_mem 2 procs)))]).
Proof.
  apply (top_processes_reads host 2 host_processes); [reflexivity|].
  exact host_processes_read.
Defined.

Lemma read_processes_fails before p after e :
  Forall (fun q => reads q \/ vanished q) before ->
  fails_with p e -> gone e = false ->
  read_processes (before ++ p :: after) = Raise e.
Proof.
  intros Hb Hp G. induction Hb as [|q before Hq _ IH]; cbn [app read_processes].
  - now rewrite (read_process_fails p e Hp G).
  - destruct Hq as [Hr|Hv].
    + destruct (read_process_reads q Hr) as (x & -> & _). cbn [bind]. now rewrite IH.
    + rewrite (read_process_vanished q Hv). cbn [bind]. now rewrite IH.
Qed.

(** X8.  An error of a process reading other than [NoSuchProcess] and
    [AccessDenied] is not caught: [top_processes] raises it, whatever the
    processes after it, and so the collector assembles no report.  *)
Theorem top_processes_propagates {B : Builtins} (P : provider) (n : Z)
    (before after : list process) (p : process) (e : pyexc) :
  process_iter P = Ok (before ++ p :: after) ->
  Forall (fun q => reads q \/ vanished q) before ->
  fails_with p e -> gone e = false ->
  top_processes P n = Raise e /\
  (forall args, top args = n -> exists e', collect_all P args = Raise e').
Proof.
  intros Hit Hb Hp G.
  assert (T : top_processes P n = Raise e).
  { unfold top_processes. rewrite Hit. cbn [bind].
    now rewrite (read_processes_fails before p after e Hb Hp G). }
  split; [exact T|]. intros args <-. unfold collect_all. rewrite T.
  destruct (basic_system_info P); [|eexists; reflexivity].
  destruct (uptime_info P); [|eexists; reflexivity].
  destruct (cpu_info P); [|eexists; reflexivity].
  destruct (memory_info P); [|eexists; reflexivity].
  destruct (disks_info P); [|eexists; reflexivity].
  destruct (network_info P); eexists; reflexivity.
Qed.

Lemma top_processes_propagates_witness :
  top_processes zombie_host 2 = Raise (OSError "Input/output error") /\
  (forall args, top args = 2 ->
     exists e', collect_all (B := example_builtins) zombie_host args = Raise e').
Proof.
  apply (top_processes_propagates (B := example_builtins) zombie_host 2
           (firstn 2 host_processes) (skipn 2 host_processes) zombie
           (OSError "Input/output error")).
  - reflexivity.
  - apply Forall_cons; [|apply Forall_cons; [|apply Forall_nil]].
    + left. eexists _, _. repeat split; try reflexivity.
    + right. left. eexists. split; reflexivity.
  - right. eexists. split; reflexivity.
  - reflexivity.
Defined.

Local Open Scope string_scope.

Lemma map_exc_fails {A C} (f : A -> exc C) before x after e :
  Forall (fun y => is_ok (f y) = true) before -> f x = Raise e ->
  map_exc f (before ++ x :: after)%list = Raise e.
Proof.
  intros Hb Hx. induction Hb as [|y before Hy _ IH]; cbn [app map_exc].
  - now rewrite Hx.
  - destruct (f y); [|discriminate]. cbn [bind]. now rewrite IH.
Qed.

(** X9.  An error of the usage query other than [PermissionError] (a
    mount point gone stale, say) is not caught: [disks_info] raises it,
    whatever the partitions after it, and so the collector assembles no
    report. *)
Theorem disks_info_propagates {B : Builtins} (P : provider)
    (before after : list sdiskpart) (p : sdiskpart) (e : pyexc) :
  disk_partitions P = Ok (before ++ p :: after)%list ->
  Forall (usage_answers P) before ->
  disk_usage P (mountpoint p) = Raise e -> e <> PermissionError ->
  disks_info P = Raise e /\ (forall args, exists e', collect_all P args = Raise e').
Proof.
  intros Hp Hb He Hne.
  assert (D : disks_info P = Raise e).
  { unfold disks_info. rewrite Hp. cbn [bind].
    rewrite (map_exc_fails (partition_dict P) before p after e); [reflexivity| |].
    - eapply Forall_impl; [|exact Hb]. intros q Hq.
      destruct (partition_dict_collected P q Hq) as (v & -> & _). reflexivity.
    - unfold partition_dict. rewrite He. cbn. destruct e; try reflexivity. contradiction. }
  split; [exact D|]. intros args. unfold collect_all. rewrite D.
  destruct (basic_system_info P); [|eexists; reflexivity].
  destruct (uptime_info P); [|eexists; reflexivity].
  destruct (cpu_info P); [|eexists; reflexivity].
  destruct (memory_info P); eexists; reflexivity.
Qed.

Lemma disks_info_propagates_witness :
  disks_info stale_host = Raise (OSError "No such file or directory") /\
  (forall args, exists e', collect_all (B := example_builtins) stale_host args = Raise e').
Proof.
  apply (disks_info_propagates (B := example_builtins) stale_host
           [{| device := "/dev/sda1"; mountpoint := "/"; fstype := "ext4"; opts := "rw" |}]
           [{| device := "/dev/sdc1"; mountpoint := "/data"; fstype := "xfs"; opts := "rw" |}]
           {| device := "/dev/sdb1"; mountpoint := "/mnt/secret"; fstype := "ext4"; opts := "rw" |}).
  - reflexivity.
  - apply Forall_cons; [|apply Forall_nil].
    right. eexists. split; [reflexivity|]. unfold byte_count. cbn. lia.
  - reflexivity.
  - discriminate.
Defined.

(** X10.  [--top] takes any integer, and a negative one is a slice from
    the end: with [n < 0] both lists are the ranking without its last
    [-n] processes (empty when there are no more than that), not an empty
    list and not an error. *)
Theorem top_negative_drops_last (n : Z) (procs : list proc_entry) :
  (n < 0)%Z ->
  exists dropped_cpu dropped_mem,
    (by_cpu n procs ++ dropped_cpu)%list = sorted_reverse float_ltb e_cpu_percent procs /\
    (by_mem n procs ++ dropped_mem)%list = sorted_reverse Z.ltb e_memory_rss procs /\
    List.length dropped_cpu = Nat.min (Z.to_nat (- n)) (List.length procs) /\
    List.length dropped_mem = Nat.min (Z.to_nat (- n)) (List.length procs).
Proof.
  intros Hn. unfold by_cpu, by_mem, slice_to.
  destruct (Z.leb_spec 0 n); [lia|].
  set (Sc := sorted_reverse float_ltb e_cpu_percent procs).
  set (Sm := sorted_reverse Z.ltb e_memory_rss procs).
  assert (Lc : List.length Sc = List.length procs)
    by apply Permutation_length, sorted_reverse_perm.
  assert (Lm : List.length Sm = List.length procs)
    by apply Permutation_length, sorted_reverse_perm.
  exists (skipn (List.length Sc - Z.to_nat (- n)) Sc),
         (skipn (List.length Sm - Z.to_nat (- n)) Sm).
  rewrite !firstn_skipn, !length_skipn. repeat split; lia.
Qed.

Lemma top_negative_drops_last_witness :
  exists dropped_cpu dropped_mem,
    (by_cpu (-1) host_procs ++ dropped_cpu)%list
      = sorted_reverse float_ltb e_cpu_percent host_procs /\
    (by_mem (-1) host_procs ++ dropped_mem)%list
      = sorted_reverse Z.ltb e_memory_rss host_procs /\
    List.length dropped_cpu = Nat.min (Z.to_nat (- (-1))) (List.length host_procs) /\
    List.length dropped_mem = Nat.min (Z.to_nat (- (-1))) (List.length host_procs).
Proof. apply (top_negative_drops_last (-1) host_procs). lia. Defined.
(* ================================================================== *)
(** ** The sections one by one *)
(* ================================================================== *)


(** Of the six sources of [cpu_info] four are called unguarded. *)
Lemma cpu_info_is_ok {B : Builtins} (P : provider) :
  is_ok (cpu_info P)
  = is_ok (cpu_count_physical P) && is_ok (cpu_count_logical P)
    && is_ok (cpu_percent_percpu P) && is_ok (cpu_percent_total P).
Proof.
  unfold cpu_info.
  destruct (cpu_count_physical P); [|reflexivity].
  destruct (cpu_count_logical P); [|reflexivity].
  destruct (cpu_percent_percpu P); [|reflexivity].
  destruct (cpu_percent_total P); reflexivity.
Qed.

(** X11.  [cpu_info] returns exactly when the two core counts and the two
    load readings answer; the frequency and the details of [cpuinfo] never
    stop it.  What it returns has the six keys in the order of the
    literal, with [None] under [cpu_freq] exactly when no frequency was
    obtained (the call failed or returned nothing) and [None] under
    [detailed] exactly when [cpuinfo] is not installed or failed. *)
Theorem cpu_info_outcome {B : Builtins} (P : provider) :
  is_ok (cpu_info P)
  = is_ok (cpu_count_physical P) && is_ok (cpu_count_logical P)
    && is_ok (cpu_percent_percpu P) && is_ok (cpu_percent_total P) /\
  (forall v, cpu_info P = Ok v ->
     exists c, v = VDict c /\
       dict_keys c = ["physical_cores"; "total_logical_cpus"; "cpu_freq";
                      "cpu_usage_per_core"; "cpu_total_usage_percent"; "detailed"] /\
       (dict_find c "cpu_freq" = Some VNone <-> forall f, cpu_freq P <> Ok (Some f)) /\
       (dict_find c "detailed" = Some VNone <->
        HAVE_CPUINFO P = false \/ is_ok (get_cpu_info P) = false)).
Proof.
  split; [apply cpu_info_is_ok|].
  intros v H. unfold cpu_info in H. peel H. injection H as <-.
  eexists. split; [reflexivity|].
  destruct (cpu_freq P) as [[f|]|e], (HAVE_CPUINFO P);
    try destruct (get_cpu_info P) as [ci|e']; cbn;
    (split; [reflexivity|]); split; split;
    try discriminate; try reflexivity; try congruence; try tauto;
    try (intros H; exfalso; now apply (H f));
    try (intros [H|H]; discriminate).
Qed.

Lemma cpu_info_outcome_witness :
  exists c, match cpu_info (B := example_builtins) host with Ok v => v | Raise _ => VNone end
            = VDict c /\
    dict_keys c = ["physical_cores"; "total_logical_cpus"; "cpu_freq";
                   "cpu_usage_per_core"; "cpu_total_usage_percent"; "detailed"] /\
    (dict_find c "cpu_freq" = Some VNone <-> forall f, cpu_freq host <> Ok (Some f)) /\
    (dict_find c "detailed" = Some VNone <->
     HAVE_CPUINFO host = false \/ is_ok (get_cpu_info host) = false).
Proof.
  apply (proj2 (cpu_info_outcome (B := example_builtins) host)). reflexivity.
Defined.

(** X12.  In the identity section the processor name is never empty: it
    is the one [platform.uname()] gives, or the word unknown when that
    is empty; the key [distro] is there exactly when the [distro] library
    is installed. *)
Theorem basic_system_info_fields (P : provider) (v : pyval) :
  basic_system_info P = Ok v ->
  exists d proc,
    v = VDict d /\
    dict_find d "processor" = Some (VStr proc) /\
    proc <> "" /\
    (u_processor (uname P) <> "" -> proc = u_processor (uname P)) /\
    (u_processor (uname P) = "" -> proc = "unknown") /\
    dict_has d "distro" = HAVE_DISTRO P.
Proof.
  unfold basic_system_info. intros H. peel H.
  assert (Hp : exists proc,
            py_or (VStr (u_processor (uname P))) (VStr "unknown") = VStr proc /\
            proc <> "" /\
            (u_processor (uname P) <> "" -> proc = u_processor (uname P)) /\
            (u_processor (uname P) = "" -> proc = "unknown")).
  { unfold py_or. cbn [truthy].
    destruct (String.eqb_spec (u_processor (uname P)) "") as [Eu|Eu]; cbn [negb].
    - exists "unknown". rewrite Eu. repeat split; try discriminate; tauto.
    - exists (u_processor (uname P)). repeat split; tauto. }
  destruct Hp as (proc & Hp & Hne & H1 & H2).
  destruct (HAVE_DISTRO P); [peel H|]; injection H as <-;
    eexists _, proc; cbn; rewrite Hp; repeat split; assumption.
Qed.

Lemma basic_system_info_fields_witness :
  exists d proc,
    match basic_system_info host with Ok v => v | Raise _ => VNone end
      = VDict d /\
    dict_find d "processor" = Some (VStr proc) /\
    proc <> "" /\
    (u_processor (uname host) <> "" -> proc = u_processor (uname host)) /\
    (u_processor (uname host) = "" -> proc = "unknown") /\
    dict_has d "distro" = HAVE_DISTRO host.
Proof.
  apply (basic_system_info_fields host). reflexivity.
Defined.

Lemma before_char_split c s :
  exists rest, s = before_char c s +++ rest /\ (rest = "" \/ exists r, rest = String c r).
Proof.
  induction s as [|a s (rest & E & Hr)]; cbn.
  - exists "". split; [reflexivity | now left].
  - destruct (Ascii.eqb_spec a c) as [->|Hne].
    + exists (String c s). split; [reflexivity | right; now exists s].
    + exists rest. split; [cbn; now rewrite <- E | exact Hr].
Qed.

Lemma before_char_free c s : str_contains (String c "") (before_char c s) = false.
Proof.
  induction s as [|a s IH]; cbn; [reflexivity|].
  destruct (Ascii.eqb_spec a c) as [->|Hne]; [reflexivity|].
  cbn. rewrite IH. destruct (Ascii.ascii_dec c a) as [->|]; [contradiction|].
  reflexivity.
Qed.

(** X13.  In the uptime section [uptime_human] is [str(uptime)] cut at
    its first dot: it holds no dot, and what was cut off is nothing or
    starts with one; [uptime_seconds] is the integer part of the
    difference in seconds. *)
Theorem uptime_info_fields (P : provider) (v : pyval) :
  uptime_info P = Ok v ->
  exists d ts human rest secs,
    v = VDict d /\ boot_time P = Ok ts /\
    dict_find d "uptime_human" = Some (VStr human) /\
    uptime_str P ts = human +++ rest /\
    (rest = "" \/ exists r, rest = "." +++ r) /\
    str_contains "." human = false /\
    dict_find d "uptime_seconds" = Some (VInt secs) /\
    float_trunc (uptime_total_seconds P ts) = Ok secs.
Proof.
  unfold uptime_info. intros H. peel H. injection H as <-.
  destruct (before_char_split "." (uptime_str P a)) as (rest & Hsplit & Hr).
  eexists _, a, _, rest, _. split; [reflexivity|]. split; [assumption|].
  split; [reflexivity|]. split; [exact Hsplit|]. split; [exact Hr|].
  split; [apply before_char_free|]. split; [reflexivity | assumption].
Qed.

Lemma uptime_info_fields_witness :
  exists d ts human rest secs,
    match uptime_info host with Ok v => v | Raise _ => VNone end
      = VDict d /\ boot_time host = Ok ts /\
    dict_find d "uptime_human" = Some (VStr human) /\
    uptime_str host ts = human +++ rest /\
    (rest = "" \/ exists r, rest = "." +++ r) /\
    str_contains "." human = false /\
    dict_find d "uptime_seconds" = Some (VInt secs) /\
    float_trunc (uptime_total_seconds host ts) = Ok secs.
Proof.
  apply (uptime_info_fields host). reflexivity.
Defined.

Lemma format_one_decimal s m e :
  exists q r,
    (0 <= r <= 9)%Z /\
    format_f 1 (Fin s m e)
    = (if s then "-" else "") +++ dec q +++ "." +++ String (digit_char r) "".
Proof.
  exists (scaled_decimal 1 m e / 10)%Z, (scaled_decimal 1 m e mod 10)%Z.
  split; [pose proof (Z.mod_pos_bound (scaled_decimal 1 m e) 10); lia | reflexivity].
Qed.

(** X14.  The line about the total CPU load never fails: it shows the
    load itself when the entry is a float, and 0.0 when the entry is
    missing, is [None] or is something [float] rejects; a finite load is
    shown with exactly one decimal. *)
Theorem cpu_usage_line_one_decimal {B : Builtins} (c : dict) :
  exists x,
    cpu_usage_line (VDict c) = Ok ("Użycie CPU (całość): " +++ format_f 1 x +++ "%") /\
    (missing c "cpu_total_usage_percent" -> x = Fin false 0 0) /\
    (forall y, dict_find c "cpu_total_usage_percent" = Some (VFloat y) -> x = y) /\
    (forall v e, dict_find c "cpu_total_usage_percent" = Some v ->
                 py_float v = Raise e -> x = Fin false 0 0) /\
    (forall s m e, x = Fin s m e ->
       exists q r, (0 <= r <= 9)%Z /\
         format_f 1 x = (if s then "-" else "") +++ dec q +++ "." +++ String (digit_char r) "").
Proof.
  unfold cpu_usage_line. cbn [get get_or bind].
  eexists. split; [reflexivity|].
  split; [intros [-> | ->]; reflexivity|].
  split; [intros y ->; reflexivity|].
  split.
  - intros v e -> Hv. destruct v; cbn [is_none]; try reflexivity; now rewrite Hv.
  - intros s m e ->. apply format_one_decimal.
Qed.

(** X15.  [sensors_info] never fails and returns exactly three entries, in
    the order temperatures, fans, battery: each group shows either under
    its own key, when its call answered, or under its [_error] key with
    the text not supported, never both; a battery that is absent shows as
    [None]. *)
Theorem sensors_info_three_entries (P : provider) :
  exists d k1 k2 k3,
    sensors_info P = VDict d /\ dict_keys d = [k1; k2; k3] /\
    (if is_ok (sensors_temperatures P) then k1 = "temperatures"
     else k1 = "temperatures_error" /\ dict_find d k1 = Some (VStr "not supported")) /\
    (if is_ok (sensors_fans P) then k2 = "fans"
     else k2 = "fans_error" /\ dict_find d k2 = Some (VStr "not supported")) /\
    (if is_ok (sensors_battery P) then k3 = "battery"
     else k3 = "battery_error" /\ dict_find d k3 = Some (VStr "not supported")) /\
    match sensors_battery P with
    | Ok None => dict_find d "battery" = Some VNone
    | _ => True
    end.
Proof.
  unfold sensors_info.
  destruct (sensors_temperatures P) as [temps|e1],
           (sensors_fans P) as [fans|e2],
           (sensors_battery P) as [[batt|]|e3];
    eexists _, _, _, _; (split; [reflexivity|]); (split; [reflexivity|]);
    cbn; repeat split; try reflexivity; try discriminate.
Qed.
(* ================================================================== *)
(** ** From the environment to the printed report *)
(* ================================================================== *)

Lemma dict_set_Forall (Q : pyval -> Prop) d k v :
  Forall (fun kv => Q (snd kv)) d -> Q v ->
  Forall (fun kv => Q (snd kv)) (dict_set d k v).
Proof.
  intros Hd Hv. induction Hd as [|[k0 v0] d H0 Hd IH]; cbn.
  - repeat constructor. exact Hv.
  - destruct (String.eqb k0 k); constructor; auto.
Qed.

Lemma dict_comprehension_Forall {A} (Q : pyval -> Prop) (f : A -> pyval) l :
  (forall x, Q (f x)) -> Forall (fun kv => Q (snd kv)) (dict_comprehension f l).
Proof.
  intros Hf. unfold dict_comprehension.
  assert (G : forall acc, Forall (fun kv => Q (snd kv)) acc ->
            Forall (fun kv => Q (snd kv))
              (fold_left (fun d kv => dict_set d (fst kv) (f (snd kv))) l acc)).
  { induction l as [|[k x] l IH]; intros acc Hacc; cbn; [assumption|].
    apply IH. now apply dict_set_Forall. }
  apply G. constructor.
Qed.

Lemma map_exc_Forall {A C} (f : A -> exc C) (Q : C -> Prop) l : forall r,
  (forall x y, f x = Ok y -> Q y) -> map_exc f l = Ok r -> Forall Q r.
Proof.
  induction l as [|x l IH]; intros r Hf H; cbn in H.
  - injection H as <-. constructor.
  - peel H. injection H as <-. constructor; eauto.
Qed.

Section Shapes.
Context {B : Builtins}.
Variable P : provider.

Lemma basic_system_info_dict v : basic_system_info P = Ok v -> is_dict v.
Proof.
  unfold basic_system_info. intros H. peel H.
  destruct (HAVE_DISTRO P); [peel H|]; injection H as <-; eexists; reflexivity.
Qed.

Lemma uptime_info_dict v : uptime_info P = Ok v -> is_dict v.
Proof.
  unfold uptime_info. intros H. peel H. injection H as <-. eexists; reflexivity.
Qed.

Lemma memory_info_dict v : memory_info P = Ok v -> is_dict v.
Proof.
  unfold memory_info. intros H. peel H. injection H as <-. eexists; reflexivity.
Qed.

Lemma cpu_info_shape v :
  cpu_info P = Ok v ->
  exists c, v = VDict c /\
    falsy_or_dict (dict_find c "cpu_freq") /\ falsy_or_dict (dict_find c "detailed").
Proof.
  unfold cpu_info. intros H. peel H. injection H as <-.
  eexists. split; [reflexivity|].
  destruct (cpu_freq P) as [[f|]|e], (HAVE_CPUINFO P); try destruct (get_cpu_info P) as [ci|e'];
    cbn; (split; [first [discriminate | intros _; eexists; reflexivity]
                 | first [discriminate | intros _; eexists; reflexivity]]).
Qed.

Lemma partition_dict_dict p v : partition_dict P p = Ok v -> is_dict v.
Proof.
  unfold partition_dict. intros H.
  destruct (disk_usage P (mountpoint p)) as [u|e]; cbn [bind try_except] in H.
  - destruct (get_size (du_total u)) as [t|e]; cbn [bind] in H;
      [|destruct e; try discriminate; injection H as <-; eexists; reflexivity].
    destruct (get_size (du_used u)) as [s|e]; cbn [bind] in H;
      [|destruct e; try discriminate; injection H as <-; eexists; reflexivity].
    destruct (get_size (du_free u)) as [f|e]; cbn [bind] in H;
      [|destruct e; try discriminate; injection H as <-; eexists; reflexivity].
    injection H as <-. eexists; reflexivity.
  - destruct e; try discriminate. injection H as <-. eexists; reflexivity.
Qed.

Lemma disks_info_shape v :
  disks_info P = Ok v ->
  exists ds parts, v = VDict ds /\
    match dict_find ds "partitions" with Some x => x | None => VList [] end = VList parts /\
    Forall is_dict parts.
Proof.
  unfold disks_info. intros H. peel H. injection H as <-.
  eexists. eexists. split; [reflexivity|]. split; [reflexivity|].
  eapply map_exc_Forall; [apply partition_dict_dict | eassumption].
Qed.

Lemma addr_dict_entry a : addr_entry (addr_dict a).
Proof. eexists _, _, _. repeat split; reflexivity. Qed.

Lemma network_info_shape v :
  network_info P = Ok v ->
  exists n ifs st, v = VDict n /\
    dict_find n "interfaces" = Some (VDict ifs) /\
    Forall (fun kv => exists l, snd kv = VList l /\ Forall addr_entry l) ifs /\
    dict_find n "stats" = Some (VDict st) /\
    Forall (fun kv => is_dict (snd kv)) st.
Proof.
  unfold network_info. intros H. peel H.
  assert (Hi : Forall (fun kv => exists l, snd kv = VList l /\ Forall addr_entry l)
                 (dict_comprehension (fun l => VList (map addr_dict l)) a)).
  { apply (dict_comprehension_Forall
             (fun v => exists l, v = VList l /\ Forall addr_entry l)).
    intros l. eexists. split; [reflexivity|].
    apply Forall_forall. intros x Hx. apply in_map_iff in Hx as (y & <- & _).
    apply addr_dict_entry. }
  assert (Hs : Forall (fun kv => is_dict (snd kv)) (dict_comprehension stats_dict a0)).
  { apply (dict_comprehension_Forall is_dict). intros x. eexists; reflexivity. }
  destruct a1 as [io|]; [peel H|]; injection H as <-;
    eexists _, _, _; (split; [reflexivity|]); (split; [reflexivity|]);
    (split; [exact Hi|]); (split; [reflexivity | exact Hs]).
Qed.

Lemma gpu_dict_entry x : gpu_entry (gpu_dict x).
Proof. eexists. split; [reflexivity|]. right. eexists. reflexivity. Qed.

Lemma gpu_info_shape :
  exists g, gpu_info P = VDict g /\
    (truthy (match dict_find g "available" with Some v => v | None => VNone end) = true ->
     exists gs,
       match dict_find g "gpus" with Some v => v | None => VList [] end = VList gs /\
       Forall gpu_entry gs).
Proof.
  unfold gpu_info. destruct (HAVE_GPUTIL P); cbn [negb].
  - destruct (getGPUs P) as [gpus|e]; eexists; (split; [reflexivity|]); cbn.
    + intros _. eexists. split; [reflexivity|].
      apply Forall_forall. intros x Hx. apply in_map_iff in Hx as (y & <- & _).
      apply gpu_dict_entry.
    + discriminate.
  - eexists. split; [reflexivity|]. cbn. discriminate.
Qed.

(** What the collector assembles has the shape the presenter relies
    on. *)
Lemma collect_all_presentable args report :
  collect_all P args = Ok report -> presentable report.
Proof.
  intros H. unfold collect_all in H. peel H. injection H as <-.
  eexists. split; [reflexivity|].
  split; [|split; [now apply network_info_shape | apply gpu_info_shape]].
  split; [now apply basic_system_info_dict|].
  split; [now apply uptime_info_dict|].
  split; [now apply memory_info_dict|].
  split; [now apply cpu_info_shape | now apply disks_info_shape].
Qed.

(** *** When the sections return *)

Lemma basic_system_info_answers :
  is_ok (getuser P) = true ->
  (HAVE_DISTRO P = true -> is_ok (distro_name P) = true) ->
  is_ok (basic_system_info P) = true.
Proof.
  unfold basic_system_info. intros Hu Hd.
  destruct (getuser P); [|discriminate]. cbn [bind].
  destruct (HAVE_DISTRO P); [|reflexivity].
  specialize (Hd eq_refl). destruct (distro_name P); [reflexivity | discriminate].
Qed.

Lemma uptime_info_answers ts iso secs :
  boot_time P = Ok ts -> boot_isoformat P ts = Ok iso ->
  float_trunc (uptime_total_seconds P ts) = Ok secs ->
  is_ok (uptime_info P) = true.
Proof.
  unfold uptime_info. intros H1 H2 H3. rewrite H1. cbn [bind].
  rewrite H2. cbn [bind]. rewrite H3. reflexivity.
Qed.

Lemma memory_info_answers vm sw :
  virtual_memory P = Ok vm -> swap_memory P = Ok sw ->
  byte_count (vm_total vm) -> byte_count (vm_available vm) ->
  byte_count (vm_used vm) -> byte_count (sw_total sw) -> byte_count (sw_used sw) ->
  is_ok (memory_info P) = true.
Proof.
  unfold memory_info. intros -> -> B1 B2 B3 B4 B5. cbn [bind].
  destruct (get_size_byte_count _ B1) as [? ->].
  destruct (get_size_byte_count _ B2) as [? ->].
  destruct (get_size_byte_count _ B3) as [? ->].
  destruct (get_size_byte_count _ B4) as [? ->].
  destruct (get_size_byte_count _ B5) as [? ->]. reflexivity.
Qed.

Lemma disks_info_answers parts io :
  disk_partitions P = Ok parts -> Forall (usage_answers P) parts ->
  disk_io_counters P = Ok io ->
  (forall c, io = Some c -> byte_count (read_bytes c) /\ byte_count (write_bytes c)) ->
  is_ok (disks_info P) = true.
Proof.
  unfold disks_info. intros -> Hparts -> Hio. cbn [bind].
  destruct (map_partition_dict P parts Hparts) as (entries & -> & _). cbn [bind].
  destruct io as [c|]; [|reflexivity].
  destruct (Hio c eq_refl) as [Br Bw].
  destruct (get_size_byte_count _ Br) as [? ->].
  destruct (get_size_byte_count _ Bw) as [? ->]. reflexivity.
Qed.

Lemma network_info_answers addrs stats io :
  net_if_addrs P = Ok addrs -> net_if_stats P = Ok stats ->
  net_io_counters P = Ok io ->
  (forall c, io = Some c -> byte_count (bytes_sent c) /\ byte_count (bytes_recv c)) ->
  is_ok (network_info P) = true.
Proof.
  unfold network_info. intros -> -> -> Hio. cbn [bind].
  destruct io as [c|]; [|reflexivity].
  destruct (Hio c eq_refl) as [Bs Br].
  destruct (get_size_byte_count _ Bs) as [? ->].
  destruct (get_size_byte_count _ Br) as [? ->]. reflexivity.
Qed.

Lemma top_processes_answers ps n :
  process_iter P = Ok ps -> Forall (fun p => reads p \/ vanished p) ps ->
  is_ok (top_processes P n) = true.
Proof.
  unfold top_processes. intros -> Hps. cbn [bind].
  destruct (read_processes_filter ps Hps) as (procs & -> & _). reflexivity.
Qed.

Lemma collect_all_of_answers args :
  answers P -> exists report, collect_all P args = Ok report.
Proof.
  intros (Hu & Hd & (ts & iso & secs & Hts & Hiso & Hsecs) & (C1 & C2 & C3 & C4)
          & (vm & sw & Hvm & Hsw & B1 & B2 & B3 & B4 & B5)
          & (parts & dio & Hparts & Husage & Hdio & Hdb)
          & (addrs & stats & nio & Ha & Hs & Hnio & Hnb)
          & (ps & Hps & Hread)).
  assert (H : is_ok (collect_all P args) = true).
  { apply collect_all_returns.
    - now apply basic_system_info_answers.
    - now apply (uptime_info_answers ts iso secs).
    - rewrite cpu_info_is_ok, C1, C2, C3, C4. reflexivity.
    - now apply (memory_info_answers vm sw).
    - now apply (disks_info_answers parts dio).
    - now apply (network_info_answers addrs stats nio).
    - now apply (top_processes_answers ps). }
  destruct (collect_all P args) as [report|e]; [now exists report | discriminate].
Qed.

(** The run once the report is there. *)
Lemma main_of_report args report out :
  collect_all P args = Ok report ->
  pretty_print P report false = (out, Ok tt) ->
  main P args
  = if json args
    then match open_report P with
         | Ok _ =>
             {| stdout := ((if quiet args then [] else out)
                           ++ ["Zapisano raport do system_report.json"])%list;
                written := [("system_report.json", report)];
                outcome := Ok tt |}
         | Raise e =>
             {| stdout := if quiet args then [] else out;
                written := []; outcome := Raise e |}
         end
    else {| stdout := if quiet args then [] else out;
            written := []; outcome := Ok tt |}.
Proof.
  intros Hc Hp. unfold main. rewrite Hc.
  destruct (quiet args); cbn [negb]; [|rewrite Hp];
    destruct (json args); try reflexivity;
    destruct (open_report P) as [[]|e]; reflexivity.
Qed.

(** What has that shape is printed to the end. *)
Lemma presentable_is_printed report show_boot :
  presentable report -> exists out, pretty_print P report show_boot = (out, Ok tt).
Proof.
  intros H. pose proof (pretty_print_returns P report show_boot H) as E.
  destruct (pretty_print P report show_boot) as [out r]. cbn in E. subst r.
  now exists out.
Qed.

(** X16.  Whatever the collector assembles, the presenter prints to the
    end: a collected report has the shape [pretty_print] relies on, and
    [pretty_print] returns on it, with or without the boot time. *)
Theorem collected_report_is_printed args report :
  collect_all P args = Ok report ->
  presentable report /\
  forall show_boot, exists out, pretty_print P report show_boot = (out, Ok tt).
Proof.
  intros H. pose proof (collect_all_presentable args report H) as Hp.
  split; [exact Hp|]. intros show_boot. now apply presentable_is_printed.
Qed.

(** X17.  A run can fail in two places only: while collecting, and then
    nothing has been printed, or, with [--json], at opening the report
    file, after the report has been collected.  In neither case is a file
    written. *)
Theorem main_fails_early args e :
  outcome (main P args) = Raise e ->
  written (main P args) = [] /\
  ((collect_all P args = Raise e /\ stdout (main P args) = []) \/
   (json args = true /\ open_report P = Raise e /\ is_ok (collect_all P args) = true)).
Proof.
  intros H. destruct (collect_all P args) as [report|e0] eqn:Hc.
  - destruct (presentable_is_printed report false
                (collect_all_presentable args report Hc)) as [out Hp].
    rewrite (main_of_report args report out Hc Hp) in H |- *.
    destruct (json args); [|discriminate].
    destruct (open_report P) as [[]|e1]; [discriminate|].
    injection H as ->. split; [reflexivity|]. right. repeat split.
  - unfold main in H |- *. rewrite Hc in H |- *. injection H as ->.
    split; [reflexivity|]. left. split; reflexivity.
Qed.

(** X18.  Once the report is collected, standard output holds the whole
    printed report unless [--quiet] was given, followed by the line about
    the saved file when [--json] was given and the file could be opened;
    the file then holds the very report that was printed. *)
Theorem main_prints_report args report :
  collect_all P args = Ok report ->
  exists out,
    pretty_print P report false = (out, Ok tt) /\
    stdout (main P args)
    = ((if quiet args then [] else out)
       ++ (if json args && is_ok (open_report P)
           then ["Zapisano raport do system_report.json"] else []))%list /\
    written (main P args)
    = (if json args && is_ok (open_report P)
       then [("system_report.json", report)] else []).
Proof.
  intros Hc.
  destruct (presentable_is_printed report false
              (collect_all_presentable args report Hc)) as [out Hp].
  exists out. split; [exact Hp|].
  rewrite (main_of_report args report out Hc Hp).
  destruct (json args); cbn [andb].
  - destruct (open_report P) as [[]|e1]; cbn [is_ok stdout written];
      [split; reflexivity | now rewrite app_nil_r].
  - cbn [stdout written]. now rewrite app_nil_r.
Qed.

(** X19.  On a host that answers (the calls the collector does not guard
    return, the byte counts are byte counts, every mount point answers the
    usage query or refuses permission, every process is read or has gone)
    the collector assembles a report for any arguments, and the run ends
    well unless the report file cannot be opened. *)
Theorem collect_all_answers args :
  answers P ->
  exists report,
    collect_all P args = Ok report /\
    (json args = false \/ open_report P = Ok tt -> outcome (main P args) = Ok tt).
Proof.
  intros HA. destruct (collect_all_of_answers args HA) as [report Hc].
  exists report. split; [exact Hc|]. intros Hj.
  destruct (presentable_is_printed report false
              (collect_all_presentable args report Hc)) as [out Hp].
  rewrite (main_of_report args report out Hc Hp).
  destruct (json args); [|reflexivity].
  destruct Hj as [Hj| ->]; [discriminate | reflexivity].
Qed.

End Shapes.

Lemma collected_report_is_printed_witness :
  presentable host_report /\
  forall show_boot, exists out,
    pretty_print (B := example_builtins) host host_report show_boot = (out, Ok tt).
Proof.
  apply (collected_report_is_printed (B := example_builtins) host host_args host_report).
  reflexivity.
Defined.

Lemma main_fails_early_witness :
  written (main (B := example_builtins) stale_host host_args) = [] /\
  ((collect_all (B := example_builtins) stale_host host_args
    = Raise (OSError "No such file or directory") /\
    stdout (main (B := example_builtins) stale_host host_args) = []) \/
   (json host_args = true /\
    open_report stale_host = Raise (OSError "No such file or directory") /\
    is_ok (collect_all (B := example_builtins) stale_host host_args) = true)).
Proof.
  apply (main_fails_early (B := example_builtins) stale_host host_args
           (OSError "No such file or directory")).
  reflexivity.
Defined.

Lemma main_prints_report_witness :
  exists out,
    pretty_print (B := example_builtins) host host_report false = (out, Ok tt) /\
    stdout (main (B := example_builtins) host host_args)
    = ((if quiet host_args then [] else out)
       ++ (if json host_args && is_ok (open_report host)
           then ["Zapisano raport do system_report.json"] else []))%list /\
    written (main (B := example_builtins) host host_args)
    = (if json host_args && is_ok (open_report host)
       then [("system_report.json", host_report)] else []).
Proof.
  apply (main_prints_report (B := example_builtins) host host_args host_report).
  reflexivity.
Defined.

Lemma host_answers : answers host.
Proof.
  split; [reflexivity|]. split; [discriminate|].
  split; [eexists _, _, _; repeat split; reflexivity|].
  split; [repeat split; reflexivity|].
  split.
  { eexists _, _. split; [reflexivity|]. split; [reflexivity|].
    unfold byte_count. cbn. repeat split; lia. }
  split.
  { eexists _, _. split; [reflexivity|]. split.
    - apply Forall_cons; [|apply Forall_cons; [|apply Forall_cons; [|apply Forall_nil]]].
      + right. eexists. split; [reflexivity|]. unfold byte_count. cbn. lia.
      + left. reflexivity.
      + right. eexists. split; [reflexivity|]. unfold byte_count. cbn. lia.
    - split; [reflexivity | discriminate]. }
  split.
  { eexists _, _, _. split; [reflexivity|]. split; [reflexivity|].
    split; [reflexivity | discriminate]. }
  eexists. split; [reflexivity | exact host_processes_read].
Defined.

Lemma collect_all_answers_witness :
  exists report,
    collect_all (B := example_builtins) host host_args = Ok report /\
    (json host_args = false \/ open_report host = Ok tt ->
     outcome (main (B := example_builtins) host host_args) = Ok tt).
Proof.
  apply (collect_all_answers (B := example_builtins) host host_args).
  exact host_answers.
Defined.
(* ================================================================== *)
(** ** The primary address of a collected network section *)
(* ================================================================== *)

(** [get_primary_ipv4] reads two entries of the section and no other. *)
Lemma scan_addrs_ext (R1 R2 : pyval) ifname l :
  getitem R1 "stats" = getitem R2 "stats" ->
  scan_addrs R1 ifname l = scan_addrs R2 ifname l.
Proof.
  intros H. induction l as [|a l IH]; [reflexivity|].
  cbn [scan_addrs]. now rewrite IH, H.
Qed.

Lemma scan_interfaces_ext (R1 R2 : pyval) ifs :
  getitem R1 "stats" = getitem R2 "stats" ->
  scan_interfaces R1 ifs = scan_interfaces R2 ifs.
Proof.
  intros H. induction ifs as [|[ifname v] ifs IH]; [reflexivity|].
  cbn [scan_interfaces]. rewrite IH.
  destruct (iter v) as [l|e]; [|reflexivity]. cbn [bind].
  now rewrite (scan_addrs_ext R1 R2 ifname l H).
Qed.

Lemma get_primary_ipv4_ext (P : provider) (R1 R2 : pyval) :
  getitem R1 "interfaces" = getitem R2 "interfaces" ->
  getitem R1 "stats" = getitem R2 "stats" ->
  get_primary_ipv4 P R1 = get_primary_ipv4 P R2.
Proof.
  intros Hi Hs. unfold get_primary_ipv4. rewrite Hi.
  destruct (getitem R2 "interfaces") as [v|e]; [|reflexivity]. cbn [bind].
  destruct (items v) as [ifs|e]; [|reflexivity]. cbn [bind].
  now rewrite (scan_interfaces_ext R1 R2 ifs Hs).
Qed.

Lemma network_info_tables (P : provider) net addrs stats :
  net_if_addrs P = Ok addrs -> net_if_stats P = Ok stats ->
  network_info P = Ok net ->
  getitem net "interfaces" = getitem (network_report_of addrs stats) "interfaces" /\
  getitem net "stats" = getitem (network_report_of addrs stats) "stats".
Proof.
  unfold network_info. intros -> -> H. cbn [bind] in H.
  destruct (net_io_counters P) as [[io|]|e]; cbn [bind] in H; [| |discriminate].
  - peel H. injection H as <-. split; reflexivity.
  - injection H as <-. split; reflexivity.
Qed.

Lemma first_eligible_some addrs ifname a :
  first_eligible addrs = Some (ifname, a) ->
  eligible a = true /\ exists l, In (ifname, l) addrs /\ In a l.
Proof.
  induction addrs as [|[i l] addrs IH]; cbn [first_eligible]; [discriminate|].
  destruct (find eligible l) as [x|] eqn:F.
  - intros [= <- <-]. apply find_some in F as [Hin He].
    split; [exact He|]. exists l. split; [now left | exact Hin].
  - intros H. destruct (IH H) as (He & l' & Hin & Ha).
    split; [exact He|]. exists l'. split; [now right | exact Ha].
Qed.

(** X20.  On the network section [network_info] collects,
    [get_primary_ipv4] never fails, and what it returns is never an empty
    address nor one that starts with 127.: it is an address of the table,
    with the name of its interface and the link speed recorded for it, or
    the address of the host name, or three times [None]. *)
Theorem primary_of_network_info (P : provider) (net : pyval)
    (addrs : list (string * list snicaddr)) (stats : list (string * snicstats)) :
  net_if_addrs P = Ok addrs -> net_if_stats P = Ok stats ->
  NoDup (map fst addrs) ->
  network_info P = Ok net ->
  exists a i s,
    get_primary_ipv4 P net = Ok (a, i, s) /\
    ((a = VNone /\ i = VNone /\ s = VNone) \/
     exists str,
       a = VStr str /\ str <> "" /\ startswith str "127." = false /\
       ((i = VStr "hostname" /\ s = VNone /\ first_eligible addrs = None /\
         gethostbyname_hostname P = Ok str) \/
        exists ifname x l,
          i = VStr ifname /\ In (ifname, l) addrs /\ In x l /\ address x = str /\
          str_contains "AF_INET" (family x) = true /\ s = speed_of stats ifname)).
Proof.
  intros Ha Hs Hnd Hnet.
  destruct (network_info_tables P net addrs stats Ha Hs Hnet) as [Ei Es].
  rewrite (get_primary_ipv4_ext P net (network_report_of addrs stats) Ei Es).
  rewrite (get_primary_ipv4_scan P addrs stats Hnd).
  destruct (first_eligible addrs) as [[ifname x]|] eqn:F.
  - destruct (first_eligible_some addrs ifname x F) as (He & l & Hin & Hx).
    unfold eligible in He.
    apply andb_prop in He as [He H127]. apply andb_prop in He as [Hfam Hne].
    eexists _, _, _. split; [reflexivity|]. right. exists (address x).
    split; [reflexivity|].
    split; [intros E; rewrite E in Hne; discriminate|].
    split; [now destruct (startswith (address x) "127.")|].
    right. exists ifname, x, l. repeat split; assumption.
  - unfold hostname_fallback.
    destruct (gethostbyname_hostname P) as [h|e];
      [|eexists _, _, _; split; [reflexivity | left; repeat split]].
    destruct (String.eqb_spec h "") as [->|Hne]; cbn [negb andb];
      [eexists _, _, _; split; [reflexivity | left; repeat split]|].
    destruct (startswith h "127.") eqn:H127; cbn [negb];
      eexists _, _, _; (split; [reflexivity|]); [left; repeat split|].
    right. exists h. split; [reflexivity|]. split; [exact Hne|].
    split; [exact H127|]. left. repeat split.
Qed.

Lemma primary_of_network_info_witness :
  exists a i s,
    get_primary_ipv4 host
      (match network_info host with Ok net => net | Raise _ => VNone end)
    = Ok (a, i, s) /\
    ((a = VNone /\ i = VNone /\ s = VNone) \/
     exists str,
       a = VStr str /\ str <> "" /\ startswith str "127." = false /\
       ((i = VStr "hostname" /\ s = VNone /\
         first_eligible [("lo", [inet "127.0.0.1"; inet6 "::1"]);
                         ("eth0", [inet "192.168.1.5"])] = None /\
         gethostbyname_hostname host = Ok str) \/
        exists ifname x l,
          i = VStr ifname /\
          In (ifname, l) [("lo", [inet "127.0.0.1"; inet6 "::1"]);
                          ("eth0", [inet "192.168.1.5"])] /\
          In x l /\ address x = str /\
          str_contains "AF_INET" (family x) = true /\
          s = speed_of [("lo", {| isup := true; duplex := "NicDuplex.NIC_DUPLEX_UNKNOWN";
                                  speed := 0; mtu := 65536 |})] ifname)).
Proof.
  apply (primary_of_network_info host
           (match network_info host with Ok net => net | Raise _ => VNone end)
           [("lo", [inet "127.0.0.1"; inet6 "::1"]); ("eth0", [inet "192.168.1.5"])]
           [("lo", {| isup := true; duplex := "NicDuplex.NIC_DUPLEX_UNKNOWN";
                      speed := 0; mtu := 65536 |})]).
  - reflexivity.
  - reflexivity.
  - repeat constructor; cbn; intuition discriminate.
  - reflexivity.
Defined.
(* ================================================================== *)
(** ** sdchecker.py from top to bottom *)
(* ================================================================== *)

(** A loop whose body only prints. *)
Lemma for_each_lines {A} (l : list A) (body : A -> io unit) (lines : A -> list string) :
  (forall x, body x = (lines x, Ok tt)) ->
  for_each l body = (flat_map lines l, Ok tt).
Proof.
  intros Hb. induction l as [|x l IH]; [reflexivity|].
  cbn [for_each flat_map]. rewrite Hb, IH. reflexivity.
Qed.

Lemma flat_map_filter {A C} (f : A -> list C) (p : A -> bool) (l : list A) :
  flat_map f (filter p l) = flat_map (fun a => if p a then f a else []) l.
Proof.
  induction l as [|a l IH]; [reflexivity|].
  cbn [filter flat_map]. destruct (p a); cbn [flat_map app]; now rewrite IH.
Qed.

Lemma flat_map_concat {A C} (f : A -> list C) (ll : list (list A)) :
  flat_map f (List.concat ll) = flat_map (flat_map f) ll.
Proof.
  induction ll as [|l ll IH]; [reflexivity|].
  cbn [List.concat flat_map]. now rewrite flat_map_app, IH.
Qed.

Lemma flat_map_map {A A' C} (f : A' -> list C) (h : A -> A') (l : list A) :
  flat_map f (map h l) = flat_map (fun x => f (h x)) l.
Proof.
  induction l as [|x l IH]; [reflexivity|]. cbn [map flat_map]. now rewrite IH.
Qed.

Lemma sdchecker_get_size_answers (n : Z) :
  byte_count n -> exists o, Sdchecker.get_size n "B" = Ok o.
Proof.
  intros [H0 H].
  assert (2 ^ 64 < 2 ^ 1023)%Z by (apply Z.pow_lt_mono_r; lia).
  destruct (sdchecker_get_size_vs_tool n H0 ltac:(lia)) as (s & _ & ->).
  eexists. reflexivity.
Qed.

Section Script.
Context {B : Builtins}.
Variable P : provider.

Lemma address_lines_prints (a : snicaddr) :
  SdcheckerScript.address_lines a
  = (if is_ipv4 a then address_report a else [], Ok tt).
Proof.
  unfold SdcheckerScript.address_lines, is_ipv4.
  destruct (String.eqb (family a) "AddressFamily.AF_INET"); reflexivity.
Qed.

Lemma network_block_lines ifs :
  net_if_addrs P = Ok ifs ->
  SdcheckerScript.network_block P
  = (join " " [str_repeat "-" 37; "Informacje sieciowe"; str_repeat "-" 36]
       :: flat_map address_report (filter is_ipv4 (List.concat (map snd ifs))),
     Ok tt).
Proof.
  intros H. unfold SdcheckerScript.network_block. rewrite H.
  unfold lift, print, io_bind.
  rewrite (for_each_lines ifs _
             (fun kv => flat_map (fun a => if is_ipv4 a then address_report a else [])
                          (snd kv))).
  2:{ intros kv. apply for_each_lines. apply address_lines_prints. }
  rewrite flat_map_filter, flat_map_concat, flat_map_map. reflexivity.
Qed.

Lemma disk_section_answers parts :
  Forall (usage_answers P) parts ->
  snd (Sdchecker.disk_section parts (disk_usage P)) = Ok tt.
Proof.
  intros H. unfold Sdchecker.disk_section. apply snd_for_each.
  eapply Forall_impl; [|exact H]. intros p [Hd|(u & Hu & Bt & Bu & Bf)].
  - rewrite Hd. reflexivity.
  - rewrite Hu.
    destruct (sdchecker_get_size_answers _ Bt) as [t ->].
    destruct (sdchecker_get_size_answers _ Bu) as [s ->].
    destruct (sdchecker_get_size_answers _ Bf) as [f ->]. reflexivity.
Qed.

(** X21.  Where [psutil.cpu_freq()] returns [None], as it does on hosts
    that do not report a frequency, [sdchecker.py] stops at the line about
    the frequency with an [AttributeError]: the block about the system and
    the first three lines about the processor are all it prints, and
    nothing about memory, disks or network follows. *)
Theorem script_stops_without_frequency (stdin_line : exc string) (count : option Z) :
  cpu_count_logical P = Ok count ->
  cpu_freq P = Ok None ->
  SdcheckerScript.script P stdin_line
  = ((fst (SdcheckerScript.system_block P)
      ++ [join " " [str_repeat "-" 34; "Informacje o procesorze "; str_repeat "-" 34];
          "Procesor: " +++ u_processor (uname P);
          join " " ["Ilość rdzeni:"; py_str (opt_int count)]])%list,
     Raise AttributeError).
Proof.
  intros Hc Hf. unfold SdcheckerScript.script, SdcheckerScript.cpu_block.
  rewrite Hc, Hf. reflexivity.
Qed.

(** X22.  The network block of [sdchecker.py] prints, under its heading,
    two lines (address and netmask) for each address whose family string
    is exactly that of IPv4, in the order of the table, loopback addresses
    included, and nothing for any other address; it does not name the
    interfaces. *)
Theorem network_block_ipv4_only ifs :
  net_if_addrs P = Ok ifs ->
  SdcheckerScript.network_block P
  = (join " " [str_repeat "-" 37; "Informacje sieciowe"; str_repeat "-" 36]
       :: flat_map address_report (filter is_ipv4 (List.concat (map snd ifs))),
     Ok tt) /\
  List.length (fst (SdcheckerScript.network_block P))
  = S (2 * List.length (filter is_ipv4 (List.concat (map snd ifs)))).
Proof.
  intros H. rewrite (network_block_lines ifs H). split; [reflexivity|].
  cbn [fst List.length]. f_equal.
  induction (filter is_ipv4 (List.concat (map snd ifs))) as [|a l IH]; [reflexivity|].
  cbn [flat_map address_report app List.length]. rewrite IH. lia.
Qed.

(** X23.  On a host whose calls answer and which reports a clock
    frequency, [sdchecker.py] runs to its end, whatever the partitions it
    may not read. *)
Theorem script_runs (stdin_line : exc string) :
  script_answers P stdin_line -> snd (SdcheckerScript.script P stdin_line) = Ok tt.
Proof.
  intros (Hc & [f Hf] & Hpc & Htot & (vm & Hvm & Bt & Bu)
          & (parts & Hparts & Husage) & Hnet & Hin).
  unfold SdcheckerScript.script.
  rewrite (snd_bind _ _ tt) by reflexivity.
  rewrite (snd_bind _ _ tt).
  2:{ unfold SdcheckerScript.cpu_block.
      destruct (cpu_count_logical P) as [count|]; [|discriminate].
      destruct (cpu_percent_percpu P) as [per_core|]; [|discriminate].
      destruct (cpu_percent_total P) as [total|]; [|discriminate].
      rewrite Hf.
      repeat (erewrite snd_bind by reflexivity).
      rewrite (snd_bind _ _ tt); [repeat (erewrite snd_bind by reflexivity); reflexivity|].
      apply snd_for_each. apply Forall_forall. intros x _. reflexivity. }
  rewrite (snd_bind _ _ tt).
  2:{ unfold SdcheckerScript.ram_block. rewrite Hvm.
      repeat (erewrite snd_bind by reflexivity).
      destruct (sdchecker_get_size_answers _ Bt) as [t ->].
      repeat (erewrite snd_bind by reflexivity).
      destruct (sdchecker_get_size_answers _ Bu) as [u ->]. reflexivity. }
  rewrite (snd_bind _ _ tt).
  2:{ unfold SdcheckerScript.disk_block. rewrite Hparts.
      repeat (erewrite snd_bind by reflexivity).
      now apply disk_section_answers. }
  rewrite (snd_bind _ _ tt).
  2:{ destruct (net_if_addrs P) as [ifs|] eqn:E; [|discriminate].
      rewrite (network_block_lines ifs E). reflexivity. }
  destruct stdin_line as [line|]; [reflexivity | discriminate].
Qed.

End Script.

Lemma script_stops_without_frequency_witness :
  SdcheckerScript.script (B := example_builtins) host (Ok "")
  = ((fst (SdcheckerScript.system_block host)
      ++ [join " " [str_repeat "-" 34; "Informacje o procesorze "; str_repeat "-" 34];
          "Procesor: " +++ u_processor (uname host);
          join " " ["Ilość rdzeni:"; py_str (B := example_builtins) (opt_int (Some 8%Z))]])%list,
     Raise AttributeError).
Proof.
  apply (script_stops_without_frequency (B := example_builtins) host (Ok "") (Some 8%Z));
    reflexivity.
Defined.

Lemma network_block_ipv4_only_witness :
  SdcheckerScript.network_block (B := example_builtins) host
  = (join " " [str_repeat "-" 37; "Informacje sieciowe"; str_repeat "-" 36]
       :: flat_map (address_report (B := example_builtins))
            (filter is_ipv4
               (List.concat (map snd [("lo", [inet "127.0.0.1"; inet6 "::1"]);
                                 ("eth0", [inet "192.168.1.5"])]))),
     Ok tt) /\
  List.length (fst (SdcheckerScript.network_block (B := example_builtins) host))
  = S (2 * List.length
             (filter is_ipv4
                (List.concat (map snd [("lo", [inet "127.0.0.1"; inet6 "::1"]);
                                  ("eth0", [inet "192.168.1.5"])])))).
Proof.
  apply (network_block_ipv4_only (B := example_builtins) host
           [("lo", [inet "127.0.0.1"; inet6 "::1"]); ("eth0", [inet "192.168.1.5"])]).
  reflexivity.
Defined.

Lemma script_runs_witness :
  snd (SdcheckerScript.script (B := example_builtins) clocked_host (Ok "")) = Ok tt.
Proof.
  apply (script_runs (B := example_builtins) clocked_host (Ok "")).
  split; [reflexivity|]. split; [eexists; reflexivity|].
  split; [reflexivity|]. split; [reflexivity|].
  split.
  { eexists. split; [reflexivity|]. unfold byte_count. cbn. lia. }
  split.
  { eexists. split; [reflexivity|].
    apply Forall_cons; [|apply Forall_cons; [|apply Forall_cons; [|apply Forall_nil]]].
    - right. eexists. split; [reflexivity|]. unfold byte_count. cbn. lia.
    - left. reflexivity.
    - right. eexists. split; [reflexivity|]. unfold byte_count. cbn. lia. }
  split; reflexivity.
Defined.
